(** * Flake8Lint: the Sublime Text plugin that runs flake8 on the edited file

    A shallow embedding of [Flake8Lint.py] and the properties of its
    post-processing of lint results (noqa suppression, select / ignore
    filtering, de-duplication, highlight regions, gutter marks), of the
    engine dispatch and error dialogs of the [flake8_lint] command, of the
    per-view error dictionary and of the lint-on-load polling handler.

    Conventions of the embedding:
    - Python text is a [string]; a character is a code point below 256.
    - Python integers are [Z].
    - Values read from settings files are dynamically typed: [PyVal].
    - A Python exception is a value [Raise x] of the result type [Exc].
    - Calls to the host editor are recorded, in order, as [Effect]s.
    - Dictionaries are [gmap]s. *)

From Stdlib Require Import ZArith Ascii Lia.
From stdpp Require Import gmap strings list fin_maps pretty.

Set Warnings "-register-all".
Local Open Scope Z_scope.

(* ===================================================================== *)
(** ** Python text operations *)
(* ===================================================================== *)

Module PyStr.

(** [unicode.isspace] on the code points below 256. *)
Definition isspace (c : ascii) : bool :=
  let n := nat_of_ascii c in
  ((9 <=? n) && (n <=? 13) || (28 <=? n) && (n <=? 32)
   || (n =? 133) || (n =? 160))%nat.

(** The characters of the argument of [rstrip('\r\n')]. *)
Definition is_crlf (c : ascii) : bool :=
  let n := nat_of_ascii c in ((n =? 13) || (n =? 10))%nat.

(** [unicode.lower] on one code point below 256. *)
Definition lower_char (c : ascii) : ascii :=
  let n := nat_of_ascii c in
  if ((65 <=? n) && (n <=? 90)
      || (192 <=? n) && (n <=? 222) && negb (n =? 215))%nat
  then ascii_of_nat (n + 32) else c.

Fixpoint lower (s : string) : string :=
  match s with
  | "" => ""
  | String c s' => String (lower_char c) (lower s')
  end.

Fixpoint len (s : string) : Z :=
  match s with
  | "" => 0
  | String _ s' => 1 + len s'
  end.

(** [s.lstrip()] and [s.rstrip()], over the set of characters [p]. *)
Fixpoint lstrip_by (p : ascii → bool) (s : string) : string :=
  match s with
  | "" => ""
  | String c s' => if p c then lstrip_by p s' else s
  end.

Fixpoint rstrip_by (p : ascii → bool) (s : string) : string :=
  match s with
  | "" => ""
  | String c s' =>
      match rstrip_by p s' with
      | "" => if p c then "" else String c ""
      | r => String c r
      end
  end.

Definition lstrip (s : string) : string := lstrip_by isspace s.
Definition rstrip (s : string) : string := rstrip_by isspace s.
Definition strip (s : string) : string := rstrip (lstrip s).

Fixpoint startswith (s pre : string) {struct pre} : bool :=
  match pre, s with
  | "", _ => true
  | String _ _, "" => false
  | String a pre', String b s' =>
      if decide (a = b) then startswith s' pre' else false
  end.

Fixpoint endswith (s suf : string) : bool :=
  bool_decide (s = suf)
  || match s with
     | "" => false
     | String _ s' => endswith s' suf
     end.

(** [s.partition(sep)] when [sep] occurs in [s]. *)
Fixpoint cut (sep : ascii) (s : string) : option (string * string) :=
  match s with
  | "" => None
  | String c s' =>
      if decide (c = sep) then Some ("", s')
      else match cut sep s' with
           | Some (a, b) => Some (String c a, b)
           | None => None
           end
  end.

(** [s.split(sep, 1)]: one piece without [sep], two pieces with it. *)
Definition split1 (sep : ascii) (s : string) : list string :=
  match cut sep s with
  | Some (a, b) => [a; b]
  | None => [s]
  end.

(** [s.split(sep)]. *)
Fixpoint split (sep : ascii) (s : string) : list string :=
  match s with
  | "" => [""]
  | String c s' =>
      if decide (c = sep) then "" :: split sep s'
      else match split sep s' with
           | h :: t => String c h :: t
           | [] => [String c ""]
           end
  end.

(** [s[n:]] for [n] from [len]. *)
Fixpoint drop (n : nat) (s : string) : string :=
  match n, s with
  | O, _ => s
  | S n', String _ s' => drop n' s'
  | S _, "" => ""
  end.

Fixpoint length (s : string) : nat :=
  match s with
  | "" => O
  | String _ s' => S (length s')
  end.

(** [' / '.join(l)] and the like. *)
Fixpoint join (sep : string) (l : list string) : string :=
  match l with
  | [] => ""
  | [x] => x
  | x :: l' => x +:+ sep +:+ join sep l'
  end.

End PyStr.

(* ===================================================================== *)
(** ** Dynamically typed values and exceptions *)
(* ===================================================================== *)

(** The values a settings file can hold (JSON), floats left out. *)
Inductive PyVal : Type :=
| PNone
| PBool (b : bool)
| PInt (n : Z)
| PStr (s : string)
| PList (l : list PyVal)
| PDict (d : list (string * PyVal)).

Inductive Exn : Type :=
| TypeError | ValueError | AttributeError | IndexError | OtherError.

Inductive Exc (A : Type) : Type :=
| Ok (a : A)
| Raise (x : Exn).
Arguments Ok {A} a.
Arguments Raise {A} x.

Definition exc_bind {A B} (m : Exc A) (k : A → Exc B) : Exc B :=
  match m with
  | Ok a => k a
  | Raise x => Raise x
  end.

Module Py.

(** Truth value of a value, as [if v:] tests it. *)
Definition truthy (v : PyVal) : bool :=
  match v with
  | PNone => false
  | PBool b => b
  | PInt n => negb (n =? 0)
  | PStr s => negb (bool_decide (s = ""))
  | PList l => negb (bool_decide (l = []))
  | PDict d => negb (bool_decide (d = []))
  end.

(** [a or b]. *)
Definition or_ (a b : PyVal) : PyVal := if truthy a then a else b.

(** [v == s] for a text constant [s]. *)
Definition eq_str (v : PyVal) (s : string) : bool :=
  match v with
  | PStr s' => bool_decide (s' = s)
  | _ => false
  end.

(** [v in (s1, s2, ...)] for a tuple of text constants. *)
Definition in_strs (v : PyVal) (l : list string) : bool :=
  existsb (eq_str v) l.

Fixpoint chars (s : string) : list PyVal :=
  match s with
  | "" => []
  | String c s' => PStr (String c "") :: chars s'
  end.

(** The items [for x in v] goes through. *)
Definition iter (v : PyVal) : Exc (list PyVal) :=
  match v with
  | PList l => Ok l
  | PStr s => Ok (chars s)
  | PDict d => Ok (PStr <$> d.*1)
  | PNone | PBool _ | PInt _ => Raise TypeError
  end.

(** [code.startswith(c)]: the argument must be text. *)
Definition startswith (code : string) (c : PyVal) : Exc bool :=
  match c with
  | PStr p => Ok (PyStr.startswith code p)
  | _ => Raise TypeError
  end.

(** [[c for c in items if code.startswith(c)]]: every item is tested. *)
Fixpoint prefixes_of (code : string) (items : list PyVal)
  : Exc (list PyVal) :=
  match items with
  | [] => Ok []
  | c :: rest =>
      exc_bind (startswith code c) (λ b,
      exc_bind (prefixes_of code rest) (λ r,
      Ok (if b then c :: r else r)))
  end.

(** [sel and [c for c in sel if code.startswith(c)]], as a condition. *)
Definition code_selected_by (sel : PyVal) (code : string) : Exc bool :=
  if truthy sel then
    exc_bind (iter sel) (λ items,
    exc_bind (prefixes_of code items) (λ hits,
    Ok (truthy (PList hits))))
  else Ok false.

(** [a, b = l]. *)
Definition unpack2 {A} (l : list A) : Exc (A * A) :=
  match l with
  | [a; b] => Ok (a, b)
  | _ => Raise ValueError
  end.

End Py.

Global Instance exc_ret : MRet Exc := @Ok.
Global Instance exc_bind_inst : MBind Exc := λ A B k m, exc_bind m k.

(* ===================================================================== *)
(** ** The host editor, as the plugin sees it *)
(* ===================================================================== *)

(** [sublime.Region(a, b)]. *)
Record Region : Type := mkRegion { region_a : Z; region_b : Z }.

(** One lint result [e]: [e[0]] is the line (from 1), [e[1]] the column,
    [e[2]] the text, which starts with the error code. *)
Record Error : Type := mkError { e_line : Z; e_col : Z; e_text : string }.

(** [region.end()]. *)
Definition region_end (r : Region) : Z := Z.max (region_a r) (region_b r).

Global Instance Region_eq_dec : EqDecision Region.
Proof. solve_decision. Defined.
Global Instance Error_eq_dec : EqDecision Error.
Proof. solve_decision. Defined.

(** [view.window()], when there is one. *)
Record Window : Type := mkWindow {
  active_view : option Z;          (* id of [window.active_view()] *)
}.

(** What the methods of a [sublime.View] answer at the time of a call. *)
Record View : Type := mkView {
  view_id : Z;
  view_file_name : option string;
  view_is_python : bool;           (* [match_selector(0, 'source.python')] *)
  view_is_dirty : bool;
  view_is_loading : bool;
  view_is_scratch : bool;
  view_window : option Window;
  view_flake8lint : gmap string PyVal;  (* [settings().get('flake8lint') or {}] *)
  view_sel : list Region;
  view_rowcol : Z → Z * Z;
  view_text_point : Z → Z → Z;
  view_full_line : Z → Region;
  view_substr : Region → string;
}.

Inductive DrawFlag : Type := DRAW_OUTLINED | HIDDEN.

(** The callback given to [sublime.set_timeout]. *)
Inductive Callback : Type :=
| lintOnLoad_retry (view : Z).   (* [lambda: self._lintOnLoad(view, True)] *)

(** Calls into the host editor and the lint engine, in program order. *)
Inductive Effect : Type :=
| erase_regions (view : Z) (key : string)
| erase_status (view : Z) (key : string)
| set_status (view : Z) (key value : string)
| add_regions (view : Z) (key : string) (regions : list Region)
              (scope : string) (icon : PyVal) (flags : DrawFlag)
| show_quick_panel (view : Z) (items : list (list string))
| sel_clear (view : Z)
| sel_add (view : Z) (r : Region)
| show_at_center (view : Z) (point : Z)
| error_message (msg : string)
| message_dialog (msg : string)
| print (msg : string)
| run_command (view : Z) (name : string)
| set_timeout (callback : Callback) (delay : Z)
| lint_call (filename : string) (view_settings : gmap string PyVal)
| lint_external_call (filename : string) (view_settings : gmap string PyVal)
                     (interpreter : PyVal) (linter : string).

(** The mutable state of the plugin: the module-level dictionary, the
    attributes of the command and listener objects, and the calls made. *)
Record Plugin : Type := mkPlugin {
  ERRORS_IN_VIEWS : gmap Z (gmap Z (list string));
  errors_list : list Error;              (* [self.errors_list] of the command *)
  last_selected_line : option Z;         (* [self._last_selected_line] *)
  effects : list Effect;
}.

(** Code that changes the plugin state and may raise. *)
Definition M (A : Type) : Type := Plugin → Plugin * Exc A.

Definition m_ret {A} (a : A) : M A := λ st, (st, Ok a).
Definition m_bind {A B} (m : M A) (k : A → M B) : M B :=
  λ st, match m st with
        | (st', Ok a) => k a st'
        | (st', Raise x) => (st', Raise x)
        end.
Global Instance M_ret : MRet M := @m_ret.
Global Instance M_bind : MBind M := λ A B k m, m_bind m k.

Definition emit (c : Effect) : M unit :=
  λ st, (mkPlugin (ERRORS_IN_VIEWS st) (errors_list st)
                  (last_selected_line st) (effects st ++ [c]), Ok tt).
Definition raise {A} (x : Exn) : M A := λ st, (st, Raise x).
Definition lift {A} (r : Exc A) : M A := λ st, (st, r).
Definition get_state : M Plugin := λ st, (st, Ok st).
Definition set_errors_list (l : list Error) : M unit :=
  λ st, (mkPlugin (ERRORS_IN_VIEWS st) l
                  (last_selected_line st) (effects st), Ok tt).
Definition set_last_selected_line (o : option Z) : M unit :=
  λ st, (mkPlugin (ERRORS_IN_VIEWS st) (errors_list st) o (effects st), Ok tt).
Definition set_view_errors (view : Z) (d : gmap Z (list string)) : M unit :=
  λ st, (mkPlugin (<[view := d]> (ERRORS_IN_VIEWS st)) (errors_list st)
                  (last_selected_line st) (effects st), Ok tt).

(** [d.get(key)] and [d.get(key, default)] on a settings dictionary. *)
Definition dict_get (d : gmap string PyVal) (key : string) : PyVal :=
  default PNone (d !! key).
Definition dict_get_or (d : gmap string PyVal) (key : string) (dflt : PyVal)
  : PyVal := default dflt (d !! key).

(** A [for] loop over a list whose body may raise. *)
Fixpoint for_each {S A} (body : S → A → Exc S) (acc : S) (l : list A)
  : Exc S :=
  match l with
  | [] => Ok acc
  | x :: l' => acc' ← body acc x; for_each body acc' l'
  end.

(* ===================================================================== *)
(** ** Module-level helpers of [Flake8Lint.py] *)
(* ===================================================================== *)

(** [skip_line(line)]: the line ends with a [# noqa] or [# NOQA] comment. *)
Definition skip_line (line : string) : bool :=
  PyStr.endswith (PyStr.lower (PyStr.strip line)) "# noqa".

(** [get_current_line(view)]: the row under the cursor, if any. *)
Definition get_current_line (view : View) : option Z :=
  match view_sel view with
  | [] => None
  | r :: _ => Some (view_rowcol view (region_end r)).1
  end.

Definition clear_statusbar (view : View) : M unit :=
  emit (erase_status (view_id view) "flake8-tip").

Definition update_statusbar (view : View) : M unit :=
  st ← get_state;
  match ERRORS_IN_VIEWS st !! view_id view with
  | None => mret tt
  | Some view_errors =>
      match view_sel view with
      | [] => mret tt
      | _ =>
          match get_current_line view with
          | None => mret tt
          | Some current_line =>
              match view_errors !! current_line with
              | Some errors =>
                  emit (set_status (view_id view) "flake8-tip"
                          ("flake8: " +:+ PyStr.join " / " errors))
              | None => clear_statusbar view
              end
          end
      end
  end.

(* ===================================================================== *)
(** ** [Flake8LintCommand.show_errors] *)
(* ===================================================================== *)

(** The variables the loop of [show_errors] updates. *)
Record LoopVars : Type := mkLoopVars {
  errors_to_show : list (list string);
  errors_list_filtered : list Error;
  regions : list Region;
  view_errors : gmap Z (list string);
}.

Definition loop_init : LoopVars := mkLoopVars [] [] [] ∅.

Section show_errors.

Variable view : View.
Variables select ignore is_highlight is_popup mark : PyVal.

(** One turn of [for e in self.errors_list]; [continue] returns the
    variables unchanged. *)
Definition show_errors_body (vars : LoopVars) (e : Error) : Exc LoopVars :=
  let current_line := e_line e - 1 in
  let error_text := e_text e in
  let text_point := view_text_point view current_line 0 in
  let line := view_full_line view text_point in
  let full_line_text := view_substr view line in
  let line_text := PyStr.strip full_line_text in
  if skip_line line_text then Ok vars else
  '(code, _) ← Py.unpack2 (PyStr.split1 " " error_text);
  selected ← Py.code_selected_by select code;
  if selected : bool then Ok vars else
  ignored ← Py.code_selected_by ignore code;
  if ignored : bool then Ok vars else
  let error := [error_text; pretty (current_line + 1) +:+ ": " +:+ line_text] in
  if bool_decide (error ∈ errors_to_show vars) then Ok vars else
  let errors_to_show' := errors_to_show vars ++ [error] in
  let errors_list_filtered' :=
    if Py.truthy is_popup then errors_list_filtered vars ++ [e]
    else errors_list_filtered vars in
  let regions' :=
    if Py.truthy is_highlight || Py.truthy mark then
      let line_text := PyStr.rstrip_by PyStr.is_crlf full_line_text in
      let line_length := PyStr.len line_text in
      let start := text_point + line_length - PyStr.len (PyStr.lstrip line_text) in
      let end_ := text_point + line_length in
      let start :=
        if bool_decide (code = "E501") then text_point + e_col e else start in
      regions vars ++ [mkRegion start end_]
    else regions vars in
  let view_errors' :=
    <[current_line := default [] (view_errors vars !! current_line) ++ [error_text]]>
      (view_errors vars) in
  Ok (mkLoopVars errors_to_show' errors_list_filtered' regions' view_errors').

Definition show_errors_loop (errs : list Error) : Exc LoopVars :=
  for_each show_errors_body loop_init errs.

End show_errors.

Definition gutter_marks : list string := [""; "dot"; "circle"; "bookmark"; "cross"].

(** [show_errors(self, view_settings)]; [settings] is the plugin's
    settings object. *)
Definition show_errors (settings : gmap string PyVal) (view : View)
    (view_settings : gmap string PyVal) : M unit :=
  let select := Py.or_ (dict_get view_settings "select") (PList []) in
  let ignore := Py.or_ (dict_get view_settings "ignore") (PList []) in
  let is_highlight := dict_get_or settings "highlight" (PBool false) in
  let is_popup := dict_get_or settings "popup" (PBool true) in
  let mark := dict_get_or settings "gutter_marks" (PStr "") in
  let mark := if negb (Py.in_strs mark gutter_marks) then PStr "" else mark in
  st ← get_state;
  vars ← lift (show_errors_loop view select ignore is_highlight is_popup mark
                 (errors_list st));
  set_errors_list (errors_list_filtered vars);;
  set_view_errors (view_id view) (view_errors vars);;
  (if Py.truthy is_highlight then
     emit (add_regions (view_id view) "flake8-errors" (regions vars)
             "invalid.deprecated" mark DRAW_OUTLINED)
   else if Py.truthy mark then
     emit (add_regions (view_id view) "flake8-errors" (regions vars)
             "invalid.deprecated" mark HIDDEN)
   else mret tt);;
  if Py.truthy is_popup then
    match view_window view with
    | None => raise AttributeError
    | Some _ => emit (show_quick_panel (view_id view) (errors_to_show vars))
    end
  else mret tt.

(* ===================================================================== *)
(** ** The environment of a lint run *)
(* ===================================================================== *)

(** What the plugin calls but does not define: the [os] and [fnmatch]
    modules, the [sublime] module, and the plugin's [lint] module.  A view
    without a file has [None] as its name, and what [os.path.abspath]
    does with [None] is the library's: an exception of one kind or
    another, or a path, by platform and version. *)
Record Host : Type := mkHost {
  os_name : string;
  os_sep : ascii;
  os_path_abspath : string → string;
  os_path_basename : string → string;
  os_path_exists : PyVal → Exc bool;
  os_path_join : list string → string;
  fnmatch : string → PyVal → Exc bool;
  set_order : list string → list string;   (* the order [set(l)] iterates in *)
  str_of : PyVal → string;                 (* ['%s' % v] *)
  settings : gmap string PyVal;            (* [Flake8Lint.sublime-settings] *)
  packages_path : string;
  active_window_folders : list string;
  FLAKE_DIR : string;
  lint : string → gmap string PyVal → list Error;
  lint_external : string → gmap string PyVal → PyVal → string → list Error;
  skip_file : string → bool;
  load_flake8_config : string → PyVal → PyVal → gmap string PyVal;
  os_path_abspath_None : Exc string;       (* [os.path.abspath(None)] *)
}.

Definition PROJECT_SETTINGS_KEYS : list string :=
  ["python_interpreter"; "builtins"; "pyflakes"; "pep8"; "complexity";
   "pep8_max_line_length"; "select"; "ignore"; "ignore_files";
   "use_flake8_global_config"; "use_flake8_project_config"].

Definition FLAKE8_SETTINGS_KEYS : list string :=
  ["ignore"; "select"; "ignore_files"; "pep8_max_line_length"].

(** [get_view_settings(view)]. *)
Definition get_view_settings (host : Host) (view : View)
  : Exc (gmap string PyVal) :=
  let view_settings := view_flake8lint view in
  let result_settings :=
    foldl (λ (result : gmap string PyVal) param,
             match view_settings !! param with
             | Some v => <[param := v]> result
             | None =>
                 match settings host !! param with
                 | Some v => <[param := v]> result
                 | None => result
                 end
             end) ∅ PROJECT_SETTINGS_KEYS in
  let global_config :=
    dict_get_or result_settings "use_flake8_global_config" (PBool false) in
  let project_config :=
    dict_get_or result_settings "use_flake8_project_config" (PBool false) in
  if Py.truthy global_config || Py.truthy project_config then
    filename ←
      match view_file_name view with
      | Some name => Ok (os_path_abspath host name)
      | None => os_path_abspath_None host
      end;
    let flake8_config :=
      load_flake8_config host filename global_config project_config in
    Ok (foldl (λ (result : gmap string PyVal) param,
                 match flake8_config !! param with
                 | Some v => <[param := v]> result
                 | None => result
                 end) result_settings FLAKE8_SETTINGS_KEYS)
  else Ok result_settings.

(** [any(f(x) for x in l)]: stops at the first true item or exception. *)
Fixpoint any_exc {A} (f : A → Exc bool) (l : list A) : Exc bool :=
  match l with
  | [] => Ok false
  | x :: l' => b ← f x; if b : bool then Ok true else any_exc f l'
  end.

(** [filename_match(filename, patterns)]. *)
Definition filename_match (host : Host) (filename : string) (patterns : PyVal)
  : Exc bool :=
  any_exc (λ path_part,
             items ← Py.iter patterns;
             any_exc (λ pattern, fnmatch host path_part pattern) items)
          (PyStr.split (os_sep host) filename).

(* ===================================================================== *)
(** ** [Flake8LintCommand.run] *)
(* ===================================================================== *)

Definition dialog_prefix : string := "Python Flake8 Lint error:".
Definition newline : string := String (ascii_of_nat 10) "".

(** The [paths] list built from the file's base name and its path
    relative to each folder of the window. *)
Definition paths_to_check (host : Host) (filename : string) : list string :=
  os_path_basename host filename ::
  omap (λ folder,
          let sep := os_sep host in
          let folder_name :=
            PyStr.rstrip_by (λ c, bool_decide (c = sep)) folder
            +:+ String sep "" in
          if PyStr.startswith filename folder_name
          then Some (PyStr.drop (PyStr.length folder_name) filename)
          else None)
       (active_window_folders host).

(** Lines 184 to 202 of [run], for a true [patterns]: [true] when the
    file is to be left alone. *)
Definition check_ignore_files (host : Host) (filename : string)
    (patterns : PyVal) : M bool :=
  let paths := paths_to_check host filename in
  match any_exc (λ path, filename_match host path patterns)
                (set_order host paths) with
  | Ok true =>
      emit (print ("File '" +:+ filename
                   +:+ "' lint was ignored by settings"));;
      mret true
  | Ok false => mret false
  | Raise TypeError | Raise ValueError =>
      emit (error_message
              (dialog_prefix +:+ newline +:+
               "'ignore_files' option is not a list of file masks"));;
      mret false
  | Raise x => raise x
  end.

(** Lines 155 to 206 of [run]: every early [return] gives [None];
    otherwise the absolute file name and the view settings. *)
Definition run_prepare (host : Host) (view : View)
  : M (option (string * gmap string PyVal)) :=
  match view_file_name view with
  | None | Some "" => mret None
  | Some name =>
      let filename := os_path_abspath host name in
      if negb (view_is_python view) then mret None else
      if skip_file host filename then mret None else
      emit (erase_regions (view_id view) "flake8-errors");;
      emit (erase_status (view_id view) "flake8-tip");;
      view_settings ← lift (get_view_settings host view);
      let patterns := dict_get view_settings "ignore_files" in
      ignored ←
        (if Py.truthy patterns
         then check_ignore_files host filename patterns
         else mret false);
      if ignored : bool then mret None else
      (if view_is_dirty view then emit (run_command (view_id view) "save")
       else mret tt);;
      mret (Some (filename, view_settings))
  end.

(** Lines 216 to 225 of [run]: the interpreter to start, for a setting
    that is true and not ['internal']. *)
Definition resolve_interpreter (host : Host) (interpreter : PyVal)
  : M PyVal :=
  if Py.eq_str interpreter "auto" then
    if bool_decide (os_name host = "nt") then mret (PStr "pythonw")
    else mret (PStr "python")
  else
    found ← lift (os_path_exists host interpreter);
    (if negb found then
       emit (error_message
               (dialog_prefix +:+ newline +:+
                "python interpreter '" +:+ str_of host interpreter
                +:+ "' is not found"))
     else mret tt);;
    mret interpreter.

(** The two places [lint.py] is looked for. *)
Definition linter_in_package (host : Host) : string :=
  os_path_join host [FLAKE_DIR host; "lint.py"].
Definition linter_in_packages_path (host : Host) : string :=
  os_path_join host [packages_path host; "Python Flake8 Lint"; "lint.py"].

(** Lines 227 to 239 of [run]: the path of [lint.py]. *)
Definition find_linter (host : Host) : M string :=
  let linter := linter_in_package host in
  found ← lift (os_path_exists host (PStr linter));
  let linter :=
    if negb found then linter_in_packages_path host else linter in
  found ← lift (os_path_exists host (PStr linter));
  (if negb found then
     emit (error_message
             (dialog_prefix +:+ newline +:+
              "sorry, can't find correct plugin path"))
   else mret tt);;
  mret linter.

(** Lines 208 to 243 of [run]: choose the engine and call it. *)
Definition run_engine (host : Host) (filename : string)
    (view_settings : gmap string PyVal) : M unit :=
  let interpreter :=
    dict_get_or view_settings "python_interpreter" (PStr "auto") in
  if negb (Py.truthy interpreter) || Py.eq_str interpreter "internal" then
    emit (lint_call filename view_settings);;
    set_errors_list (lint host filename view_settings)
  else
    interpreter ← resolve_interpreter host interpreter;
    linter ← find_linter host;
    emit (lint_external_call filename view_settings interpreter linter);;
    set_errors_list (lint_external host filename view_settings interpreter linter).

(** Lines 245 to 249 of [run]: show the errors, or report success. *)
Definition run_report (host : Host) (view : View)
    (view_settings : gmap string PyVal) : M unit :=
  st ← get_state;
  if negb (bool_decide (errors_list st = [])) then
    show_errors (settings host) view view_settings
  else if Py.truthy (dict_get_or (settings host) "report_on_success" (PBool false))
  then emit (message_dialog "Flake8 Lint: SUCCESS")
  else mret tt.

(** [run(self, edit)]. *)
Definition run (host : Host) (view : View) : M unit :=
  prepared ← run_prepare host view;
  match prepared with
  | None => mret tt
  | Some (filename, view_settings) =>
      run_engine host filename view_settings;;
      run_report host view view_settings
  end.

(** [l[i]] with Python's negative indices. *)
Definition py_index {A} (l : list A) (i : Z) : Exc A :=
  let n := Z.of_nat (length l) in
  let j := if i <? 0 then i + n else i in
  if (0 <=? j) && (j <? n) then
    match l !! Z.to_nat j with
    | Some x => Ok x
    | None => Raise IndexError
    end
  else Raise IndexError.

(** [error_selected(self, item_selected)]. *)
Definition error_selected (view : View) (item_selected : Z) : M unit :=
  if bool_decide (item_selected = -1) then mret tt else
  emit (sel_clear (view_id view));;
  st ← get_state;
  error ← lift (py_index (errors_list st) item_selected);
  let region_begin := view_text_point view (e_line error - 1) (e_col error) in
  let cursor := mkRegion region_begin region_begin in
  emit (sel_add (view_id view) cursor);;
  emit (show_at_center (view_id view) region_begin);;
  update_statusbar
    (mkView (view_id view) (view_file_name view) (view_is_python view)
            (view_is_dirty view) (view_is_loading view) (view_is_scratch view)
            (view_window view) (view_flake8lint view) [cursor]
            (view_rowcol view) (view_text_point view) (view_full_line view)
            (view_substr view)).

(* ===================================================================== *)
(** ** [Flake8LintBackground]: the event listener *)
(* ===================================================================== *)

(** [_lintOnLoad(self, view, retry)]; [view] is the view as it is when the
    call is made. *)
Definition _lintOnLoad (view : View) (retry : bool) : M unit :=
  if negb retry then
    emit (set_timeout (lintOnLoad_retry (view_id view)) 100)
  else if view_is_loading view then
    emit (set_timeout (lintOnLoad_retry (view_id view)) 100)
  else
    match view_window view with
    | None => emit (set_timeout (lintOnLoad_retry (view_id view)) 100)
    | Some window =>
        match active_view window with
        | None => raise AttributeError
        | Some active =>
            if negb (bool_decide (active = view_id view)) then mret tt
            else emit (run_command (view_id view) "flake8_lint")
        end
    end.

Definition on_load (host : Host) (view : View) : M unit :=
  if view_is_scratch view then mret tt else
  if Py.truthy (dict_get_or (settings host) "lint_on_load" (PBool false))
  then _lintOnLoad view false
  else mret tt.

Definition on_post_save (host : Host) (view : View) : M unit :=
  if view_is_scratch view then mret tt else
  if Py.truthy (dict_get_or (settings host) "lint_on_save" (PBool true))
  then emit (run_command (view_id view) "flake8_lint")
  else mret tt.

Definition on_selection_modified (view : View) : M unit :=
  if view_is_scratch view then mret tt else
  st ← get_state;
  match get_current_line view with
  | None =>
      match last_selected_line st with
      | Some _ => set_last_selected_line None;; clear_statusbar view
      | None => mret tt
      end
  | Some current_line =>
      if negb (bool_decide (Some current_line = last_selected_line st)) then
        set_last_selected_line (Some current_line);;
        update_statusbar view
      else mret tt
  end.

(** What the editor can ask of the plugin.  The listener class defines
    [on_load], [on_post_save] and [on_selection_modified] and no other
    handler, so every other notification, the closing of a view among
    them, reaches no code of the plugin. *)
Inductive Event : Type :=
| ev_load (view : View)
| ev_post_save (view : View)
| ev_selection_modified (view : View)
| ev_close (view : View)
| ev_timer (view : View)                 (* a [set_timeout] callback fires *)
| ev_command (view : View)               (* the [flake8_lint] command *)
| ev_panel_select (view : View) (item : Z).

Definition handle (host : Host) (ev : Event) : M unit :=
  match ev with
  | ev_load view => on_load host view
  | ev_post_save view => on_post_save host view
  | ev_selection_modified view => on_selection_modified view
  | ev_close _ => mret tt
  | ev_timer view => _lintOnLoad view true
  | ev_command view => run host view
  | ev_panel_select view item => error_selected view item
  end.

(** The state after a sequence of events; an exception ends the handler
    that raised it, not the plugin. *)
Definition handle_all (host : Host) (evs : list Event) (st : Plugin) : Plugin :=
  foldl (λ st ev, (handle host ev st).1) st evs.

(** The timer of [_lintOnLoad]: after [on_load], the callback runs once
    for each state of the view in [snaps], as long as the call before it
    armed the timer again. *)
Definition armed (before after : Plugin) : bool :=
  match drop (length (effects before)) (effects after) with
  | [set_timeout _ _] => true
  | _ => false
  end.

Fixpoint poll (snaps : list View) (st : Plugin) : Plugin :=
  match snaps with
  | [] => st
  | view :: rest =>
      let st' := (_lintOnLoad view true st).1 in
      if armed st st' then poll rest st' else st'
  end.

Definition lint_on_load (host : Host) (view : View) (snaps : list View)
    (st : Plugin) : Plugin :=
  let st' := (on_load host view st).1 in
  if armed st st' then poll snaps st' else st'.

(* ===================================================================== *)
(** ** A concrete editor buffer, for running the code on examples *)
(* ===================================================================== *)

Module Buffer.

Fixpoint take (n : nat) (s : string) : string :=
  match n, s with
  | S n', String c s' => String c (take n' s')
  | _, _ => ""
  end.

Fixpoint concat (lines : list string) : string :=
  match lines with
  | [] => ""
  | l :: rest => l +:+ concat rest
  end.

(** Offset of the start of line [row], plus [col]. *)
Definition text_point (lines : list string) (row col : Z) : Z :=
  PyStr.len (concat (list.take (Z.to_nat row) lines)) + col.

(** The region of the line that holds offset [pt], line end included. *)
Fixpoint full_line (lines : list string) (start pt : Z) : Region :=
  match lines with
  | [] => mkRegion start start
  | l :: rest =>
      if pt <? start + PyStr.len l then mkRegion start (start + PyStr.len l)
      else full_line rest (start + PyStr.len l) pt
  end.

Definition substr (lines : list string) (r : Region) : string :=
  take (Z.to_nat (region_b r - region_a r))
       (PyStr.drop (Z.to_nat (region_a r)) (concat lines)).

Definition nl : string := String (ascii_of_nat 10) "".

(** A saved Python file shown in a window where it is the active view. *)
Definition view (id : Z) (name : string) (lines : list string) : View :=
  mkView id (Some name) true false false false
         (Some (mkWindow (Some id))) ∅ [] (λ _, (0, 0))
         (text_point lines) (full_line lines 0) (substr lines).

Definition host (settings : gmap string PyVal) (results : list Error) : Host :=
  mkHost "posix" "/" (λ f, f) (λ f, f) (λ _, Ok true)
         (PyStr.join "/")
         (λ name pat, match pat with
                      | PStr p => Ok (bool_decide (name = p))
                      | _ => Raise TypeError
                      end)
         (λ l, l)
         (λ v, match v with PStr s => s | _ => "?" end)
         settings "/packages" [] "/packages/Flake8Lint"
         (λ _ _, results) (λ _ _ _ _, results) (λ _, false) (λ _ _ _, ∅)
         (Raise TypeError).

Definition start : Plugin := mkPlugin ∅ [] None [].

End Buffer.

(* ===================================================================== *)
(** ** The vocabulary of the statements *)
(* ===================================================================== *)

(** Everything above is the program; what follows names the notions the
    lemmas and theorems are stated with, and the sample runs they are
    tried on. *)

(** *** The parts [lstrip] and [rstrip] cut a text into *)

Section text_shapes.

Variable p : ascii → bool.

(** The result of [lstrip] is empty or starts outside the stripped set. *)
Definition starts_clean (s : string) : Prop :=
  match s with
  | "" => True
  | String c _ => p c = false
  end.

(** The characters [lstrip] removes: the longest prefix inside the set. *)
Fixpoint leading (s : string) : string :=
  match s with
  | "" => ""
  | String c s' => if p c then String c (leading s') else ""
  end.

Fixpoint all_in (s : string) : Prop :=
  match s with
  | "" => True
  | String c s' => p c = true ∧ all_in s'
  end.

(** The characters [rstrip] removes. *)
Fixpoint trailing (s : string) : string :=
  match s with
  | "" => ""
  | String c s' =>
      match PyStr.rstrip_by p s' with
      | "" => if p c then String c s' else trailing s'
      | _ => trailing s'
      end
  end.

(** What [rstrip] keeps does not end inside the set. *)
Fixpoint ends_clean (s : string) : Prop :=
  match s with
  | "" => True
  | String c "" => p c = false
  | String _ s' => ends_clean s'
  end.

End text_shapes.

(** *** The errors a run of [show_errors] displays *)

Section displayed.

Variable view : View.
Variables select ignore is_highlight is_popup mark : PyVal.

(** The text of the line an error is on, line end included. *)
Definition full_line_text (e : Error) : string :=
  view_substr view
    (view_full_line view (view_text_point view (e_line e - 1) 0)).

Definition line_text (e : Error) : string := PyStr.strip (full_line_text e).

(** The quick-panel entry of an error. *)
Definition entry_of (e : Error) : list string :=
  [e_text e; pretty (e_line e - 1 + 1) +:+ ": " +:+ line_text e].

(** The error code: the text before the first space. *)
Definition error_code (e : Error) : Exc string :=
  '(code, _) ← Py.unpack2 (PyStr.split1 " " (e_text e)); Ok code.

(** The three tests of the loop before the duplicate test:
    [Ok true] when none of them skips the error. *)
Definition passes (e : Error) : Exc bool :=
  if skip_line (line_text e) then Ok false else
  code ← error_code e;
  selected ← Py.code_selected_by select code;
  if selected : bool then Ok false else
  ignored ← Py.code_selected_by ignore code;
  Ok (negb ignored).

(** The region the loop appends for an error with code [code]. *)
Definition region_for (code : string) (e : Error) : Region :=
  let text_point := view_text_point view (e_line e - 1) 0 in
  let line_text := PyStr.rstrip_by PyStr.is_crlf (full_line_text e) in
  let line_length := PyStr.len line_text in
  mkRegion
    (if bool_decide (code = "E501") then text_point + e_col e
     else text_point + line_length - PyStr.len (PyStr.lstrip line_text))
    (text_point + line_length).

Definition code_of (e : Error) : string :=
  match error_code e with Ok code => code | Raise _ => "" end.

Definition region_of (e : Error) : Region := region_for (code_of e) e.

(** [view_errors.setdefault(current_line, []).append(error_text)]. *)
Definition record (d : gmap Z (list string)) (e : Error)
  : gmap Z (list string) :=
  <[e_line e - 1 := default [] (d !! (e_line e - 1)) ++ [e_text e]]> d.

(** The loop variables after an error is displayed. *)
Definition push (vars : LoopVars) (e : Error) : LoopVars :=
  mkLoopVars
    (errors_to_show vars ++ [entry_of e])
    (if Py.truthy is_popup then errors_list_filtered vars ++ [e]
     else errors_list_filtered vars)
    (if Py.truthy is_highlight || Py.truthy mark
     then regions vars ++ [region_of e] else regions vars)
    (record (view_errors vars) e).

(** The errors a run displays, in order: those that pass the tests,
    each entry once; [seen] holds the entries displayed so far. *)
Fixpoint displayed_from (seen : list (list string)) (errs : list Error)
  : list Error :=
  match errs with
  | [] => []
  | e :: rest =>
      match passes e with
      | Ok true =>
          if bool_decide (entry_of e ∈ seen) then displayed_from seen rest
          else e :: displayed_from (seen ++ [entry_of e]) rest
      | _ => displayed_from seen rest
      end
  end.

Definition displayed (errs : list Error) : list Error :=
  displayed_from [] errs.

(** The loop variables are the displayed errors, rendered four ways. *)
Definition rendered (vars : LoopVars) (shown : list Error) : LoopVars :=
  mkLoopVars
    (errors_to_show vars ++ (entry_of <$> shown))
    (errors_list_filtered vars ++ (if Py.truthy is_popup then shown else []))
    (regions vars ++ (if Py.truthy is_highlight || Py.truthy mark
                      then region_of <$> shown else []))
    (foldl record (view_errors vars) shown).

End displayed.

(** *** The settings [show_errors] reads and the calls it makes *)

Definition select_of (view_settings : gmap string PyVal) : PyVal :=
  Py.or_ (dict_get view_settings "select") (PList []).
Definition ignore_of (view_settings : gmap string PyVal) : PyVal :=
  Py.or_ (dict_get view_settings "ignore") (PList []).
Definition highlight_of (settings : gmap string PyVal) : PyVal :=
  dict_get_or settings "highlight" (PBool false).
Definition popup_of (settings : gmap string PyVal) : PyVal :=
  dict_get_or settings "popup" (PBool true).
Definition mark_of (settings : gmap string PyVal) : PyVal :=
  let mark := dict_get_or settings "gutter_marks" (PStr "") in
  if negb (Py.in_strs mark gutter_marks) then PStr "" else mark.

(** The calls a handler made: the effects after it that were not there
    before it. *)
Definition new_effects (st st' : Plugin) : list Effect :=
  drop (length (effects st)) (effects st').

Definition with_errors_list (l : list Error) (st : Plugin) : Plugin :=
  mkPlugin (ERRORS_IN_VIEWS st) l (last_selected_line st) (effects st).

(** The [add_regions] call of [show_errors], if it makes one. *)
Definition region_calls (settings : gmap string PyVal) (view : View)
    (regs : list Region) : list Effect :=
  if Py.truthy (highlight_of settings) then
    [add_regions (view_id view) "flake8-errors" regs "invalid.deprecated"
       (mark_of settings) DRAW_OUTLINED]
  else if Py.truthy (mark_of settings) then
    [add_regions (view_id view) "flake8-errors" regs "invalid.deprecated"
       (mark_of settings) HIDDEN]
  else [].

(** The [show_quick_panel] call of [show_errors], if it makes one. *)
Definition panel_calls (settings : gmap string PyVal) (view : View)
    (items : list (list string)) : list Effect :=
  if Py.truthy (popup_of settings) then
    match view_window view with
    | Some _ => [show_quick_panel (view_id view) items]
    | None => []
    end
  else [].

(** [show_errors] after its loop. *)
Definition finish (settings : gmap string PyVal) (view : View)
    (vars : LoopVars) (st : Plugin) : Plugin * Exc unit :=
  (mkPlugin (<[view_id view := view_errors vars]> (ERRORS_IN_VIEWS st))
            (errors_list_filtered vars) (last_selected_line st)
            (effects st ++ region_calls settings view (regions vars)
                        ++ panel_calls settings view (errors_to_show vars)),
   if Py.truthy (popup_of settings) then
     match view_window view with
     | Some _ => Ok tt
     | None => Raise AttributeError
     end
   else Ok tt).

(** *** Texts without a colon, as the decimal form of a line number *)

Fixpoint no_colon (s : string) : Prop :=
  match s with
  | "" => True
  | String c s' => c ≠ ":"%char ∧ no_colon s'
  end.

(** A run with a [# noqa] line, an error twice, and all three kinds of
    display switched on. *)
Module Sample.

Definition lines : list string :=
  ["x = 1 " +:+ Buffer.nl; "import os  # NOQA" +:+ Buffer.nl;
   "    y = 2" +:+ Buffer.nl].

Definition errs : list Error :=
  [mkError 1 5 "W291 trailing whitespace"; mkError 2 0 "F401 os unused";
   mkError 3 4 "E501 line too long"; mkError 3 0 "E111 indent";
   mkError 1 5 "W291 trailing whitespace"].

Definition view : View := Buffer.view 7 "/a/b.py" lines.

Definition settings : gmap string PyVal :=
  {[ "highlight" := PBool true; "gutter_marks" := PStr "dot" ]}.

Definition st : Plugin := with_errors_list errs Buffer.start.

End Sample.

(** *** Prefixes, and what a piece of code in [M] preserves *)

(** Whether a code starts with one of the text items of a list. *)
Definition has_prefix_in (prefixes : list PyVal) (code : string) : Prop :=
  ∃ p, PStr p ∈ prefixes ∧ PyStr.startswith code p = true.

(** [m] takes every state to a state related to it by [R], whether it
    returns or raises. *)
Definition preserves (R : relation Plugin) {A} (m : M A) : Prop :=
  ∀ st, R st (m st).1.

(** The effects grow by calls that all satisfy [P]. *)
Definition emits (P : Effect → Prop) : relation Plugin :=
  λ st st', ∃ new, effects st' = effects st ++ new ∧ Forall P new.

(** The dictionary of per-view errors loses no view. *)
Definition keeps_views : relation Plugin :=
  λ st st', dom (ERRORS_IN_VIEWS st) ⊆ dom (ERRORS_IN_VIEWS st').

(** The calls of [show_errors] are [add_regions] and [show_quick_panel]. *)
Definition display_call (c : Effect) : Prop :=
  match c with
  | add_regions _ _ _ _ icon _ =>
      icon ∈ [PStr ""; PStr "dot"; PStr "circle"; PStr "bookmark"; PStr "cross"]
  | show_quick_panel _ _ => True
  | _ => False
  end.

(** *** The kinds of calls of a lint run *)

Definition is_engine_call (c : Effect) : bool :=
  match c with
  | lint_call _ _ | lint_external_call _ _ _ _ => true
  | _ => false
  end.

(** An [error_message] starts with the plugin's name; an [add_regions]
    has one of the five icons. *)
Definition well_formed_call (c : Effect) : Prop :=
  match c with
  | error_message msg => PyStr.startswith msg dialog_prefix = true
  | add_regions _ _ _ _ icon _ =>
      icon ∈ [PStr ""; PStr "dot"; PStr "circle"; PStr "bookmark"; PStr "cross"]
  | _ => True
  end.

(** A well-formed call that is not a call of the lint engine. *)
Definition side_call (c : Effect) : Prop :=
  is_engine_call c = false ∧ well_formed_call c.

(** [view_settings.get('python_interpreter', 'auto')]. *)
Definition interpreter_setting (view_settings : gmap string PyVal) : PyVal :=
  dict_get_or view_settings "python_interpreter" (PStr "auto").


(** The interpreter after lines 216 to 220. *)
Definition resolved_interpreter (host : Host)
    (view_settings : gmap string PyVal) : PyVal :=
  if Py.eq_str (interpreter_setting view_settings) "auto" then
    if bool_decide (os_name host = "nt") then PStr "pythonw" else PStr "python"
  else interpreter_setting view_settings.

Definition after_emit (c : Effect) (st : Plugin) : Plugin :=
  mkPlugin (ERRORS_IN_VIEWS st) (errors_list st) (last_selected_line st)
           (effects st ++ [c]).

Module Dispatch.

Definition view : View := Buffer.view 7 "/a/b.py" Sample.lines.

Definition host (os : string) (interpreter : PyVal) : Host :=
  mkHost os "/" (λ f, f) (λ f, f) (λ _, Ok true) (PyStr.join "/")
         (λ name pat, match pat with
                      | PStr p => Ok (bool_decide (name = p))
                      | _ => Raise TypeError
                      end)
         (λ l, l) (λ v, match v with PStr s => s | _ => "?" end)
         {[ "python_interpreter" := interpreter ]}
         "/packages" [] "/packages/Flake8Lint"
         (λ _ _, Sample.errs) (λ _ _ _ _, Sample.errs) (λ _, false) (λ _ _ _, ∅)
         (Raise TypeError).

Definition calls (os : string) (interpreter : PyVal) : list Effect :=
  filter (λ c, is_engine_call c = true)
         (new_effects Buffer.start (run (host os interpreter) view Buffer.start).1).

End Dispatch.

Module Dialogs.

Definition host (path_exists : PyVal → Exc bool)
    (settings : gmap string PyVal) : Host :=
  mkHost "posix" "/" (λ f, f) (λ f, f) path_exists (PyStr.join "/")
         (λ name pat, match pat with
                      | PStr p => Ok (bool_decide (name = p))
                      | _ => Raise TypeError
                      end)
         (λ l, l) (λ v, match v with PStr s => s | _ => "?" end)
         settings "/packages" [] "/packages/Flake8Lint"
         (λ _ _, []) (λ _ _ _ _, []) (λ _, false) (λ _ _ _, ∅)
         (Raise TypeError).

(** [ignore_files] is a number, not a list of masks. *)
Definition malformed : Host :=
  host (λ _, Ok true) {[ "ignore_files" := PInt 5 ]}.

(** The interpreter is a path that does not exist. *)
Definition no_interpreter : Host :=
  host (λ v, Ok (negb (Py.eq_str v "/nope")))
       {[ "python_interpreter" := PStr "/nope" ]}.

(** [lint.py] is at neither place. *)
Definition no_linter : Host := host (λ _, Ok false) ∅.

Definition calls (h : Host) : list Effect :=
  new_effects Buffer.start (run h Dispatch.view Buffer.start).1.

End Dialogs.

(** *** The states a timer callback finds the view in *)

(** The states in which [_lintOnLoad] waits: the view is loading, or it
    has no window yet. *)
Definition waiting (view : View) : Prop :=
  view_is_loading view = true ∨ view_window view = None.

(** The view is the active view of its window. *)
Definition is_active (view : View) : bool :=
  match view_window view with
  | Some window => bool_decide (active_view window = Some (view_id view))
  | None => false
  end.

Definition timer_of (view : View) : Effect :=
  set_timeout (lintOnLoad_retry (view_id view)) 100.

Module Loading.

(** The view 7 as a timer callback finds it. *)
Definition snap (loading : bool) (window : option Window) : View :=
  mkView 7 (Some "/a/b.py") true false loading false window ∅ []
         (λ _, (0, 0)) (Buffer.text_point Sample.lines)
         (Buffer.full_line Sample.lines 0) (Buffer.substr Sample.lines).

Definition host : Host :=
  Dialogs.host (λ _, Ok true) {[ "lint_on_load" := PBool true ]}.

(** Still loading, then loaded but without a window, then in a window. *)
Definition snaps (active : Z) : list View :=
  [snap true None; snap false None; snap false (Some (mkWindow (Some active)));
   snap false (Some (mkWindow (Some active)))].

End Loading.

(** The dictionary of per-view errors is left as it is. *)
Definition same_views : relation Plugin :=
  λ st st', ERRORS_IN_VIEWS st' = ERRORS_IN_VIEWS st.

Module Lifecycle.

Definition host : Host := Buffer.host ∅ Sample.errs.

Definition after_lint : Plugin := (run host Sample.view Buffer.start).1.

Definition recorded : gmap Z (list string) :=
  {[ 0 := ["W291 trailing whitespace"];
     2 := ["E501 line too long"; "E111 indent"] ]}.

End Lifecycle.

(** *** The calls of a lint run, part by part *)

(** The state after the calls [cs]. *)
Definition after_calls (cs : list Effect) (st : Plugin) : Plugin :=
  mkPlugin (ERRORS_IN_VIEWS st) (errors_list st) (last_selected_line st)
           (effects st ++ cs).

(** [view.run_command('save')]. *)
Definition is_save (c : Effect) : bool :=
  match c with
  | run_command _ cmd => bool_decide (cmd = "save")
  | _ => false
  end.

(** The dialog of line 200. *)
Definition ignore_files_dialog : Effect :=
  error_message
    (dialog_prefix +:+ newline +:+
     "'ignore_files' option is not a list of file masks").

(** The test of lines 194 to 197 on the file of a view. *)
Definition ignored_by (host : Host) (filename : string) (patterns : PyVal)
  : Exc bool :=
  any_exc (λ path, filename_match host path patterns)
          (set_order host (paths_to_check host filename)).

(** The calls that open every run that gets to the settings. *)
Definition clearing_calls (view : View) : list Effect :=
  [erase_regions (view_id view) "flake8-errors";
   erase_status (view_id view) "flake8-tip"].

(** The call of line 205. *)
Definition save_calls (view : View) : list Effect :=
  if view_is_dirty view then [run_command (view_id view) "save"] else [].

(** The sample file with changes that are not saved. *)
Definition dirty_view : View :=
  mkView 7 (Some "/a/b.py") true true false false
         (Some (mkWindow (Some 7))) ∅ [] (λ _, (0, 0))
         (Buffer.text_point Sample.lines) (Buffer.full_line Sample.lines 0)
         (Buffer.substr Sample.lines).

(** The sample editor with the mask [b.py] in [ignore_files]. *)
Definition masking_host : Host :=
  Buffer.host {[ "ignore_files" := PList [PStr "b.py"] ]} Sample.errs.

(** *** Errors whose text has no code *)

(** Whether the character [c] occurs in [s]. *)
Fixpoint has_char (c : ascii) (s : string) : bool :=
  match s with
  | "" => false
  | String c' s' => bool_decide (c' = c) || has_char c s'
  end.

(** An error [code, _ = error_text.split(' ', 1)] cannot unpack: its line
    has no noqa comment and its text has no space. *)
Definition unreadable (view : View) (e : Error) : bool :=
  negb (skip_line (line_text view e)) && negb (has_char " " (e_text e)).

(** What [show_errors] returns once its loop is through. *)
Definition panel_result (settings : gmap string PyVal) (view : View)
  : Exc unit :=
  if Py.truthy (popup_of settings) then
    match view_window view with
    | Some _ => Ok tt
    | None => Raise AttributeError
    end
  else Ok tt.

(** *** The status bar and the cursor *)

(** The status call for a cursor on row [row], when the errors in [shown]
    are those recorded for the view. *)
Definition status_for (view : View) (shown : list Error) (row : Z) : Effect :=
  match filter (λ e, e_line e - 1 = row) shown with
  | [] => erase_status (view_id view) "flake8-tip"
  | es =>
      set_status (view_id view) "flake8-tip"
                 ("flake8: " +:+ PyStr.join " / " (e_text <$> es))
  end.

(** The view with its selection replaced by one empty region at [p]. *)
Definition with_cursor (view : View) (p : Z) : View :=
  mkView (view_id view) (view_file_name view) (view_is_python view)
         (view_is_dirty view) (view_is_loading view) (view_is_scratch view)
         (view_window view) (view_flake8lint view) [mkRegion p p]
         (view_rowcol view) (view_text_point view) (view_full_line view)
         (view_substr view).

(** The position [error_selected] moves the cursor to. *)
Definition position_of (view : View) (e : Error) : Z :=
  view_text_point view (e_line e - 1) (e_col e).

(** The three calls that move the cursor to [p]. *)
Definition jump_calls (view : View) (p : Z) : list Effect :=
  [sel_clear (view_id view); sel_add (view_id view) (mkRegion p p);
   show_at_center (view_id view) p].

(** A buffer whose rows and columns are those of its lines, with the
    cursor at the start. *)
Fixpoint rowcol_in (lines : list string) (row pt : Z) : Z * Z :=
  match lines with
  | [] => (row, pt)
  | l :: rest =>
      if pt <? PyStr.len l then (row, pt)
      else rowcol_in rest (row + 1) (pt - PyStr.len l)
  end.

Definition cursor_view (id : Z) (lines : list string) : View :=
  mkView id (Some "/a/b.py") true false false false
         (Some (mkWindow (Some id))) ∅ [mkRegion 0 0] (rowcol_in lines 0)
         (Buffer.text_point lines) (Buffer.full_line lines 0)
         (Buffer.substr lines).

(** *** What the events leave alone *)

(** The errors the plugin keeps: of each view, and of the last run. *)
Definition same_errors : relation Plugin :=
  λ st st', ERRORS_IN_VIEWS st' = ERRORS_IN_VIEWS st
            ∧ errors_list st' = errors_list st.


(** An event of the listener on a scratch view, or the closing of a
    view. *)
Definition on_scratch (ev : Event) : Prop :=
  match ev with
  | ev_load view | ev_post_save view | ev_selection_modified view =>
      view_is_scratch view = true
  | ev_close _ => True
  | _ => False
  end.

(** A scratch view, as an output panel is. *)
Definition scratch_view : View :=
  mkView 9 None false false false true None ∅ [mkRegion 3 3] (λ pt, (pt, 0))
         (λ _ _, 0) (λ _, mkRegion 0 0) (λ _, "").

(** The sample buffer after an engine whose second error has a text
    without a space. *)
Definition codeless_st : Plugin :=
  with_errors_list
    [mkError 1 5 "W291 trailing whitespace"; mkError 3 0 "E111"] Buffer.start.

(* ===================================================================== *)
(** ** Lemmas and theorems *)
(* ===================================================================== *)

(* ===================================================================== *)
(** ** Facts about the text operations *)
(* ===================================================================== *)

Lemma app_empty s : "" +:+ s = s.
Proof. reflexivity. Qed.

Lemma app_String c s t : String c s +:+ t = String c (s +:+ t).
Proof. reflexivity. Qed.

Ltac app_simpl := rewrite ?app_String, ?app_empty in *.

Section text_facts.

Variable p : ascii → bool.

Local Abbreviation starts_clean := (starts_clean p).
Local Abbreviation leading := (leading p).
Local Abbreviation all_in := (all_in p).
Local Abbreviation trailing := (trailing p).
Local Abbreviation ends_clean := (ends_clean p).

Lemma lstrip_by_clean s : starts_clean (PyStr.lstrip_by p s).
Proof.
  induction s as [|c s IH]; simpl; [done|].
  destruct (p c) eqn:Hc; [exact IH | exact Hc].
Qed.

Lemma lstrip_by_fixed s : starts_clean s → PyStr.lstrip_by p s = s.
Proof. destruct s as [|c s]; simpl; [done|]. by intros ->. Qed.

Lemma rstrip_by_cons_clean c s :
  p c = false → PyStr.rstrip_by p (String c s) = String c (PyStr.rstrip_by p s).
Proof. intros Hc. simpl. rewrite Hc. by destruct (PyStr.rstrip_by p s). Qed.

Lemma rstrip_by_clean s : starts_clean s → starts_clean (PyStr.rstrip_by p s).
Proof.
  destruct s as [|c s]; [done|]. intros Hc.
  by rewrite rstrip_by_cons_clean.
Qed.

Lemma rstrip_by_idem s :
  PyStr.rstrip_by p (PyStr.rstrip_by p s) = PyStr.rstrip_by p s.
Proof.
  induction s as [|c s IH]; [done|]. simpl.
  destruct (PyStr.rstrip_by p s) as [|d r] eqn:Hr.
  - destruct (p c) eqn:Hc; simpl; [done|]. by rewrite Hc.
  - change (PyStr.rstrip_by p (String c (String d r)))
      with (match PyStr.rstrip_by p (String d r) with
            | "" => if p c then "" else String c ""
            | r' => String c r'
            end).
    by rewrite IH.
Qed.

(** Stripping both ends a second time changes nothing. *)
Lemma strip_by_idem s :
  PyStr.rstrip_by p (PyStr.lstrip_by p (PyStr.rstrip_by p (PyStr.lstrip_by p s)))
  = PyStr.rstrip_by p (PyStr.lstrip_by p s).
Proof.
  rewrite (lstrip_by_fixed (PyStr.rstrip_by p (PyStr.lstrip_by p s))).
  - apply rstrip_by_idem.
  - apply rstrip_by_clean, lstrip_by_clean.
Qed.

Lemma leading_all_in s : all_in (leading s).
Proof.
  induction s as [|c s IH]; simpl; [done|].
  destruct (p c) eqn:Hc; simpl; auto.
Qed.

Lemma leading_lstrip s : s = leading s +:+ PyStr.lstrip_by p s.
Proof.
  induction s as [|c s IH]; simpl; [done|].
  destruct (p c); app_simpl; [by f_equal | done].
Qed.

Lemma len_app s t : PyStr.len (s +:+ t) = PyStr.len s + PyStr.len t.
Proof.
  induction s as [|c s IH]; app_simpl; simpl; [done|]. rewrite IH. lia.
Qed.

Lemma len_nonneg s : 0 ≤ PyStr.len s.
Proof. induction s; simpl; lia. Qed.

Lemma len_lstrip s :
  PyStr.len s - PyStr.len (PyStr.lstrip_by p s) = PyStr.len (leading s).
Proof. rewrite (leading_lstrip s) at 1. rewrite len_app. lia. Qed.

Lemma rstrip_trailing s : s = PyStr.rstrip_by p s +:+ trailing s.
Proof.
  induction s as [|c s IH]; simpl; [done|].
  destruct (PyStr.rstrip_by p s) as [|d r] eqn:Hr.
  - destruct (p c); app_simpl; [done|]. by f_equal.
  - rewrite app_String. by f_equal.
Qed.

Lemma trailing_all_in s : all_in (trailing s).
Proof.
  induction s as [|c s IH]; simpl; [done|].
  destruct (PyStr.rstrip_by p s) as [|d r] eqn:Hr; [|done].
  destruct (p c) eqn:Hc; [|done].
  simpl. split; [done|].
  rewrite (rstrip_trailing s), Hr. exact IH.
Qed.

Lemma rstrip_by_ends_clean s : ends_clean (PyStr.rstrip_by p s).
Proof.
  induction s as [|c s IH]; simpl; [done|].
  destruct (PyStr.rstrip_by p s) as [|d r] eqn:Hr.
  - destruct (p c) eqn:Hc; simpl; done.
  - exact IH.
Qed.

End text_facts.

Lemma strip_idem s : PyStr.strip (PyStr.strip s) = PyStr.strip s.
Proof. apply strip_by_idem. Qed.

(** [skip_line] of a stripped line is the test the spec words:
    strip, lower, ends with [# noqa]. *)
Lemma skip_line_strip s :
  skip_line (PyStr.strip s)
  = PyStr.endswith (PyStr.lower (PyStr.strip s)) "# noqa".
Proof. unfold skip_line. by rewrite strip_idem. Qed.

Lemma endswith_spec s suf :
  PyStr.endswith s suf = true ↔ ∃ pre, s = pre +:+ suf.
Proof.
  induction s as [|c s IH]; simpl.
  - rewrite orb_false_r, bool_decide_eq_true. split.
    + intros <-. by exists "".
    + intros [[|d pre] Heq]; app_simpl; [done | discriminate].
  - rewrite orb_true_iff, bool_decide_eq_true, IH. split.
    + intros [<- | [pre ->]]; [by exists "" | by exists (String c pre)].
    + intros [[|d pre] Heq]; app_simpl; [by left|].
      right. exists pre. congruence.
Qed.

Lemma startswith_spec s pre :
  PyStr.startswith s pre = true ↔ ∃ rest, s = pre +:+ rest.
Proof.
  revert s. induction pre as [|a pre IH]; intros s; simpl.
  - split; [by exists s | done].
  - destruct s as [|b s].
    + split; [done | by intros [? ?]].
    + destruct (decide (a = b)) as [->|Hne].
      * rewrite IH. split; intros [rest Heq]; exists rest;
          app_simpl; congruence.
      * split; [done | intros [rest Heq]; app_simpl; congruence].
Qed.

(* ===================================================================== *)
(** ** What the loop of [show_errors] computes *)
(* ===================================================================== *)

Section displayed_facts.

Variable view : View.
Variables select ignore is_highlight is_popup mark : PyVal.

Local Abbreviation full_line_text := (full_line_text view).
Local Abbreviation line_text := (line_text view).
Local Abbreviation entry_of := (entry_of view).
Local Abbreviation passes := (passes view select ignore).
Local Abbreviation region_for := (region_for view).
Local Abbreviation region_of := (region_of view).
Local Abbreviation push := (push view is_highlight is_popup mark).
Local Abbreviation displayed_from := (displayed_from view select ignore).
Local Abbreviation displayed := (displayed view select ignore).
Local Abbreviation rendered := (rendered view is_highlight is_popup mark).

Lemma show_errors_body_unfold vars e :
  show_errors_body view select ignore is_highlight is_popup mark vars e =
  match passes e with
  | Raise x => Raise x
  | Ok false => Ok vars
  | Ok true =>
      if bool_decide (entry_of e ∈ errors_to_show vars) then Ok vars
      else Ok (push vars e)
  end.
Proof.
  unfold show_errors_body, passes, push, region_of, code_of, error_code,
    region_for, record, entry_of, line_text, full_line_text.
  destruct (skip_line _); [done|].
  destruct (Py.unpack2 _) as [[code rest]|x]; simpl; [|done].
  destruct (Py.code_selected_by select code) as [[]|x]; simpl; [done| |done].
  destruct (Py.code_selected_by ignore code) as [[]|x]; simpl; [done| |done].
  destruct (bool_decide _); [done|].
  by destruct (Py.truthy is_popup), (Py.truthy is_highlight), (Py.truthy mark),
    (bool_decide (code = "E501")).
Qed.

Lemma rendered_nil vars : rendered vars [] = vars.
Proof.
  destruct vars. unfold rendered. simpl.
  destruct (Py.truthy is_popup), (Py.truthy is_highlight || Py.truthy mark);
    by rewrite !app_nil_r.
Qed.

Lemma rendered_cons vars e shown :
  rendered vars (e :: shown) = rendered (push vars e) shown.
Proof.
  unfold rendered, push. simpl.
  destruct (Py.truthy is_popup), (Py.truthy is_highlight || Py.truthy mark);
    simpl; by rewrite <- ?app_assoc.
Qed.

Lemma for_each_refines errs : ∀ vars out,
  for_each (show_errors_body view select ignore is_highlight is_popup mark)
           vars errs = Ok out →
  out = rendered vars (displayed_from (errors_to_show vars) errs)
  ∧ Forall (λ e, ∃ b, passes e = Ok b) errs.
Proof.
  induction errs as [|e errs IH]; intros vars out Hrun; simpl in Hrun.
  - inversion Hrun. by rewrite rendered_nil.
  - rewrite show_errors_body_unfold in Hrun. simpl.
    destruct (passes e) as [[]|x] eqn:Hp; simpl in Hrun; [| |done].
    + destruct (bool_decide (entry_of e ∈ errors_to_show vars)) eqn:Hin;
        simpl in Hrun.
      * destruct (IH _ _ Hrun) as [-> Hall]. eauto.
      * destruct (IH _ _ Hrun) as [-> Hall]. simpl.
        rewrite rendered_cons. eauto.
    + destruct (IH _ _ Hrun) as [-> Hall]. eauto.
Qed.

Lemma show_errors_loop_refines errs out :
  show_errors_loop view select ignore is_highlight is_popup mark errs = Ok out →
  out = rendered loop_init (displayed errs).
Proof. intros Hrun. by apply for_each_refines in Hrun as [-> _]. Qed.

(** A displayed error is an error of the run that passes the tests. *)
Lemma displayed_from_elem seen errs e :
  e ∈ displayed_from seen errs →
  e ∈ errs ∧ passes e = Ok true ∧ entry_of e ∉ seen.
Proof.
  revert seen. induction errs as [|e' errs IH]; intros seen; simpl.
  - by intros ?%elem_of_nil.
  - destruct (passes e') as [[]|x] eqn:Hp.
    + case_bool_decide as Hin.
      * intros (? & ? & ?)%IH. split; [by right | done].
      * intros [->|(? & ? & Hnot)%IH]%elem_of_cons.
        -- split; [by left | done].
        -- split; [by right|]. split; [done|].
           intros ?. apply Hnot, elem_of_app. by left.
    + intros (? & ? & ?)%IH. split; [by right | done].
    + intros (? & ? & ?)%IH. split; [by right | done].
Qed.



End displayed_facts.

(* ===================================================================== *)
(** ** What [show_errors] leaves behind *)
(* ===================================================================== *)

Lemma new_effects_app st st' l :
  effects st' = effects st ++ l → new_effects st st' = l.
Proof. unfold new_effects. intros ->. by rewrite drop_app_length. Qed.

Lemma show_errors_eq settings view view_settings st :
  show_errors settings view view_settings st =
  match show_errors_loop view (select_of view_settings) (ignore_of view_settings)
          (highlight_of settings) (popup_of settings) (mark_of settings)
          (errors_list st) with
  | Raise x => (st, Raise x)
  | Ok vars => finish settings view vars st
  end.
Proof.
  unfold show_errors, finish, region_calls, panel_calls.
  fold (select_of view_settings) (ignore_of view_settings)
       (highlight_of settings) (popup_of settings) (mark_of settings).
  unfold mbind, M_bind, m_bind, get_state, lift, set_errors_list,
    set_view_errors, emit, mret, M_ret, m_ret, raise. simpl.
  destruct (show_errors_loop _ _ _ _ _ _ _) as [vars|x]; [|done]. simpl.
  destruct (Py.truthy (highlight_of settings)), (Py.truthy (mark_of settings)),
    (Py.truthy (popup_of settings)), (view_window view); simpl;
    rewrite ?app_nil_r, <- ?app_assoc; done.
Qed.

(** A run that returns normally: its loop ended, and the state holds the
    displayed errors in each of their four forms. *)
Lemma show_errors_ok settings view view_settings st st' :
  show_errors settings view view_settings st = (st', Ok tt) →
  let shown :=
    displayed view (select_of view_settings) (ignore_of view_settings)
              (errors_list st) in
  let vars :=
    rendered view (highlight_of settings) (popup_of settings) (mark_of settings)
             loop_init shown in
  st' = (finish settings view vars st).1
  ∧ Forall (λ e, ∃ b, passes view (select_of view_settings)
                         (ignore_of view_settings) e = Ok b) (errors_list st).
Proof.
  rewrite show_errors_eq. intros Hrun.
  destruct (show_errors_loop _ _ _ _ _ _ _) as [vars|x] eqn:Hloop; [|done].
  apply for_each_refines in Hloop as [-> Hall].
  split; [|done]. by inversion Hrun.
Qed.

(* ===================================================================== *)
(** ** The entry format [u'{0}: {1}'] *)
(* ===================================================================== *)

Lemma pretty_N_go_no_colon (x : N) : ∀ s,
  no_colon s → no_colon (pretty_N_go x s).
Proof.
  induction (N.lt_wf_0 x) as [x _ IH]. intros s Hs.
  destruct (decide (x = 0%N)) as [->|Hx].
  - by rewrite pretty_N_go_0.
  - rewrite pretty_N_go_step by lia.
    apply IH; [apply N.div_lt; lia|].
    split; [|done]. unfold pretty_N_char. by repeat case_match.
Qed.

Lemma pretty_Z_no_colon (n : Z) : no_colon (pretty n).
Proof.
  assert (∀ p : positive, no_colon (pretty p)) as Hpos.
  { intros p. unfold pretty, pretty_positive, pretty, pretty_N.
    case_decide; [done|]. by apply pretty_N_go_no_colon. }
  destruct n as [|p|p]; unfold pretty, pretty_Z; [done|apply Hpos|].
  rewrite app_String, app_empty. split; [done | apply Hpos].
Qed.

Lemma colon_split a1 : ∀ a2 b1 b2,
  no_colon a1 → no_colon a2 →
  a1 +:+ String ":" b1 = a2 +:+ String ":" b2 → a1 = a2 ∧ b1 = b2.
Proof.
  induction a1 as [|c a1 IH]; intros [|d a2] b1 b2 H1 H2 Heq; app_simpl.
  - by inversion Heq.
  - inversion Heq; subst. by destruct H2.
  - inversion Heq; subst. by destruct H1.
  - inversion Heq; subst. destruct H1 as [_ H1], H2 as [_ H2].
    destruct (IH _ _ _ H1 H2 ltac:(eassumption)) as [-> ->]. done.
Qed.

(** Two entries with the same second item are on the same line. *)
Lemma format_inj (n1 n2 : Z) (s1 s2 : string) :
  pretty n1 +:+ ": " +:+ s1 = pretty n2 +:+ ": " +:+ s2 → n1 = n2 ∧ s1 = s2.
Proof.
  intros Heq.
  change (": " +:+ s1) with (String ":" (String " " s1)) in Heq.
  change (": " +:+ s2) with (String ":" (String " " s2)) in Heq.
  apply colon_split in Heq as [Hn Hs]; try apply pretty_Z_no_colon.
  split; [by apply (inj pretty) | congruence].
Qed.

Lemma entry_of_inj view e1 e2 :
  entry_of view e1 = entry_of view e2 →
  e_text e1 = e_text e2 ∧ e_line e1 = e_line e2.
Proof.
  unfold entry_of. intros Heq. inversion Heq as [[Ht Hf]].
  apply format_inj in Hf as [Hn _]. split; [done | lia].
Qed.

Lemma same_line_same_text view e1 e2 :
  e_line e1 = e_line e2 → line_text view e1 = line_text view e2.
Proof. unfold line_text, full_line_text. by intros ->. Qed.


(* ===================================================================== *)
(** ** The select and ignore tests *)
(* ===================================================================== *)

Lemma prefixes_of_elem code items : ∀ hits,
  Py.prefixes_of code items = Ok hits →
  ∀ c, c ∈ hits ↔ c ∈ items ∧ ∃ p, c = PStr p ∧ PyStr.startswith code p = true.
Proof.
  induction items as [|c0 items IH]; intros hits Hrun c; simpl in Hrun.
  - inversion Hrun. split; [by intros ?%elem_of_nil|].
    by intros [?%elem_of_nil _].
  - destruct c0 as [| | |p|l|d]; simpl in Hrun; try done.
    destruct (Py.prefixes_of code items) as [r|x]; simpl in Hrun; [|done].
    inversion Hrun; subst. specialize (IH r eq_refl c).
    destruct (PyStr.startswith code p) eqn:Hp.
    + rewrite !elem_of_cons, IH. split.
      * intros [->|[? ?]]; [split; [by left | eauto] | split; [by right | done]].
      * intros [[->|?] ?]; [by left | by right].
    + rewrite IH, elem_of_cons. split.
      * intros [? ?]. split; [by right | done].
      * intros [[->|?] Hex]; [|done].
        destruct Hex as (p' & [= ->] & Hp'). congruence.
Qed.

(** On a list setting, the test is true exactly when the code starts
    with one of the prefixes of the list. *)
Lemma code_selected_by_list code l b :
  Py.code_selected_by (PList l) code = Ok b →
  b = true ↔ ∃ p, PStr p ∈ l ∧ PyStr.startswith code p = true.
Proof.
  unfold Py.code_selected_by. simpl.
  case_bool_decide as Hl; simpl.
  - intros [= <-]. subst l. split; [done|].
    by intros (p & ?%elem_of_nil & _).
  - destruct (Py.prefixes_of code l) as [hits|x] eqn:Hhits; simpl; [|done].
    intros [= <-]. pose proof (prefixes_of_elem _ _ _ Hhits) as Hel.
    rewrite negb_true_iff, bool_decide_eq_false. split.
    + intros Hne. destruct hits as [|c hits]; [done|].
      destruct (proj1 (Hel c)) as (Hin & p & -> & Hp); [by left|]. eauto.
    + intros (p & Hin & Hp) ->.
      eapply elem_of_nil, Hel. eauto.
Qed.

Section passes_facts.

Variable view : View.
Variables select ignore : PyVal.

Lemma passes_true e :
  passes view select ignore e = Ok true →
  skip_line (line_text view e) = false
  ∧ ∃ code, error_code e = Ok code
      ∧ Py.code_selected_by select code = Ok false
      ∧ Py.code_selected_by ignore code = Ok false.
Proof.
  unfold passes. destruct (skip_line _); [done|].
  destruct (error_code e) as [code|x]; simpl; [|done].
  destruct (Py.code_selected_by select code) as [[]|x] eqn:Hsel; simpl;
    [done| |done].
  destruct (Py.code_selected_by ignore code) as [[]|x] eqn:Hign; simpl;
    [done| |done].
  intros _. split; [done|]. by exists code.
Qed.

(** An error on a [# noqa] line is skipped, whatever its text. *)
Lemma passes_noqa e :
  skip_line (line_text view e) = true → passes view select ignore e = Ok false.
Proof. unfold passes. by intros ->. Qed.

End passes_facts.

(** Membership in a list of at most one call. *)
Ltac one_call H :=
  first [ by apply elem_of_nil in H
        | apply list_elem_of_singleton in H; inversion H; subst ].

Section run_facts.

Variables (settings : gmap string PyVal) (view : View).
Variable view_settings : gmap string PyVal.
Variables st st' : Plugin.
Hypothesis Hrun : show_errors settings view view_settings st = (st', Ok tt).

Local Abbreviation shown :=
  (displayed view (select_of view_settings) (ignore_of view_settings)
             (errors_list st)).

Lemma new_effects_show_errors :
  new_effects st st' =
  region_calls settings view
    (if Py.truthy (highlight_of settings) || Py.truthy (mark_of settings)
     then region_of view <$> shown else [])
  ++ panel_calls settings view (entry_of view <$> shown).
Proof using Hrun.
  destruct (show_errors_ok _ _ _ _ _ Hrun) as [-> _].
  apply new_effects_app. by simpl.
Qed.

Lemma shown_panel vid items :
  show_quick_panel vid items ∈ new_effects st st' →
  vid = view_id view ∧ items = entry_of view <$> shown
  ∧ Py.truthy (popup_of settings) = true.
Proof using Hrun.
  rewrite new_effects_show_errors, elem_of_app.
  unfold region_calls, panel_calls.
  intros [Hin|Hin]; repeat case_match; one_call Hin; done.
Qed.

Lemma shown_regions vid key regs scope icon flags :
  add_regions vid key regs scope icon flags ∈ new_effects st st' →
  regs = region_of view <$> shown ∧ icon = mark_of settings.
Proof using Hrun.
  rewrite new_effects_show_errors, elem_of_app.
  unfold region_calls, panel_calls.
  intros [Hin|Hin]; repeat case_match; one_call Hin; simplify_eq;
    try done; by destruct (Py.truthy (highlight_of settings)).
Qed.

Lemma shown_dict :
  ERRORS_IN_VIEWS st' =
  <[view_id view := foldl record ∅ shown]> (ERRORS_IN_VIEWS st).
Proof using Hrun. by destruct (show_errors_ok _ _ _ _ _ Hrun) as [-> _]. Qed.

Lemma shown_list :
  errors_list st' = if Py.truthy (popup_of settings) then shown else [].
Proof using Hrun. by destruct (show_errors_ok _ _ _ _ _ Hrun) as [-> _]. Qed.

Lemma shown_elem e :
  e ∈ shown →
  e ∈ errors_list st
  ∧ passes view (select_of view_settings) (ignore_of view_settings) e = Ok true.
Proof. intros (? & ? & _)%displayed_from_elem. done. Qed.

Lemma run_passes e :
  e ∈ errors_list st →
  ∃ b, passes view (select_of view_settings) (ignore_of view_settings) e = Ok b.
Proof using Hrun.
  destruct (show_errors_ok _ _ _ _ _ Hrun) as [_ Hall].
  rewrite Forall_forall in Hall. apply Hall.
Qed.

End run_facts.

(** The texts recorded for line [k]: those of the displayed errors on
    that line, in order, after what the dictionary held before. *)
Lemma foldl_record_lookup shown : ∀ (d : gmap Z (list string)) k,
  foldl record d shown !! k =
  match filter (λ e, e_line e - 1 = k) shown with
  | [] => d !! k
  | es => Some (default [] (d !! k) ++ (e_text <$> es))
  end.
Proof.
  induction shown as [|e shown IH]; intros d k; [done|].
  change (foldl record d (e :: shown)) with (foldl record (record d e) shown).
  rewrite IH, filter_cons. unfold record.
  case_decide as Hk.
  - subst k. rewrite lookup_insert_eq. simpl.
    destruct (filter _ shown) as [|e' es]; simpl; [done|].
    by rewrite <- app_assoc.
  - by rewrite lookup_insert_ne.
Qed.

(** Dropping errors the loop skips anyway does not change its result. *)
Lemma for_each_filter {S A} (body : S → A → Exc S) (keep : A → bool) l :
  (∀ vars x vars',
     x ∈ l → keep x = false → body vars x = Ok vars' → vars' = vars) →
  ∀ vars out,
    for_each body vars l = Ok out →
    for_each body vars (filter (λ x, keep x = true) l) = Ok out.
Proof.
  induction l as [|x l IH]; intros Hskip vars out Hrun; [done|].
  simpl in Hrun. rewrite filter_cons.
  destruct (body vars x) as [vars'|?] eqn:Hbody; simpl in Hrun; [|done].
  assert (∀ vars x vars', x ∈ l → keep x = false →
            body vars x = Ok vars' → vars' = vars) as Hskip'.
  { intros ??? Hin. apply Hskip. by right. }
  destruct (keep x) eqn:Hk.
  - rewrite decide_True by done. simpl. rewrite Hbody. simpl. by apply IH.
  - rewrite decide_False by done.
    rewrite (Hskip _ _ _ ltac:(by left) Hk Hbody) in Hrun. by apply IH.
Qed.

Lemma show_errors_filter settings view view_settings st st' keep :
  (∀ e, e ∈ errors_list st → keep e = false →
        passes view (select_of view_settings) (ignore_of view_settings) e
        ≠ Ok true) →
  show_errors settings view view_settings st = (st', Ok tt) →
  show_errors settings view view_settings
    (with_errors_list (filter (λ e, keep e = true) (errors_list st)) st)
  = (st', Ok tt).
Proof.
  intros Hskip. rewrite !show_errors_eq. simpl.
  destruct (show_errors_loop _ _ _ _ _ _ (errors_list st)) as [vars|x] eqn:Hloop;
    [|done].
  unfold show_errors_loop in *.
  erewrite for_each_filter; [done| |exact Hloop].
  intros vars0 e vars' Hin Hk.
  rewrite show_errors_body_unfold.
  specialize (Hskip e Hin Hk).
  destruct (passes _ _ _ e) as [[]|?]; [done| |done]. congruence.
Qed.

(* ===================================================================== *)
(** ** Properties of the displayed errors *)
(* ===================================================================== *)

Lemma filter_keep_ne (e : Error) (l : list Error) :
  filter (λ e', bool_decide (e' ≠ e) = true) l = filter (λ e', e' ≠ e) l.
Proof. apply list_filter_iff. intros e'. apply bool_decide_eq_true. Qed.

Lemma keep_ne_false (e e' : Error) : bool_decide (e' ≠ e) = false → e' = e.
Proof.
  intros Hk. apply bool_decide_eq_false in Hk.
  by destruct (decide (e' = e)).
Qed.

Lemma noqa_line_skipped view e :
  PyStr.endswith (PyStr.lower (PyStr.strip (full_line_text view e))) "# noqa"
  = true →
  skip_line (line_text view e) = true.
Proof. intros H. unfold line_text. by rewrite skip_line_strip. Qed.

(** C2 (noqa suppression).  In a run of [show_errors] that returns, an
    error whose line, stripped and lower-cased, ends with [# noqa] is
    suppressed: its entry is in no quick panel, every highlighted region
    belongs to an error on a line without the comment, the per-view
    dictionary has no entry for its line, it is not in the list the panel
    navigates, and the run ends in the same state as a run from which the
    error is left out. *)
Theorem noqa_line_is_suppressed settings view view_settings st st' e :
  show_errors settings view view_settings st = (st', Ok tt) →
  e ∈ errors_list st →
  PyStr.endswith (PyStr.lower (PyStr.strip (full_line_text view e))) "# noqa"
  = true →
  (∀ vid items,
     show_quick_panel vid items ∈ new_effects st st' →
     entry_of view e ∉ items)
  ∧ (∀ vid key regs scope icon flags r,
       add_regions vid key regs scope icon flags ∈ new_effects st st' →
       r ∈ regs →
       ∃ e', e' ∈ errors_list st ∧ r = region_of view e'
             ∧ skip_line (line_text view e') = false)
  ∧ (∀ d, ERRORS_IN_VIEWS st' !! view_id view = Some d →
          d !! (e_line e - 1) = None)
  ∧ (e ∉ errors_list st')
  ∧ show_errors settings view view_settings
      (with_errors_list (filter (λ e', e' ≠ e) (errors_list st)) st)
    = (st', Ok tt).
Proof.
  intros Hrun He Hnoqa%noqa_line_skipped.
  assert (∀ e', e' ∈ displayed view (select_of view_settings)
                       (ignore_of view_settings) (errors_list st) →
                e_line e' ≠ e_line e) as Hline.
  { intros e' [_ Hp]%shown_elem Heq.
    apply passes_true in Hp as [Hskip _].
    rewrite (same_line_same_text view e' e Heq) in Hskip. congruence. }
  repeat split.
  - intros vid items (_ & -> & _)%(shown_panel _ _ _ _ _ Hrun).
    intros (e' & Heq & He')%list_elem_of_fmap.
    apply (Hline e' He'). symmetry. by apply (entry_of_inj view).
  - intros vid key regs scope icon flags r
      [-> _]%(shown_regions _ _ _ _ _ Hrun)
      (e' & -> & He')%list_elem_of_fmap.
    exists e'. destruct (shown_elem _ _ _ _ He') as [Hin Hp].
    apply passes_true in Hp as [Hskip _]. done.
  - intros d. rewrite (shown_dict _ _ _ _ _ Hrun), lookup_insert_eq.
    intros [= <-]. rewrite foldl_record_lookup.
    destruct (filter _ _) as [|e' es] eqn:Hf; [done|].
    assert (e' ∈ filter (λ e0, e_line e0 - 1 = e_line e - 1)
                   (displayed view (select_of view_settings)
                      (ignore_of view_settings) (errors_list st))) as Hin
      by (rewrite Hf; by left).
    apply list_elem_of_filter in Hin as [Heq Hin].
    destruct (Hline e' Hin). lia.
  - rewrite (shown_list _ _ _ _ _ Hrun). intros Hin.
    destruct (Py.truthy (popup_of settings)); [|by apply elem_of_nil in Hin].
    by apply (Hline e Hin).
  - rewrite <- filter_keep_ne. apply show_errors_filter; [|done].
    intros e' _ ->%keep_ne_false. by rewrite passes_noqa.
Qed.

Lemma noqa_line_is_suppressed_witness :
  let st' := (show_errors Sample.settings Sample.view ∅ Sample.st).1 in
  let e := mkError 2 0 "F401 os unused" in
  (∀ vid items,
     show_quick_panel vid items ∈ new_effects Sample.st st' →
     entry_of Sample.view e ∉ items)
  ∧ (∀ vid key regs scope icon flags r,
       add_regions vid key regs scope icon flags ∈ new_effects Sample.st st' →
       r ∈ regs →
       ∃ e', e' ∈ errors_list Sample.st ∧ r = region_of Sample.view e'
             ∧ skip_line (line_text Sample.view e') = false)
  ∧ (∀ d, ERRORS_IN_VIEWS st' !! view_id Sample.view = Some d →
          d !! (e_line e - 1) = None)
  ∧ (e ∉ errors_list st')
  ∧ show_errors Sample.settings Sample.view ∅
      (with_errors_list (filter (λ e', e' ≠ e) (errors_list Sample.st)) Sample.st)
    = (st', Ok tt).
Proof.
  intros st' e.
  apply (noqa_line_is_suppressed Sample.settings Sample.view ∅ Sample.st st' e).
  - vm_compute. reflexivity.
  - vm_compute. right. left.
  - vm_compute. reflexivity.
Defined.

Lemma ignore_of_list view_settings prefixes :
  view_settings !! "ignore" = Some (PList prefixes) →
  ignore_of view_settings = PList prefixes.
Proof.
  intros H. unfold ignore_of, dict_get, Py.or_. rewrite H. simpl.
  case_bool_decide; by subst.
Qed.

Lemma select_of_list view_settings prefixes :
  view_settings !! "select" = Some (PList prefixes) →
  select_of view_settings = PList prefixes.
Proof.
  intros H. unfold select_of, dict_get, Py.or_. rewrite H. simpl.
  case_bool_decide; by subst.
Qed.

Lemma same_text_same_code e1 e2 :
  e_text e1 = e_text e2 → error_code e1 = error_code e2.
Proof. unfold error_code. by intros ->. Qed.

(** C5 (ignore filtering).  In a run of [show_errors] that returns, when
    the [ignore] setting is a list and the code of an error starts with one
    of its prefixes, the error is not shown: its entry is in no quick
    panel, every highlighted region belongs to an error whose code starts
    with none of the prefixes, its text is not recorded for its line in
    the per-view dictionary, it is not in the list the panel navigates,
    and the run ends in the same state as a run from which the error is
    left out. *)
Theorem ignored_code_is_not_shown
    settings view view_settings st st' prefixes e code :
  show_errors settings view view_settings st = (st', Ok tt) →
  view_settings !! "ignore" = Some (PList prefixes) →
  e ∈ errors_list st →
  error_code e = Ok code →
  has_prefix_in prefixes code →
  (∀ vid items,
     show_quick_panel vid items ∈ new_effects st st' →
     entry_of view e ∉ items)
  ∧ (∀ vid key regs scope icon flags r,
       add_regions vid key regs scope icon flags ∈ new_effects st st' →
       r ∈ regs →
       ∃ e' code', e' ∈ errors_list st ∧ r = region_of view e'
                   ∧ error_code e' = Ok code'
                   ∧ ¬ has_prefix_in prefixes code')
  ∧ (∀ d texts, ERRORS_IN_VIEWS st' !! view_id view = Some d →
                d !! (e_line e - 1) = Some texts → e_text e ∉ texts)
  ∧ (e ∉ errors_list st')
  ∧ show_errors settings view view_settings
      (with_errors_list (filter (λ e', e' ≠ e) (errors_list st)) st)
    = (st', Ok tt).
Proof.
  intros Hrun Hign%ignore_of_list He Hcode Hpre.
  assert (∀ e' code', passes view (select_of view_settings)
                        (ignore_of view_settings) e' = Ok true →
                      error_code e' = Ok code' →
                      ¬ has_prefix_in prefixes code') as Hclean.
  { intros e' code' (_ & c & Hc & _ & Hi)%passes_true Hc' Hex.
    rewrite Hc in Hc'. inversion Hc'; subst c.
    rewrite Hign in Hi. apply code_selected_by_list in Hi.
    by apply Hi in Hex. }
  assert (∀ e', e' ∈ displayed view (select_of view_settings)
                       (ignore_of view_settings) (errors_list st) →
                e_text e' ≠ e_text e) as Htext.
  { intros e' [_ Hp]%shown_elem Heq.
    apply (Hclean e' code Hp); [|done].
    by rewrite (same_text_same_code e' e Heq). }
  repeat split.
  - intros vid items (_ & -> & _)%(shown_panel _ _ _ _ _ Hrun).
    intros (e' & Heq & He')%list_elem_of_fmap.
    apply (Htext e' He'). symmetry. by apply (entry_of_inj view).
  - intros vid key regs scope icon flags r
      [-> _]%(shown_regions _ _ _ _ _ Hrun)
      (e' & -> & He')%list_elem_of_fmap.
    destruct (shown_elem _ _ _ _ He') as [Hin Hp].
    destruct (passes_true _ _ _ _ Hp) as (_ & code' & Hc' & _).
    exists e', code'. eauto.
  - intros d texts. rewrite (shown_dict _ _ _ _ _ Hrun), lookup_insert_eq.
    intros [= <-]. rewrite foldl_record_lookup, lookup_empty.
    destruct (filter _ _) as [|e0 es] eqn:Hf; [done|].
    intros Heq Hin.
    assert (e_text e ∈ e_text <$> e0 :: es) as Hin'.
    { simpl in Heq. injection Heq as <-. exact Hin. }
    rewrite <- Hf in Hin'.
    apply list_elem_of_fmap in Hin' as (e' & Htxt & [_ He']%list_elem_of_filter).
    by apply (Htext e' He').
  - rewrite (shown_list _ _ _ _ _ Hrun). intros Hin.
    destruct (Py.truthy (popup_of settings)); [|by apply elem_of_nil in Hin].
    by apply (Htext e Hin).
  - rewrite <- filter_keep_ne. apply show_errors_filter; [|done].
    intros e' _ ->%keep_ne_false Hp. by apply (Hclean e code Hp).
Qed.

Lemma ignored_code_is_not_shown_witness :
  let vs : gmap string PyVal := {[ "ignore" := PList [PStr "E5"; PStr "W"] ]} in
  let st' := (show_errors Sample.settings Sample.view vs Sample.st).1 in
  let e := mkError 3 4 "E501 line too long" in
  (∀ vid items,
     show_quick_panel vid items ∈ new_effects Sample.st st' →
     entry_of Sample.view e ∉ items)
  ∧ (∀ vid key regs scope icon flags r,
       add_regions vid key regs scope icon flags ∈ new_effects Sample.st st' →
       r ∈ regs →
       ∃ e' code', e' ∈ errors_list Sample.st ∧ r = region_of Sample.view e'
                   ∧ error_code e' = Ok code'
                   ∧ ¬ has_prefix_in [PStr "E5"; PStr "W"] code')
  ∧ (∀ d texts, ERRORS_IN_VIEWS st' !! view_id Sample.view = Some d →
                d !! (e_line e - 1) = Some texts → e_text e ∉ texts)
  ∧ (e ∉ errors_list st')
  ∧ show_errors Sample.settings Sample.view vs
      (with_errors_list (filter (λ e', e' ≠ e) (errors_list Sample.st)) Sample.st)
    = (st', Ok tt).
Proof.
  intros vs st' e.
  apply (ignored_code_is_not_shown Sample.settings Sample.view vs Sample.st st'
           [PStr "E5"; PStr "W"] e "E501").
  - vm_compute. reflexivity.
  - vm_compute. reflexivity.
  - vm_compute. right. right. left.
  - vm_compute. reflexivity.
  - exists "E5". split; [left | vm_compute; reflexivity].
Defined.





(** The sample run reports the trailing whitespace of line 1 twice and
    shows it once. *)
Example sample_run_shows :
  new_effects Sample.st (show_errors Sample.settings Sample.view ∅ Sample.st).1
  = [add_regions 7 "flake8-errors"
       [mkRegion 0 6; mkRegion 29 34; mkRegion 29 34]
       "invalid.deprecated" (PStr "dot") DRAW_OUTLINED;
     show_quick_panel 7
       [["W291 trailing whitespace"; "1: x = 1"];
        ["E501 line too long"; "3: y = 2"];
        ["E111 indent"; "3: y = 2"]]].
Proof. vm_compute. reflexivity. Qed.

Lemma app_assoc_text (a b c : string) : (a +:+ b) +:+ c = a +:+ b +:+ c.
Proof. induction a as [|x a IH]; app_simpl; [done|]. by rewrite IH. Qed.

(** The region of an error, in terms of the parts of its line: the
    leading whitespace, the text, and the line end. *)
Lemma region_of_parts view e code :
  error_code e = Ok code →
  ∃ indent text line_end,
    full_line_text view e = indent +:+ text +:+ line_end
    ∧ all_in PyStr.isspace indent
    ∧ starts_clean PyStr.isspace text
    ∧ all_in PyStr.is_crlf line_end
    ∧ ends_clean PyStr.is_crlf (indent +:+ text)
    ∧ region_of view e =
      let start_of_line := view_text_point view (e_line e - 1) 0 in
      mkRegion
        (if bool_decide (code = "E501") then start_of_line + e_col e
         else start_of_line + PyStr.len indent)
        (start_of_line + PyStr.len indent + PyStr.len text).
Proof.
  intros Hcode.
  set (body := PyStr.rstrip_by PyStr.is_crlf (full_line_text view e)).
  exists (leading PyStr.isspace body), (PyStr.lstrip body),
    (trailing PyStr.is_crlf (full_line_text view e)).
  assert (body = leading PyStr.isspace body +:+ PyStr.lstrip body) as Hbody
    by apply leading_lstrip.
  split; [|split; [|split; [|split; [|split]]]].
  - rewrite <- app_assoc_text, <- Hbody. apply rstrip_trailing.
  - apply leading_all_in.
  - apply lstrip_by_clean.
  - apply trailing_all_in.
  - rewrite <- Hbody. apply rstrip_by_ends_clean.
  - unfold region_of, code_of, region_for. rewrite Hcode. fold body.
    simpl. f_equal.
    + case_bool_decide; [done|].
      pose proof (len_lstrip PyStr.isspace body) as Hlen.
      unfold PyStr.lstrip. lia.
    + rewrite Hbody at 1. rewrite len_app. unfold PyStr.lstrip. lia.
Qed.

(** C9 (highlight regions).  In a run of [show_errors] that returns and
    calls [add_regions], the regions are those of the displayed errors, in
    order; the region of a displayed error ends where the text of its line
    ends, before the line end, and starts after the leading whitespace of
    the line, or at the column of the error when its code is [E501]. *)
Theorem highlight_region_of_displayed_error
    settings view view_settings st st' vid key regs scope icon flags :
  show_errors settings view view_settings st = (st', Ok tt) →
  add_regions vid key regs scope icon flags ∈ new_effects st st' →
  let shown :=
    displayed view (select_of view_settings) (ignore_of view_settings)
              (errors_list st) in
  regs = region_of view <$> shown
  ∧ (Py.truthy (popup_of settings) = true → errors_list st' = shown)
  ∧ ∀ e, e ∈ shown →
      ∃ code indent text line_end,
        error_code e = Ok code
        ∧ full_line_text view e = indent +:+ text +:+ line_end
        ∧ all_in PyStr.isspace indent
        ∧ starts_clean PyStr.isspace text
        ∧ all_in PyStr.is_crlf line_end
        ∧ ends_clean PyStr.is_crlf (indent +:+ text)
        ∧ region_of view e =
          let start_of_line := view_text_point view (e_line e - 1) 0 in
          mkRegion
            (if bool_decide (code = "E501") then start_of_line + e_col e
             else start_of_line + PyStr.len indent)
            (start_of_line + PyStr.len indent + PyStr.len text).
Proof.
  intros Hrun [-> _]%(shown_regions _ _ _ _ _ Hrun) shown.
  split; [done|]. split.
  - intros Hpop. by rewrite (shown_list _ _ _ _ _ Hrun), Hpop.
  - intros e [_ Hp]%shown_elem.
    destruct (passes_true _ _ _ _ Hp) as (_ & code & Hcode & _).
    destruct (region_of_parts view e code Hcode)
      as (indent & text & line_end & Hparts).
    by exists code, indent, text, line_end.
Qed.

Lemma highlight_region_of_displayed_error_witness :
  let st' := (show_errors Sample.settings Sample.view ∅ Sample.st).1 in
  let regs := [mkRegion 0 6; mkRegion 29 34; mkRegion 29 34] in
  let shown := displayed Sample.view (select_of ∅) (ignore_of ∅)
                         (errors_list Sample.st) in
  regs = region_of Sample.view <$> shown
  ∧ (Py.truthy (popup_of Sample.settings) = true → errors_list st' = shown)
  ∧ ∀ e, e ∈ shown →
      ∃ code indent text line_end,
        error_code e = Ok code
        ∧ full_line_text Sample.view e = indent +:+ text +:+ line_end
        ∧ all_in PyStr.isspace indent
        ∧ starts_clean PyStr.isspace text
        ∧ all_in PyStr.is_crlf line_end
        ∧ ends_clean PyStr.is_crlf (indent +:+ text)
        ∧ region_of Sample.view e =
          let start_of_line := view_text_point Sample.view (e_line e - 1) 0 in
          mkRegion
            (if bool_decide (code = "E501") then start_of_line + e_col e
             else start_of_line + PyStr.len indent)
            (start_of_line + PyStr.len indent + PyStr.len text).
Proof.
  intros st' regs.
  apply (highlight_region_of_displayed_error Sample.settings Sample.view ∅
           Sample.st st' 7 "flake8-errors" regs "invalid.deprecated"
           (PStr "dot") DRAW_OUTLINED).
  - vm_compute. reflexivity.
  - vm_compute. left.
Defined.

(** The mark after the test of lines 263 to 265 is one of the five. *)
Lemma mark_of_sane settings :
  mark_of settings
  ∈ [PStr ""; PStr "dot"; PStr "circle"; PStr "bookmark"; PStr "cross"].
Proof.
  unfold mark_of.
  destruct (dict_get_or settings "gutter_marks" (PStr "")) as [| | |s| |];
    simpl; try by left.
  unfold gutter_marks. simpl.
  repeat (case_bool_decide; [subst s; simpl; set_solver|]). simpl. by left.
Qed.

Lemma mark_of_other settings :
  dict_get_or settings "gutter_marks" (PStr "")
  ∉ [PStr ""; PStr "dot"; PStr "circle"; PStr "bookmark"; PStr "cross"] →
  mark_of settings = PStr "".
Proof.
  unfold mark_of. intros Hnot.
  destruct (Py.in_strs _ gutter_marks) eqn:Hin; [|done].
  destruct Hnot. unfold Py.in_strs, gutter_marks in Hin.
  destruct (dict_get_or settings "gutter_marks" (PStr "")) as [| | |s| |];
    simpl in Hin; try done.
  repeat (case_bool_decide; [subst s; set_solver|]). done.
Qed.

(** The calls of any run of [show_errors], whatever its outcome. *)
Lemma new_effects_any settings view view_settings st st' r :
  show_errors settings view view_settings st = (st', r) →
  new_effects st st' = []
  ∨ ∃ regs items,
      new_effects st st' =
      region_calls settings view regs ++ panel_calls settings view items.
Proof.
  rewrite show_errors_eq.
  destruct (show_errors_loop _ _ _ _ _ _ _) as [vars|x].
  - intros [= <- _]. right. exists (regions vars), (errors_to_show vars).
    by apply new_effects_app.
  - intros [= <- _]. left. unfold new_effects. apply drop_all.
Qed.

(** C10 (gutter mark).  The icon of every [add_regions] call of
    [show_errors] is one of ['']['dot']['circle']['bookmark']['cross'],
    and it is [''] when the [gutter_marks] setting is none of them. *)
Theorem gutter_mark_is_sanitized
    settings view view_settings st st' r vid key regs scope icon flags :
  show_errors settings view view_settings st = (st', r) →
  add_regions vid key regs scope icon flags ∈ new_effects st st' →
  icon ∈ [PStr ""; PStr "dot"; PStr "circle"; PStr "bookmark"; PStr "cross"]
  ∧ (dict_get_or settings "gutter_marks" (PStr "")
     ∉ [PStr ""; PStr "dot"; PStr "circle"; PStr "bookmark"; PStr "cross"] →
     icon = PStr "").
Proof.
  intros [Hnew|(regs' & items & Hnew)]%new_effects_any; rewrite Hnew.
  - by intros ?%elem_of_nil.
  - unfold region_calls, panel_calls. rewrite elem_of_app.
    intros [Hin|Hin]; repeat case_match; one_call Hin;
      (split; [apply mark_of_sane | apply mark_of_other]).
Qed.

Lemma gutter_mark_is_sanitized_witness :
  let settings : gmap string PyVal :=
    {[ "gutter_marks" := PStr "arrow"; "highlight" := PBool true ]} in
  PStr ""
  ∈ [PStr ""; PStr "dot"; PStr "circle"; PStr "bookmark"; PStr "cross"]
  ∧ (dict_get_or settings "gutter_marks" (PStr "")
     ∉ [PStr ""; PStr "dot"; PStr "circle"; PStr "bookmark"; PStr "cross"] →
     PStr "" = PStr "").
Proof.
  intros settings.
  apply (gutter_mark_is_sanitized settings Sample.view ∅ Sample.st
           (show_errors settings Sample.view ∅ Sample.st).1
           (Ok tt) 7 "flake8-errors"
           [mkRegion 0 6; mkRegion 29 34; mkRegion 29 34]
           "invalid.deprecated" (PStr "") DRAW_OUTLINED).
  - vm_compute. reflexivity.
  - vm_compute. left.
Defined.

(** What lines 288 to 290 do: with a list as [select] setting, every
    displayed error has a code that starts with none of its prefixes. *)
Lemma select_hides_matching_codes
    settings view view_settings st st' prefixes e :
  show_errors settings view view_settings st = (st', Ok tt) →
  view_settings !! "select" = Some (PList prefixes) →
  e ∈ displayed view (select_of view_settings) (ignore_of view_settings)
                (errors_list st) →
  ∃ code, error_code e = Ok code ∧ ¬ has_prefix_in prefixes code.
Proof.
  intros _ Hsel%select_of_list [_ Hp]%shown_elem.
  destruct (passes_true _ _ _ _ Hp) as (_ & code & Hcode & Hs & _).
  exists code. split; [done|]. intros Hex.
  rewrite Hsel in Hs. apply code_selected_by_list in Hs. by apply Hs in Hex.
Qed.

(** C1 (select filtering), on the sample run with [select] set to
    [['E']]: the run shows the one error whose code, [W291], does not start
    with [E], and shows neither [E501] nor [E111]. *)
Theorem select_setting_on_sample_run :
  let vs : gmap string PyVal := {[ "select" := PList [PStr "E"] ]} in
  let st' := (show_errors Sample.settings Sample.view vs Sample.st).1 in
  show_errors Sample.settings Sample.view vs Sample.st = (st', Ok tt)
  ∧ new_effects Sample.st st'
    = [add_regions 7 "flake8-errors" [mkRegion 0 6]
         "invalid.deprecated" (PStr "dot") DRAW_OUTLINED;
       show_quick_panel 7 [["W291 trailing whitespace"; "1: x = 1"]]]
  ∧ ERRORS_IN_VIEWS st' !! 7 = Some {[ 0 := ["W291 trailing whitespace"] ]}
  ∧ errors_list st' = [mkError 1 5 "W291 trailing whitespace"]
  ∧ PyStr.startswith "W291" "E" = false
  ∧ PyStr.startswith "E501" "E" = true
  ∧ PyStr.startswith "E111" "E" = true.
Proof. vm_compute. repeat split; reflexivity. Qed.

(* ===================================================================== *)
(** ** Reasoning about code in [M]: what every step preserves *)
(* ===================================================================== *)

Section preserves.

Context (R : relation Plugin) `{!PreOrder R}.

Local Abbreviation preserves := (preserves R).

Lemma preserves_ret {A} (a : A) : preserves (mret a : M A).
Proof. intros st. simpl. reflexivity. Qed.

Lemma preserves_bind {A B} (m : M A) (k : A → M B) :
  preserves m → (∀ a, preserves (k a)) → preserves (m ≫= k).
Proof.
  intros Hm Hk st. unfold mbind, M_bind, m_bind.
  specialize (Hm st). destruct (m st) as [st1 [a|x]]; simpl in *; [|done].
  etrans; [exact Hm | apply Hk].
Qed.

Lemma preserves_lift {A} (r : Exc A) : preserves (lift r).
Proof. intros st. simpl. reflexivity. Qed.

Lemma preserves_raise {A} (x : Exn) : preserves (raise x : M A).
Proof. intros st. simpl. reflexivity. Qed.

Lemma preserves_get_state : preserves get_state.
Proof. intros st. simpl. reflexivity. Qed.

End preserves.

Global Instance emits_preorder P : PreOrder (emits P).
Proof.
  split.
  - intros st. exists []. by rewrite app_nil_r.
  - intros st1 st2 st3 (n1 & H1 & P1) (n2 & H2 & P2).
    exists (n1 ++ n2). rewrite H2, H1, app_assoc. split; [done|].
    by apply Forall_app.
Qed.

Lemma emits_emit P c : P c → preserves (emits P) (emit c).
Proof. intros Hc st. exists [c]. split; [done|]. by constructor. Qed.

Lemma emits_set_errors_list P l : preserves (emits P) (set_errors_list l).
Proof. intros st. exists []. by rewrite app_nil_r. Qed.

Lemma emits_set_last_selected_line P o :
  preserves (emits P) (set_last_selected_line o).
Proof. intros st. exists []. by rewrite app_nil_r. Qed.

Lemma emits_set_view_errors P vid d : preserves (emits P) (set_view_errors vid d).
Proof. intros st. exists []. by rewrite app_nil_r. Qed.

Lemma emits_weaken (P Q : Effect → Prop) {A} (m : M A) :
  (∀ c, P c → Q c) → preserves (emits P) m → preserves (emits Q) m.
Proof.
  intros HPQ Hm st. destruct (Hm st) as (new & Hnew & HP).
  exists new. split; [done|]. eapply Forall_impl; eauto.
Qed.

Lemma emits_new_effects P st st' :
  emits P st st' → Forall P (new_effects st st').
Proof. intros (new & Hnew & HP). by rewrite (new_effects_app _ _ _ Hnew). Qed.

Global Instance keeps_views_preorder : PreOrder keeps_views.
Proof.
  split.
  - intros st. unfold keeps_views. set_solver.
  - intros st1 st2 st3 H1 H2. unfold keeps_views in *. set_solver.
Qed.

Lemma keeps_views_emit c : preserves keeps_views (emit c).
Proof. intros st. unfold keeps_views. by simpl. Qed.

Lemma keeps_views_set_errors_list l : preserves keeps_views (set_errors_list l).
Proof. intros st. unfold keeps_views. by simpl. Qed.

Lemma keeps_views_set_last_selected_line o :
  preserves keeps_views (set_last_selected_line o).
Proof. intros st. unfold keeps_views. by simpl. Qed.

Lemma keeps_views_set_view_errors vid d :
  preserves keeps_views (set_view_errors vid d).
Proof.
  intros st. unfold keeps_views. simpl. rewrite dom_insert_L. set_solver.
Qed.

(** One step of a proof of [preserves R m], by the shape of [m]. *)
Ltac preserves_step :=
  lazymatch goal with
  | |- PreOrder _ => apply _
  | |- preserves _ (mbind _ _) => apply preserves_bind; [..|intros]
  | |- preserves _ (mret _) => apply preserves_ret
  | |- preserves _ (lift _) => apply preserves_lift
  | |- preserves _ (raise _) => apply preserves_raise
  | |- preserves _ get_state => apply preserves_get_state
  | |- preserves (emits _) (set_errors_list _) => apply emits_set_errors_list
  | |- preserves (emits _) (set_last_selected_line _) =>
      apply emits_set_last_selected_line
  | |- preserves (emits _) (set_view_errors _ _) => apply emits_set_view_errors
  | |- preserves keeps_views (emit _) => apply keeps_views_emit
  | |- preserves keeps_views (set_errors_list _) =>
      apply keeps_views_set_errors_list
  | |- preserves keeps_views (set_last_selected_line _) =>
      apply keeps_views_set_last_selected_line
  | |- preserves keeps_views (set_view_errors _ _) =>
      apply keeps_views_set_view_errors
  | |- preserves _ (if ?b then _ else _) => destruct b
  | |- preserves _ (match ?x with _ => _ end) => destruct x
  | |- preserves _ (let '(_, _) := ?x in _) => destruct x
  end.

Lemma show_errors_emits settings view view_settings :
  preserves (emits display_call) (show_errors settings view view_settings).
Proof.
  intros st. rewrite show_errors_eq.
  destruct (show_errors_loop _ _ _ _ _ _ _) as [vars|x]; [|reflexivity].
  eexists. split; [reflexivity|]. apply Forall_app.
  unfold region_calls, panel_calls.
  split; repeat case_match;
    try apply Forall_nil_2;
    (apply Forall_cons; split; [|apply Forall_nil_2]); simpl;
    first [apply mark_of_sane | exact I].
Qed.

Lemma show_errors_keeps_views settings view view_settings :
  preserves keeps_views (show_errors settings view view_settings).
Proof.
  intros st. rewrite show_errors_eq.
  destruct (show_errors_loop _ _ _ _ _ _ _) as [vars|x]; [|reflexivity].
  unfold keeps_views. simpl. rewrite dom_insert_L. set_solver.
Qed.

(* ===================================================================== *)
(** ** The calls of a lint run *)
(* ===================================================================== *)

Lemma startswith_app p rest : PyStr.startswith (p +:+ rest) p = true.
Proof. apply startswith_spec. by exists rest. Qed.

Lemma display_call_side c : display_call c → side_call c.
Proof. by destruct c. Qed.

Lemma side_call_well_formed c : side_call c → well_formed_call c.
Proof. by intros [_ ?]. Qed.

(** Discharges [P c] for a call [c] of the program text. *)
Ltac call_ok :=
  first [ exact I
        | split; [reflexivity|]; first [exact I | apply startswith_app]
        | apply startswith_app ].

Ltac preserves_emits :=
  repeat first [ preserves_step | apply emits_emit; call_ok ].

Lemma check_ignore_files_emits host filename patterns :
  preserves (emits side_call) (check_ignore_files host filename patterns).
Proof. unfold check_ignore_files. preserves_emits. Qed.

Lemma run_prepare_emits host view :
  preserves (emits side_call) (run_prepare host view).
Proof.
  unfold run_prepare.
  repeat first [ preserves_step | apply emits_emit; call_ok
               | apply check_ignore_files_emits ].
Qed.

Lemma resolve_interpreter_emits host interpreter :
  preserves (emits side_call) (resolve_interpreter host interpreter).
Proof. unfold resolve_interpreter. preserves_emits. Qed.

Lemma find_linter_emits host :
  preserves (emits side_call) (find_linter host).
Proof. unfold find_linter. preserves_emits. Qed.

Lemma run_report_emits host view view_settings :
  preserves (emits side_call) (run_report host view view_settings).
Proof.
  unfold run_report.
  repeat first [ preserves_step | apply emits_emit; call_ok ].
  eapply emits_weaken; [apply display_call_side | apply show_errors_emits].
Qed.

Lemma run_engine_emits host filename view_settings :
  preserves (emits well_formed_call) (run_engine host filename view_settings).
Proof.
  unfold run_engine.
  repeat first
    [ preserves_step | apply emits_emit; call_ok
    | eapply emits_weaken;
        [apply side_call_well_formed
        |first [apply resolve_interpreter_emits | apply find_linter_emits]] ].
Qed.

Lemma run_emits host view : preserves (emits well_formed_call) (run host view).
Proof.
  unfold run.
  repeat first
    [ preserves_step | apply run_engine_emits
    | eapply emits_weaken;
        [apply side_call_well_formed
        |first [apply run_prepare_emits | apply run_report_emits]] ].
Qed.

Lemma bind_ok {A B} (m : M A) (k : A → M B) st st1 a :
  m st = (st1, Ok a) → (m ≫= k) st = k a st1.
Proof. intros H. unfold mbind, M_bind, m_bind. by rewrite H. Qed.

Lemma bind_raise {A B} (m : M A) (k : A → M B) st st1 x :
  m st = (st1, Raise x) → (m ≫= k) st = (st1, Raise x).
Proof. intros H. unfold mbind, M_bind, m_bind. by rewrite H. Qed.

Lemma new_effects_trans P Q st st1 st2 :
  emits P st st1 → emits Q st1 st2 →
  new_effects st st2 = new_effects st st1 ++ new_effects st1 st2.
Proof.
  intros (n1 & H1 & _) (n2 & H2 & _).
  rewrite (new_effects_app _ _ _ H1), (new_effects_app _ _ _ H2).
  apply new_effects_app. by rewrite H2, H1, app_assoc.
Qed.

Lemma new_effects_refl st : new_effects st st = [].
Proof. unfold new_effects. apply drop_all. Qed.

(** The calls of [m ≫= k]: those of [m], then those of [k]. *)
Lemma new_effects_bind {A B} P Q (m : M A) (k : A → M B) st :
  preserves (emits P) m → (∀ a, preserves (emits Q) (k a)) →
  new_effects st ((m ≫= k) st).1 =
  new_effects st (m st).1
  ++ match (m st).2 with
     | Ok a => new_effects (m st).1 (k a (m st).1).1
     | Raise _ => []
     end.
Proof.
  intros Hm Hk. specialize (Hm st).
  destruct (m st) as [st1 [a|x]] eqn:Hrun; simpl in *.
  - rewrite (bind_ok _ _ _ _ _ Hrun).
    eapply new_effects_trans; [exact Hm | apply Hk].
  - rewrite (bind_raise _ _ _ _ _ Hrun). simpl. by rewrite app_nil_r.
Qed.


(** The calls of a run that gets past its early returns. *)
Lemma new_effects_run host view st st1 filename view_settings :
  run_prepare host view st = (st1, Ok (Some (filename, view_settings))) →
  let st2 := (run_engine host filename view_settings st1).1 in
  new_effects st (run host view st).1 =
  new_effects st st1
  ++ new_effects st1 st2
  ++ match (run_engine host filename view_settings st1).2 with
     | Ok _ => new_effects st2 (run_report host view view_settings st2).1
     | Raise _ => []
     end.
Proof.
  intros Hprep st2. unfold run.
  erewrite new_effects_bind.
  - rewrite Hprep. simpl. f_equal.
    erewrite new_effects_bind; [done|apply run_engine_emits|].
    intros _. apply run_report_emits.
  - apply run_prepare_emits.
  - intros [[f vs]|].
    + preserves_step; [apply _|apply run_engine_emits|].
      eapply emits_weaken;
        [apply side_call_well_formed | apply run_report_emits].
    + apply preserves_ret. apply _.
Qed.

(* ===================================================================== *)
(** ** Engine dispatch and error dialogs *)
(* ===================================================================== *)

Lemma new_effects_after_emit c st : new_effects st (after_emit c st) = [c].
Proof. by apply new_effects_app. Qed.


Lemma resolve_interpreter_result host view_settings st :
  match (resolve_interpreter host (interpreter_setting view_settings) st).2 with
  | Ok i => i = resolved_interpreter host view_settings
  | Raise x => os_path_exists host (interpreter_setting view_settings) = Raise x
  end.
Proof.
  unfold resolve_interpreter, resolved_interpreter.
  destruct (Py.eq_str _ "auto"); [by case_bool_decide|].
  unfold mbind, M_bind, m_bind, lift. simpl.
  destruct (os_path_exists host _) as [[]|x]; done.
Qed.

Lemma find_linter_result host st :
  match (find_linter host st).2 with
  | Ok linter =>
      linter ∈ [linter_in_package host; linter_in_packages_path host]
  | Raise x => ∃ v, os_path_exists host v = Raise x
  end.
Proof.
  unfold find_linter, mbind, M_bind, m_bind, lift. simpl.
  destruct (os_path_exists host (PStr (linter_in_package host)))
    as [[]|x] eqn:H1; simpl; [| |by eauto].
  - rewrite H1. simpl. by left.
  - destruct (os_path_exists host (PStr (linter_in_packages_path host)))
      as [[]|x] eqn:H2; simpl; [right; left|right; left|eauto].
Qed.






Example dispatch_internal :
  Dispatch.calls "posix" (PStr "internal")
  = [lint_call "/a/b.py" {[ "python_interpreter" := PStr "internal" ]}].
Proof. vm_compute. reflexivity. Qed.

Example dispatch_empty :
  Dispatch.calls "posix" (PStr "")
  = [lint_call "/a/b.py" {[ "python_interpreter" := PStr "" ]}].
Proof. vm_compute. reflexivity. Qed.

Example dispatch_auto_posix :
  Dispatch.calls "posix" (PStr "auto")
  = [lint_external_call "/a/b.py" {[ "python_interpreter" := PStr "auto" ]}
       (PStr "python") "/packages/Flake8Lint/lint.py"].
Proof. vm_compute. reflexivity. Qed.

Example dispatch_path :
  Dispatch.calls "posix" (PStr "/usr/bin/python3")
  = [lint_external_call "/a/b.py"
       {[ "python_interpreter" := PStr "/usr/bin/python3" ]}
       (PStr "/usr/bin/python3") "/packages/Flake8Lint/lint.py"].
Proof. vm_compute. reflexivity. Qed.

Lemma new_effects_later st st1 st2 c :
  (length (effects st) ≤ length (effects st1))%nat →
  c ∈ new_effects st1 st2 → c ∈ new_effects st st2.
Proof.
  unfold new_effects. intros Hle Hin.
  replace (length (effects st1))
    with (length (effects st) + (length (effects st1) - length (effects st)))%nat
    in Hin by lia.
  rewrite <- drop_drop in Hin.
  apply list_elem_of_lookup in Hin as [i Hi]. rewrite lookup_drop in Hi.
  by apply list_elem_of_lookup_2 in Hi.
Qed.

Lemma emits_length P st st' :
  emits P st st' → (length (effects st) ≤ length (effects st'))%nat.
Proof. intros (new & -> & _). rewrite length_app. lia. Qed.

(** A call of the second part of [m ≫= k] is a call of the whole. *)
Lemma elem_bind_r {A B} P (m : M A) (k : A → M B) st st1 a c :
  preserves (emits P) m → m st = (st1, Ok a) →
  c ∈ new_effects st1 (k a st1).1 → c ∈ new_effects st ((m ≫= k) st).1.
Proof.
  intros Hm Hrun Hin. rewrite (bind_ok _ _ _ _ _ Hrun).
  eapply new_effects_later; [|exact Hin].
  specialize (Hm st). rewrite Hrun in Hm. by eapply emits_length.
Qed.

(** A call of the first part of [m ≫= k] is a call of the whole. *)
Lemma elem_bind_l {A B} P Q (m : M A) (k : A → M B) st c :
  preserves (emits P) m → (∀ a, preserves (emits Q) (k a)) →
  c ∈ new_effects st (m st).1 → c ∈ new_effects st ((m ≫= k) st).1.
Proof.
  intros Hm Hk Hin. rewrite (new_effects_bind P Q) by done.
  apply elem_of_app. by left.
Qed.

Lemma check_ignore_files_malformed host filename patterns st x :
  any_exc (λ path, filename_match host path patterns)
          (set_order host (paths_to_check host filename)) = Raise x →
  x = TypeError ∨ x = ValueError →
  check_ignore_files host filename patterns st
  = (after_emit
       (error_message
          (dialog_prefix +:+ newline +:+
           "'ignore_files' option is not a list of file masks")) st,
     Ok false).
Proof. unfold check_ignore_files. intros -> [-> | ->]; reflexivity. Qed.

Lemma resolve_interpreter_missing host interpreter st :
  Py.eq_str interpreter "auto" = false →
  os_path_exists host interpreter = Ok false →
  resolve_interpreter host interpreter st
  = (after_emit
       (error_message
          (dialog_prefix +:+ newline +:+
           "python interpreter '" +:+ str_of host interpreter
           +:+ "' is not found")) st,
     Ok interpreter).
Proof.
  unfold resolve_interpreter, mbind, M_bind, m_bind, lift.
  by intros -> ->.
Qed.

Lemma find_linter_missing host st :
  os_path_exists host (PStr (linter_in_package host)) = Ok false →
  os_path_exists host (PStr (linter_in_packages_path host)) = Ok false →
  find_linter host st
  = (after_emit
       (error_message
          (dialog_prefix +:+ newline +:+
           "sorry, can't find correct plugin path")) st,
     Ok (linter_in_packages_path host)).
Proof.
  unfold find_linter, mbind, M_bind, m_bind, lift.
  intros -> . simpl. by intros ->.
Qed.

(** A call of the preparation or of the engine part is a call of the run. *)
Lemma run_prepare_calls host view st c :
  c ∈ new_effects st (run_prepare host view st).1 →
  c ∈ new_effects st (run host view st).1.
Proof.
  unfold run. apply (elem_bind_l side_call well_formed_call).
  - apply run_prepare_emits.
  - intros [[f vs]|]; [|apply preserves_ret; apply _].
    preserves_step; [apply _|apply run_engine_emits|].
    eapply emits_weaken;
      [apply side_call_well_formed | apply run_report_emits].
Qed.

Lemma run_engine_calls host view st st1 filename view_settings c :
  run_prepare host view st = (st1, Ok (Some (filename, view_settings))) →
  c ∈ new_effects st1 (run_engine host filename view_settings st1).1 →
  c ∈ new_effects st (run host view st).1.
Proof.
  intros Hprep Hin. rewrite (new_effects_run _ _ _ _ _ _ Hprep).
  apply elem_of_app. right. apply elem_of_app. by left.
Qed.

(** The dialog about [ignore_files] in the calls of [run_prepare]. *)
Lemma run_prepare_malformed host view st name view_settings x :
  view_file_name view = Some name → name ≠ "" →
  view_is_python view = true →
  skip_file host (os_path_abspath host name) = false →
  get_view_settings host view = Ok view_settings →
  Py.truthy (dict_get view_settings "ignore_files") = true →
  any_exc (λ path, filename_match host path
                     (dict_get view_settings "ignore_files"))
          (set_order host (paths_to_check host (os_path_abspath host name)))
  = Raise x →
  x = TypeError ∨ x = ValueError →
  error_message
    (dialog_prefix +:+ newline +:+
     "'ignore_files' option is not a list of file masks")
  ∈ new_effects st (run_prepare host view st).1.
Proof.
  intros Hname Hne Hpy Hskip Hvs Htrue Hraise Hx.
  unfold run_prepare. rewrite Hname.
  destruct name as [|ch name]; [done|].
  rewrite Hpy, Hskip. cbn [negb].
  eapply (elem_bind_r (λ _, True)); [by apply emits_emit|reflexivity|].
  eapply (elem_bind_r (λ _, True)); [by apply emits_emit|reflexivity|].
  rewrite Hvs.
  eapply (elem_bind_r (λ _, True)); [apply preserves_lift, _|reflexivity|].
  rewrite Htrue.
  eapply (elem_bind_l side_call (λ _, True)).
  - apply check_ignore_files_emits.
  - intros. repeat first [preserves_step | by apply emits_emit].
  - rewrite (check_ignore_files_malformed _ _ _ _ x) by done.
    cbn [fst]. unfold new_effects, after_emit. cbn [effects].
    rewrite drop_app_length. by left.
Qed.

(** C7 (error dialogs).  Every [error_message] of a run starts with
    [Python Flake8 Lint error:], and a run shows one: about the
    [ignore_files] option, when matching the file against that setting
    raises [TypeError] or [ValueError]; about the interpreter, when the run
    reaches the choice of the engine with an interpreter setting that is a
    path [os.path.exists] denies; and about the plugin path, when it looks
    for [lint.py] and [os.path.exists] denies both candidate paths. *)
Theorem error_dialogs host view st :
  let calls := new_effects st (run host view st).1 in
  (∀ msg, error_message msg ∈ calls →
          PyStr.startswith msg "Python Flake8 Lint error:" = true)
  ∧ (∀ name view_settings x,
       view_file_name view = Some name → name ≠ "" →
       view_is_python view = true →
       skip_file host (os_path_abspath host name) = false →
       get_view_settings host view = Ok view_settings →
       Py.truthy (dict_get view_settings "ignore_files") = true →
       any_exc (λ path, filename_match host path
                          (dict_get view_settings "ignore_files"))
               (set_order host
                  (paths_to_check host (os_path_abspath host name)))
       = Raise x →
       x = TypeError ∨ x = ValueError →
       error_message
         ("Python Flake8 Lint error:" +:+ newline +:+
          "'ignore_files' option is not a list of file masks") ∈ calls)
  ∧ (∀ st1 filename view_settings,
       run_prepare host view st = (st1, Ok (Some (filename, view_settings))) →
       let interpreter :=
         dict_get_or view_settings "python_interpreter" (PStr "auto") in
       negb (Py.truthy interpreter) || Py.eq_str interpreter "internal" = false →
       (Py.eq_str interpreter "auto" = false →
        os_path_exists host interpreter = Ok false →
        error_message
          ("Python Flake8 Lint error:" +:+ newline +:+
           "python interpreter '" +:+ str_of host interpreter
           +:+ "' is not found") ∈ calls)
       ∧ (Py.eq_str interpreter "auto" = true
          ∨ (∃ b, os_path_exists host interpreter = Ok b) →
          os_path_exists host (PStr (linter_in_package host)) = Ok false →
          os_path_exists host (PStr (linter_in_packages_path host)) = Ok false →
          error_message
            ("Python Flake8 Lint error:" +:+ newline +:+
             "sorry, can't find correct plugin path") ∈ calls)).
Proof.
  intros calls. split; [|split].
  - intros msg Hin.
    pose proof (emits_new_effects _ _ _ (run_emits host view st)) as Hall.
    rewrite Forall_forall in Hall. apply (Hall _ Hin).
  - intros name vs x ? ? ? ? ? ? ? ?.
    apply run_prepare_calls. by eapply run_prepare_malformed.
  - intros st1 filename vs Hprep interpreter Hint.
    assert (∀ c, c ∈ new_effects st1 (run_engine host filename vs st1).1 →
                 c ∈ calls) as Hlift
      by (intros c; by apply run_engine_calls).
    unfold run_engine in Hlift. fold interpreter in Hlift.
    rewrite Hint in Hlift. split.
    + intros Hauto Hmissing. apply Hlift.
      eapply (elem_bind_l side_call (λ _, True)).
      * apply resolve_interpreter_emits.
      * intros.
        repeat first
          [ preserves_step | by apply emits_emit
          | eapply emits_weaken; [|apply find_linter_emits]; done ].
      * rewrite resolve_interpreter_missing by done.
        cbn [fst]. rewrite new_effects_after_emit. by left.
    + intros Hres Hpkg Hpkgs.
      assert (∃ s1 i, resolve_interpreter host interpreter st1 = (s1, Ok i))
        as (s1 & i & Hr).
      { unfold resolve_interpreter, mbind, M_bind, m_bind, lift.
        destruct Hres as [-> | [b ->]].
        - case_bool_decide; eauto.
        - destruct (Py.eq_str interpreter "auto");
            [case_bool_decide; eauto|].
          destruct b; simpl; eauto. }
      apply Hlift.
      eapply (elem_bind_r side_call);
        [apply resolve_interpreter_emits|exact Hr|].
      eapply (elem_bind_l side_call (λ _, True)).
      * apply find_linter_emits.
      * intros. repeat first [preserves_step | by apply emits_emit].
      * rewrite find_linter_missing by done.
        cbn [fst]. rewrite new_effects_after_emit. by left.
Qed.

Lemma error_dialogs_witness :
  error_message
    ("Python Flake8 Lint error:" +:+ newline +:+
     "'ignore_files' option is not a list of file masks")
  ∈ Dialogs.calls Dialogs.malformed
  ∧ error_message
      ("Python Flake8 Lint error:" +:+ newline +:+
       "python interpreter '/nope' is not found")
    ∈ Dialogs.calls Dialogs.no_interpreter
  ∧ error_message
      ("Python Flake8 Lint error:" +:+ newline +:+
       "sorry, can't find correct plugin path")
    ∈ Dialogs.calls Dialogs.no_linter.
Proof.
  split; [|split].
  - destruct (error_dialogs Dialogs.malformed Dispatch.view Buffer.start)
      as (_ & H & _).
    apply (H "/a/b.py" {[ "ignore_files" := PInt 5 ]} TypeError);
      try (vm_compute; reflexivity); [done | by left].
  - destruct (error_dialogs Dialogs.no_interpreter Dispatch.view Buffer.start)
      as (_ & _ & H).
    assert (run_prepare Dialogs.no_interpreter Dispatch.view Buffer.start
            = ((run_prepare Dialogs.no_interpreter Dispatch.view
                  Buffer.start).1,
               Ok (Some ("/a/b.py",
                         {[ "python_interpreter" := PStr "/nope" ]}))))
      as Hprep by (vm_compute; reflexivity).
    destruct (H _ _ _ Hprep) as [H1 _]; [vm_compute; reflexivity|].
    apply H1; vm_compute; reflexivity.
  - destruct (error_dialogs Dialogs.no_linter Dispatch.view Buffer.start)
      as (_ & _ & H).
    assert (run_prepare Dialogs.no_linter Dispatch.view Buffer.start
            = ((run_prepare Dialogs.no_linter Dispatch.view Buffer.start).1,
               Ok (Some ("/a/b.py", ∅))))
      as Hprep by (vm_compute; reflexivity).
    destruct (H _ _ _ Hprep) as [_ H2]; [vm_compute; reflexivity|].
    apply H2; [left|..]; vm_compute; reflexivity.
Defined.

Example dialog_malformed_ignore_files :
  Dialogs.calls Dialogs.malformed
  = [erase_regions 7 "flake8-errors"; erase_status 7 "flake8-tip";
     error_message
       ("Python Flake8 Lint error:" +:+ newline +:+
        "'ignore_files' option is not a list of file masks");
     lint_external_call "/a/b.py" {[ "ignore_files" := PInt 5 ]}
       (PStr "python") "/packages/Flake8Lint/lint.py"].
Proof. vm_compute. reflexivity. Qed.

Example dialog_no_interpreter :
  Dialogs.calls Dialogs.no_interpreter
  = [erase_regions 7 "flake8-errors"; erase_status 7 "flake8-tip";
     error_message
       ("Python Flake8 Lint error:" +:+ newline +:+
        "python interpreter '/nope' is not found");
     lint_external_call "/a/b.py" {[ "python_interpreter" := PStr "/nope" ]}
       (PStr "/nope") "/packages/Flake8Lint/lint.py"].
Proof. vm_compute. reflexivity. Qed.

Example dialog_no_linter :
  Dialogs.calls Dialogs.no_linter
  = [erase_regions 7 "flake8-errors"; erase_status 7 "flake8-tip";
     error_message
       ("Python Flake8 Lint error:" +:+ newline +:+
        "sorry, can't find correct plugin path");
     lint_external_call "/a/b.py" ∅ (PStr "python")
       "/packages/Python Flake8 Lint/lint.py"].
Proof. vm_compute. reflexivity. Qed.

(* ===================================================================== *)
(** ** Lint on load: the polling of [_lintOnLoad] *)
(* ===================================================================== *)

Lemma lintOnLoad_first view st :
  _lintOnLoad view false st = (after_emit (timer_of view) st, Ok tt).
Proof. reflexivity. Qed.

Lemma lintOnLoad_waiting view st :
  waiting view →
  _lintOnLoad view true st = (after_emit (timer_of view) st, Ok tt).
Proof.
  unfold _lintOnLoad. intros [-> | Hw]; simpl; [done|].
  rewrite Hw. by destruct (view_is_loading view).
Qed.

Lemma lintOnLoad_ready view st :
  ¬ waiting view →
  (_lintOnLoad view true st).1 =
  if is_active view
  then after_emit (run_command (view_id view) "flake8_lint") st
  else st.
Proof.
  unfold waiting, _lintOnLoad, is_active. intros Hw. simpl.
  destruct (view_is_loading view); [by destruct Hw; left|].
  destruct (view_window view) as [w|]; [|by destruct Hw; right].
  destruct (active_view w) as [a|]; simpl.
  - case_bool_decide as Ha; simpl.
    + subst a. by rewrite bool_decide_eq_true_2.
    + rewrite bool_decide_eq_false_2; [done | congruence].
  - done.
Qed.

Lemma armed_after_timer view st : armed st (after_emit (timer_of view) st) = true.
Proof. unfold armed, after_emit. simpl. by rewrite drop_app_length. Qed.

Lemma armed_after_command vid name st :
  armed st (after_emit (run_command vid name) st) = false.
Proof. unfold armed, after_emit. simpl. by rewrite drop_app_length. Qed.

Lemma armed_same st : armed st st = false.
Proof. unfold armed. by rewrite drop_all. Qed.

Lemma emits_after_emit c st : emits (λ _, True) st (after_emit c st).
Proof. exists [c]. split; [done|]. by constructor. Qed.

Lemma lintOnLoad_emits view retry :
  preserves (emits (λ _, True)) (_lintOnLoad view retry).
Proof.
  unfold _lintOnLoad. repeat first [preserves_step | by apply emits_emit].
Qed.

Lemma poll_emits snaps : ∀ st, emits (λ _, True) st (poll snaps st).
Proof.
  induction snaps as [|v snaps IH]; intros st; simpl; [reflexivity|].
  pose proof (lintOnLoad_emits v true st) as Hstep.
  destruct (armed _ _); [|done]. etrans; [exact Hstep | apply IH].
Qed.

(** The calls of the polling: a timer for each state in which the view
    is found waiting, then, in the first state in which it is not, the
    lint command when the view is active, and nothing when it is not. *)
Lemma poll_calls snaps : ∀ st n,
  (∀ j v, (j < n)%nat → snaps !! j = Some v → waiting v) →
  (∀ v, snaps !! n = Some v → ¬ waiting v) →
  (n ≤ length snaps)%nat →
  new_effects st (poll snaps st) =
  (timer_of <$> take n snaps)
  ++ match snaps !! n with
     | Some v =>
         if is_active v then [run_command (view_id v) "flake8_lint"] else []
     | None => []
     end.
Proof.
  induction snaps as [|v snaps IH]; intros st n Hwait Hready Hn.
  - simpl in Hn. replace n with 0%nat by lia. simpl. apply new_effects_refl.
  - destruct n as [|n].
    + simpl. assert (¬ waiting v) as Hv by (by apply Hready).
      rewrite (lintOnLoad_ready v st Hv).
      destruct (is_active v).
      * rewrite armed_after_command. apply new_effects_after_emit.
      * rewrite armed_same. apply new_effects_refl.
    + simpl. assert (waiting v) as Hv by (apply (Hwait 0%nat); [lia|done]).
      rewrite (lintOnLoad_waiting v st Hv). cbn [fst].
      rewrite armed_after_timer.
      rewrite (new_effects_trans (λ _, True) (λ _, True) st
                 (after_emit (timer_of v) st));
        [|apply emits_after_emit|apply poll_emits].
      rewrite new_effects_after_emit. simpl. f_equal.
      apply IH.
      * intros j v' Hj Hv'. apply (Hwait (S j)); [lia|done].
      * intros v' Hv'. by apply Hready.
      * simpl in Hn. lia.
Qed.

(** C6 (lint on load).  After the load of a view that is not a scratch
    view, with [lint_on_load] on, the calls of the handler and of its
    timer callbacks are: the timer [on_load] arms; one more timer, of
    100 ms, for each time the callback finds the view loading or without
    a window; and then, the first time it finds the view loaded and in a
    window, the [flake8_lint] command when the view is the active view of
    that window, and nothing at all when it is not. *)
Theorem lint_on_load_polling host view snaps st n :
  view_is_scratch view = false →
  Py.truthy (dict_get_or (settings host) "lint_on_load" (PBool false)) = true →
  (∀ j v, (j < n)%nat → snaps !! j = Some v →
          view_is_loading v = true ∨ view_window v = None) →
  (∀ v, snaps !! n = Some v →
        ¬ (view_is_loading v = true ∨ view_window v = None)) →
  (n ≤ length snaps)%nat →
  new_effects st (lint_on_load host view snaps st) =
  set_timeout (lintOnLoad_retry (view_id view)) 100
  :: ((λ v, set_timeout (lintOnLoad_retry (view_id v)) 100) <$> take n snaps)
  ++ match snaps !! n with
     | Some v =>
         match view_window v with
         | Some window =>
             if bool_decide (active_view window = Some (view_id v))
             then [run_command (view_id v) "flake8_lint"]
             else []
         | None => []
         end
     | None => []
     end.
Proof.
  intros Hscratch Hon Hwait Hready Hn.
  unfold lint_on_load, on_load. rewrite Hscratch, Hon, lintOnLoad_first.
  cbn [fst]. rewrite armed_after_timer.
  rewrite (new_effects_trans (λ _, True) (λ _, True) st
             (after_emit (timer_of view) st));
    [|apply emits_after_emit|apply poll_emits].
  rewrite new_effects_after_emit. simpl. f_equal.
  rewrite (poll_calls snaps _ n Hwait Hready Hn). f_equal.
  destruct (snaps !! n) as [v|]; [|done].
  unfold is_active. by destruct (view_window v).
Qed.

Lemma lint_on_load_polling_witness :
  new_effects Buffer.start
    (lint_on_load Loading.host (Loading.snap true None) (Loading.snaps 7)
       Buffer.start)
  = [set_timeout (lintOnLoad_retry 7) 100; set_timeout (lintOnLoad_retry 7) 100;
     set_timeout (lintOnLoad_retry 7) 100; run_command 7 "flake8_lint"]
  ∧ new_effects Buffer.start
      (lint_on_load Loading.host (Loading.snap true None) (Loading.snaps 8)
         Buffer.start)
    = [set_timeout (lintOnLoad_retry 7) 100; set_timeout (lintOnLoad_retry 7) 100;
       set_timeout (lintOnLoad_retry 7) 100].
Proof.
  assert (∀ active j v, (j < 2)%nat → Loading.snaps active !! j = Some v →
            view_is_loading v = true ∨ view_window v = None) as Hwait.
  { intros active [|[|j]] v Hj Hv; [| |lia]; inversion Hv; [by left|by right]. }
  assert (∀ active v, Loading.snaps active !! 2%nat = Some v →
            ¬ (view_is_loading v = true ∨ view_window v = None)) as Hready.
  { intros active v Hv. inversion Hv. by intros [?|?]. }
  assert (2 ≤ length (Loading.snaps 7))%nat as Hn by (simpl; lia).
  split.
  - exact (lint_on_load_polling Loading.host (Loading.snap true None)
             (Loading.snaps 7) Buffer.start 2 eq_refl eq_refl
             (Hwait 7) (Hready 7) Hn).
  - exact (lint_on_load_polling Loading.host (Loading.snap true None)
             (Loading.snaps 8) Buffer.start 2 eq_refl eq_refl
             (Hwait 8) (Hready 8) Hn).
Defined.

(* ===================================================================== *)
(** ** The per-view dictionary over the life of a view *)
(* ===================================================================== *)

Global Instance same_views_preorder : PreOrder same_views.
Proof.
  split.
  - by intros st.
  - intros st1 st2 st3 H1 H2. unfold same_views in *. congruence.
Qed.

Lemma same_views_emit c : preserves same_views (emit c).
Proof. by intros st. Qed.

Lemma same_views_set_errors_list l : preserves same_views (set_errors_list l).
Proof. by intros st. Qed.

Lemma same_views_set_last_selected_line o :
  preserves same_views (set_last_selected_line o).
Proof. by intros st. Qed.

Ltac preserves_same_views :=
  repeat first
    [ preserves_step | apply same_views_emit
    | apply same_views_set_errors_list
    | apply same_views_set_last_selected_line ].

Lemma run_prepare_same_views host view :
  preserves same_views (run_prepare host view).
Proof. unfold run_prepare, check_ignore_files. preserves_same_views. Qed.

Lemma run_engine_same_views host filename view_settings :
  preserves same_views (run_engine host filename view_settings).
Proof.
  unfold run_engine, resolve_interpreter, find_linter. preserves_same_views.
Qed.

Lemma update_statusbar_same_views view :
  preserves same_views (update_statusbar view).
Proof. unfold update_statusbar, clear_statusbar. preserves_same_views. Qed.

Lemma same_views_keeps {A} (m : M A) :
  preserves same_views m → preserves keeps_views m.
Proof. intros Hm st. unfold keeps_views. by rewrite (Hm st). Qed.

Lemma run_keeps_views host view : preserves keeps_views (run host view).
Proof.
  unfold run, run_report.
  repeat first
    [ preserves_step | apply show_errors_keeps_views
    | apply same_views_keeps;
        first [apply run_prepare_same_views | apply run_engine_same_views] ].
Qed.

Lemma handle_keeps_views host ev : preserves keeps_views (handle host ev).
Proof.
  destruct ev; simpl; try apply run_keeps_views;
    apply same_views_keeps;
    unfold on_load, on_post_save, on_selection_modified, error_selected,
      _lintOnLoad, clear_statusbar;
    repeat first
      [ preserves_step | apply same_views_emit
      | apply same_views_set_errors_list
      | apply same_views_set_last_selected_line
      | apply update_statusbar_same_views ].
Qed.

Lemma handle_all_keeps_views host evs : ∀ st,
  keeps_views st (handle_all host evs st).
Proof.
  induction evs as [|ev evs IH]; intros st; simpl; [reflexivity|].
  etrans; [apply handle_keeps_views | apply IH].
Qed.

(** A run that returns after the engine found errors ends with the call
    of [show_errors] on those errors: what is proved of [show_errors]
    holds of the lint run. *)
Lemma run_shows_errors host view st st' s1 s2 filename view_settings :
  run host view st = (st', Ok tt) →
  run_prepare host view st = (s1, Ok (Some (filename, view_settings))) →
  run_engine host filename view_settings s1 = (s2, Ok tt) →
  errors_list s2 ≠ [] →
  show_errors (settings host) view view_settings s2 = (st', Ok tt)
  ∧ ∀ c, c ∈ new_effects s2 st' → c ∈ new_effects st st'.
Proof.
  intros Hrun Hprep Heng Hne.
  assert (run host view st
          = show_errors (settings host) view view_settings s2) as Heq.
  { unfold run. rewrite (bind_ok _ _ _ _ _ Hprep), (bind_ok _ _ _ _ _ Heng).
    unfold run_report, mbind, M_bind, m_bind, get_state.
    by rewrite bool_decide_eq_false_2. }
  split; [by rewrite <- Heq|].
  intros c Hc.
  assert (st' = (run host view st).1) as -> by (by rewrite Hrun).
  rewrite (new_effects_run _ _ _ _ _ _ Hprep), Heng. cbn [fst snd].
  apply elem_of_app. right. apply elem_of_app. right.
  unfold run_report, mbind, M_bind, m_bind, get_state.
  rewrite bool_decide_eq_false_2 by done. cbn [negb].
  by rewrite <- Heq, Hrun.
Qed.

(** What a run that returns does to the dictionary: when the engine
    reported errors, it puts a dictionary built from the empty one in the
    place of the view's; when not, nothing. *)
Lemma run_views host view st st' :
  run host view st = (st', Ok tt) →
  match run_prepare host view st with
  | (s1, Ok (Some (filename, view_settings))) =>
      let reported :=
        errors_list (run_engine host filename view_settings s1).1 in
      if bool_decide (reported = []) then
        ERRORS_IN_VIEWS st' = ERRORS_IN_VIEWS st
      else
        ERRORS_IN_VIEWS st' =
        <[view_id view :=
            foldl record ∅
              (displayed view (select_of view_settings)
                 (ignore_of view_settings) reported)]> (ERRORS_IN_VIEWS st)
  | _ => ERRORS_IN_VIEWS st' = ERRORS_IN_VIEWS st
  end.
Proof.
  unfold run. intros Hrun.
  pose proof (run_prepare_same_views host view st) as H1.
  destruct (run_prepare host view st) as [s1 [[[f vs]|]|x]] eqn:Hprep;
    simpl in H1.
  - rewrite (bind_ok _ _ _ _ _ Hprep) in Hrun.
    pose proof (run_engine_same_views host f vs s1) as H2.
    destruct (run_engine host f vs s1) as [s2 [[]|x]] eqn:Heng;
      cbn [fst] in *.
    + rewrite (bind_ok _ _ _ _ _ Heng) in Hrun.
      unfold run_report, mbind, M_bind, m_bind, get_state in Hrun.
      case_bool_decide as Hnil; simpl in Hrun.
      * destruct (Py.truthy _); inversion Hrun; subst;
          unfold same_views in *; simpl; congruence.
      * rewrite (shown_dict _ _ _ _ _ Hrun).
        unfold same_views in *. congruence.
    + by rewrite (bind_raise _ _ _ _ _ Heng) in Hrun.
  - rewrite (bind_ok _ _ _ _ _ Hprep) in Hrun. by inversion Hrun; subst.
  - by rewrite (bind_raise _ _ _ _ _ Hprep) in Hrun.
Qed.

(** C4, as the code has it (per-view dictionary).  A lint run that
    returns replaces the entry of its view in [ERRORS_IN_VIEWS] by a
    dictionary built from the empty one out of the errors it displays,
    when the engine reported errors, and leaves [ERRORS_IN_VIEWS] as it is
    when it reported none or the run returned early; the closing of a
    view changes nothing; and no sequence of events takes an entry
    away. *)
Theorem per_view_errors_lifecycle host view st st' evs :
  run host view st = (st', Ok tt) →
  match run_prepare host view st with
  | (s1, Ok (Some (filename, view_settings))) =>
      let reported :=
        errors_list (run_engine host filename view_settings s1).1 in
      if bool_decide (reported = []) then
        ERRORS_IN_VIEWS st' = ERRORS_IN_VIEWS st
      else
        ERRORS_IN_VIEWS st' =
        <[view_id view :=
            foldl record ∅
              (displayed view (select_of view_settings)
                 (ignore_of view_settings) reported)]> (ERRORS_IN_VIEWS st)
  | _ => ERRORS_IN_VIEWS st' = ERRORS_IN_VIEWS st
  end
  ∧ (∀ closed, handle host (ev_close closed) st' = (st', Ok tt))
  ∧ (∀ vid, is_Some (ERRORS_IN_VIEWS st' !! vid) →
            is_Some (ERRORS_IN_VIEWS (handle_all host evs st') !! vid)).
Proof.
  intros Hrun. split; [by apply (run_views host)|]. split; [done|].
  intros vid Hsome.
  pose proof (handle_all_keeps_views host evs st') as Hkeep.
  unfold keeps_views in Hkeep.
  apply elem_of_dom. apply elem_of_dom in Hsome. set_solver.
Qed.

Lemma per_view_errors_lifecycle_witness :
  ERRORS_IN_VIEWS Lifecycle.after_lint =
  <[7 := foldl record ∅ (displayed Sample.view (select_of ∅) (ignore_of ∅)
                           Sample.errs)]> (ERRORS_IN_VIEWS Buffer.start)
  ∧ (∀ closed,
       handle Lifecycle.host (ev_close closed) Lifecycle.after_lint
       = (Lifecycle.after_lint, Ok tt))
  ∧ (∀ vid,
       is_Some (ERRORS_IN_VIEWS Lifecycle.after_lint !! vid) →
       is_Some (ERRORS_IN_VIEWS
                  (handle_all Lifecycle.host
                     [ev_close Sample.view; ev_selection_modified Sample.view]
                     Lifecycle.after_lint) !! vid)).
Proof.
  assert (run Lifecycle.host Sample.view Buffer.start
          = (Lifecycle.after_lint, Ok tt)) as Hrun
    by (vm_compute; reflexivity).
  exact (per_view_errors_lifecycle Lifecycle.host Sample.view Buffer.start
           Lifecycle.after_lint
           [ev_close Sample.view; ev_selection_modified Sample.view] Hrun).
Defined.

(** C4, as the spec has it, fails: the view 7 is linted, then closed, and
    its errors are still in [ERRORS_IN_VIEWS]. *)
Lemma entry_survives_close :
  ERRORS_IN_VIEWS
    (handle_all Lifecycle.host [ev_command Sample.view; ev_close Sample.view]
       Buffer.start) !! 7
  = Some Lifecycle.recorded.
Proof. vm_compute. reflexivity. Qed.

(* ===================================================================== *)
(** ** The settings of a view *)
(* ===================================================================== *)

(** Closes the impossible cases of a key against a list of keys. *)
Ltac absurd_key :=
  match goal with
  | H : ?k ∉ ?key :: ?keys, H' : ?k ∈ ?keys |- _ => destruct H; by right
  | H : ?k ∉ ?k :: _ |- _ => destruct H; by left
  | H : ?k ∈ ?key :: ?keys, H1 : ?k ∉ ?keys, H2 : ?k ≠ ?key |- _ =>
      apply elem_of_cons in H as [?|?]; done
  end.

(** The first loop of [get_view_settings]: for the keys gone through, the
    view's value, else the plugin's, else what was there. *)
Lemma settings_loop_lookup (first second : gmap string PyVal) keys :
  ∀ (init : gmap string PyVal) k,
    foldl (λ (result : gmap string PyVal) param,
             match first !! param with
             | Some v => <[param := v]> result
             | None =>
                 match second !! param with
                 | Some v => <[param := v]> result
                 | None => result
                 end
             end) init keys !! k
    = if decide (k ∈ keys)
      then (first ∪ second ∪ init) !! k
      else init !! k.
Proof.
  induction keys as [|key keys IH]; intros init k; simpl.
  - done.
  - rewrite IH. rewrite !lookup_union.
    destruct (decide (k ∈ keys)) as [Hin|Hnot];
      destruct (decide (k ∈ key :: keys)) as [Hin'|Hnot'];
      try absurd_key;
      destruct (decide (k = key)) as [->|Hne];
      try absurd_key;
      destruct (first !! key) as [v1|] eqn:H1;
      destruct (second !! key) as [v2|] eqn:H2;
      rewrite ?lookup_insert_eq, ?lookup_insert_ne by done;
      rewrite ?H1, ?H2; simpl; try done;
      by destruct (init !! _).
Qed.

(** The second loop: the flake8 configuration over what was there. *)
Lemma config_loop_lookup (config : gmap string PyVal) keys :
  ∀ (init : gmap string PyVal) k,
    foldl (λ (result : gmap string PyVal) param,
             match config !! param with
             | Some v => <[param := v]> result
             | None => result
             end) init keys !! k
    = if decide (k ∈ keys) then (config ∪ init) !! k else init !! k.
Proof.
  induction keys as [|key keys IH]; intros init k; simpl.
  - done.
  - rewrite IH. rewrite !lookup_union.
    destruct (decide (k ∈ keys)) as [Hin|Hnot];
      destruct (decide (k ∈ key :: keys)) as [Hin'|Hnot'];
      try absurd_key;
      destruct (decide (k = key)) as [->|Hne];
      try absurd_key;
      destruct (config !! key) as [v1|] eqn:H1;
      rewrite ?lookup_insert_eq, ?lookup_insert_ne by done;
      rewrite ?H1; simpl; try done;
      by destruct (init !! _).
Qed.

Lemma lookup_known_keys (keys : list string) (m : gmap string PyVal) k :
  filter (λ kv, kv.1 ∈ keys) m !! k = if decide (k ∈ keys) then m !! k else None.
Proof.
  rewrite map_lookup_filter. destruct (m !! k) as [v|]; simpl.
  - case_decide; [by rewrite option_guard_True|by rewrite option_guard_False].
  - by case_decide.
Qed.

(** X1 (settings of a view).  [get_view_settings] gives the project's
    [flake8lint] settings over the plugin's, for the eleven known keys
    and no other; when one of the two flake8 switches is on in that
    result, the flake8 configuration of the file overrides it for its four
    keys, and when neither is on the configuration is not read.  With a
    switch on and a view without a file name, the file asked for is what
    [os.path.abspath(None)] gives, and the call raises what that raises. *)
Theorem view_settings_precedence host view :
  let base :=
    filter (λ kv, kv.1 ∈ PROJECT_SETTINGS_KEYS)
           (view_flake8lint view ∪ settings host) in
  let global_config :=
    dict_get_or base "use_flake8_global_config" (PBool false) in
  let project_config :=
    dict_get_or base "use_flake8_project_config" (PBool false) in
  let abspath :=
    match view_file_name view with
    | Some name => Ok (os_path_abspath host name)
    | None => os_path_abspath_None host
    end in
  get_view_settings host view =
  if Py.truthy global_config || Py.truthy project_config then
    match abspath with
    | Ok filename =>
        Ok (filter (λ kv, kv.1 ∈ FLAKE8_SETTINGS_KEYS)
                   (load_flake8_config host filename
                      global_config project_config)
            ∪ base)
    | Raise x => Raise x
    end
  else Ok base.
Proof.
  intros base global_config project_config abspath.
  unfold get_view_settings.
  set (looped := foldl _ ∅ PROJECT_SETTINGS_KEYS).
  assert (looped = base) as ->.
  { apply map_eq. intros k. unfold looped, base.
    rewrite settings_loop_lookup, lookup_known_keys.
    case_decide; [|done]. by rewrite (right_id_L ∅ (∪)). }
  fold global_config project_config abspath.
  destruct (Py.truthy global_config || Py.truthy project_config); [|done].
  destruct abspath as [filename|x]; [|done].
  unfold mbind, exc_bind_inst, exc_bind. cbv beta iota zeta.
  f_equal. apply map_eq. intros k.
  rewrite config_loop_lookup, !lookup_union, lookup_known_keys.
  case_decide; [done|]. by rewrite (left_id_L None (∪)).
Qed.

(* ===================================================================== *)
(** ** Matching the file against [ignore_files] *)
(* ===================================================================== *)

Lemma any_exc_total {A} (f : A → Exc bool) (g : A → bool) (l : list A) :
  (∀ x, x ∈ l → f x = Ok (g x)) →
  any_exc f l = Ok (existsb g l).
Proof.
  induction l as [|x l IH]; intros Hf; simpl; [done|].
  rewrite (Hf x) by (by left). simpl.
  destruct (g x); simpl; [done|]. apply IH. intros y Hy. apply Hf. by right.
Qed.

Lemma existsb_elem {A} (g : A → bool) (l : list A) :
  existsb g l = true ↔ ∃ x, x ∈ l ∧ g x = true.
Proof.
  rewrite existsb_exists. split; intros (x & Hin & Hg); exists x;
    (split; [by apply list_elem_of_In | done]).
Qed.

Lemma existsb_fmap {A B} (f : A → B) (g : B → bool) (l : list A) :
  existsb g (f <$> l) = existsb (λ x, g (f x)) l.
Proof. induction l as [|x l IH]; simpl; [done|]. f_equal. apply IH. Qed.

Lemma split_not_nil sep s : PyStr.split sep s ≠ [].
Proof.
  destruct s as [|c s]; simpl; [done|].
  case_decide; [done|]. by destruct (PyStr.split sep s).
Qed.

(** X2 (matching a file name).  With a list of texts as patterns, on
    which [fnmatch] answers without raising, [filename_match] returns, and
    it returns [True] exactly when one of the parts of the file name
    between separators matches one of the patterns. *)
Theorem filename_match_parts host (matches : string → string → bool)
    filename (patterns : list string) :
  (∀ part pattern, fnmatch host part (PStr pattern) = Ok (matches part pattern)) →
  ∃ b, filename_match host filename (PList (PStr <$> patterns)) = Ok b
       ∧ (b = true ↔
          ∃ part pattern,
            part ∈ PyStr.split (os_sep host) filename
            ∧ pattern ∈ patterns
            ∧ matches part pattern = true).
Proof.
  intros Hfn. unfold filename_match.
  exists (existsb (λ part, existsb (matches part) patterns)
                  (PyStr.split (os_sep host) filename)).
  split.
  - apply any_exc_total. intros part _. simpl.
    rewrite (any_exc_total _ (λ c, match c with
                                   | PStr p => matches part p
                                   | _ => false
                                   end)).
    + by rewrite existsb_fmap.
    + intros c (p & -> & _)%list_elem_of_fmap. apply Hfn.
  - rewrite existsb_elem. split.
    + intros (part & Hpart & (p & Hp & Hm)%existsb_elem). eauto.
    + intros (part & p & Hpart & Hp & Hm). exists part. split; [done|].
      apply existsb_elem. eauto.
Qed.

Lemma filename_match_parts_witness :
  ∃ b, filename_match (Buffer.host ∅ []) "/a/b.py"
         (PList (PStr <$> ["x"; "b.py"])) = Ok b
       ∧ (b = true ↔
          ∃ part pattern,
            part ∈ PyStr.split (os_sep (Buffer.host ∅ [])) "/a/b.py"
            ∧ pattern ∈ ["x"; "b.py"]
            ∧ bool_decide (part = pattern) = true).
Proof.
  apply (filename_match_parts (Buffer.host ∅ [])
           (λ part pattern, bool_decide (part = pattern))).
  intros part pattern. reflexivity.
Defined.

Lemma startswith_drop s : ∀ pre,
  PyStr.startswith s pre = true → pre +:+ PyStr.drop (PyStr.length pre) s = s.
Proof.
  intros pre. revert s. induction pre as [|a pre IH]; intros s; simpl; [done|].
  destruct s as [|b s]; [done|]. case_decide; [|done]. subst b.
  intros Hs. rewrite app_String. f_equal. by apply IH.
Qed.

Lemma drop_app_text pre : ∀ rest,
  PyStr.drop (PyStr.length pre) (pre +:+ rest) = rest.
Proof. induction pre as [|a pre IH]; intros rest; simpl; [done|]. apply IH. Qed.

(** X3 (paths checked against the patterns).  The paths [run] matches
    against [ignore_files] are the base name of the file and, for each
    folder of the window that the file is under, what is left of the file
    name after the folder and one separator; trailing separators of the
    folder do not count. *)
Theorem paths_to_check_relative host filename r :
  r ∈ paths_to_check host filename ↔
  r = os_path_basename host filename
  ∨ ∃ folder,
      folder ∈ active_window_folders host
      ∧ filename =
        PyStr.rstrip_by (λ c, bool_decide (c = os_sep host)) folder
        +:+ String (os_sep host) "" +:+ r.
Proof.
  unfold paths_to_check. rewrite elem_of_cons, list_elem_of_omap.
  split; (intros [->|(folder & Hin & Heq)]; [by left|right]);
    exists folder; (split; [done|]).
  - destruct (PyStr.startswith _ _) eqn:Hs; [|done].
    inversion Heq; subst. symmetry. rewrite <- app_assoc_text.
    by apply startswith_drop.
  - rewrite <- app_assoc_text in Heq. rewrite Heq at 1.
    rewrite startswith_app. f_equal. rewrite Heq at 1. apply drop_app_text.
Qed.

(* ===================================================================== *)
(** ** The first part of a lint run *)
(* ===================================================================== *)

Lemma new_effects_after_emit' c st :
  new_effects st
    (mkPlugin (ERRORS_IN_VIEWS st) (errors_list st) (last_selected_line st)
              (effects st ++ [c]))
  = [c].
Proof. by apply new_effects_app. Qed.

(** X4 (files a run leaves alone).  On a view without a file name, on a
    view that is not Python source, and on a file [skip_file] tells to
    skip, [run] returns at once: no call is made and the state is as it
    was. *)
Theorem run_leaves_other_files_alone host view st :
  view_file_name view = None
  ∨ view_file_name view = Some ""
  ∨ view_is_python view = false
  ∨ (∃ name, view_file_name view = Some name
             ∧ skip_file host (os_path_abspath host name) = true) →
  run host view st = (st, Ok tt).
Proof.
  unfold run, run_prepare, mbind, M_bind, m_bind.
  intros [Hn|[Hn|[Hpy|(name & Hn & Hskip)]]]; rewrite ?Hn; try done.
  - destruct (view_file_name view) as [[|c name]|]; try done.
    by rewrite Hpy.
  - destruct name as [|c name]; [done|].
    destruct (view_is_python view); [|done]. simpl. by rewrite Hskip.
Qed.

Lemma run_leaves_other_files_alone_witness :
  run (Buffer.host ∅ Sample.errs)
      (mkView 7 (Some "/a/notes.txt") false true false false None ∅ []
              (λ _, (0, 0)) (λ _ _, 0) (λ _, mkRegion 0 0) (λ _, ""))
      Sample.st
  = (Sample.st, Ok tt).
Proof.
  apply (run_leaves_other_files_alone (Buffer.host ∅ Sample.errs)).
  right. right. left. reflexivity.
Defined.

(** X5 (regions and status are cleared first).  On a Python file with a
    name that is not to be skipped, the first two calls of [run] erase
    the regions [flake8-errors] and the status [flake8-tip], whatever the
    run does next and however it ends. *)
Theorem run_erases_first host view st name :
  view_file_name view = Some name → name ≠ "" →
  view_is_python view = true →
  skip_file host (os_path_abspath host name) = false →
  ∃ rest,
    new_effects st (run host view st).1
    = erase_regions (view_id view) "flake8-errors"
      :: erase_status (view_id view) "flake8-tip" :: rest.
Proof.
  intros Hname Hne Hpy Hskip.
  assert (∃ rest, new_effects st (run_prepare host view st).1
                  = erase_regions (view_id view) "flake8-errors"
                    :: erase_status (view_id view) "flake8-tip" :: rest)
    as [rest Hprep].
  { unfold run_prepare. rewrite Hname.
    destruct name as [|ch name]; [done|]. rewrite Hpy, Hskip. cbn [negb].
    erewrite (new_effects_bind (λ _, True) side_call);
      [|by apply emits_emit|].
    2:{ intros.
        repeat first [ preserves_step | apply emits_emit; call_ok
                     | apply check_ignore_files_emits ]. }
    cbn [emit fst snd]. rewrite new_effects_after_emit'.
    erewrite (new_effects_bind (λ _, True) side_call);
      [|by apply emits_emit|].
    2:{ intros.
        repeat first [ preserves_step | apply emits_emit; call_ok
                     | apply check_ignore_files_emits ]. }
    cbn [emit fst snd]. rewrite new_effects_after_emit'. simpl. eauto. }
  unfold run.
  erewrite (new_effects_bind side_call well_formed_call);
    [|apply run_prepare_emits|].
  - rewrite Hprep. simpl. eauto.
  - intros [[f vs]|]; [|apply preserves_ret; apply _].
    preserves_step; [apply _|apply run_engine_emits|].
    eapply emits_weaken;
      [apply side_call_well_formed | apply run_report_emits].
Qed.

Lemma run_erases_first_witness :
  ∃ rest,
    new_effects Buffer.start (run Lifecycle.host Sample.view Buffer.start).1
    = erase_regions (view_id Sample.view) "flake8-errors"
      :: erase_status (view_id Sample.view) "flake8-tip" :: rest.
Proof.
  apply (run_erases_first Lifecycle.host Sample.view Buffer.start "/a/b.py");
    [reflexivity | done | reflexivity | reflexivity].
Defined.

Lemma new_effects_after_calls cs st : new_effects st (after_calls cs st) = cs.
Proof. by apply new_effects_app. Qed.

(** The calls of [run_prepare] when it goes on to the engine. *)
Lemma run_prepare_goes_on host view st st1 filename view_settings :
  run_prepare host view st = (st1, Ok (Some (filename, view_settings))) →
  ∃ dialog,
    st1 = after_calls (clearing_calls view ++ dialog ++ save_calls view) st
    ∧ (dialog = [] ∨ dialog = [ignore_files_dialog]).
Proof.
  unfold run_prepare, save_calls, clearing_calls, after_calls.
  destruct (view_file_name view) as [[|ch name]|]; [done| |done].
  destruct (view_is_python view); [|done]. cbn [negb].
  destruct (skip_file _ _); [done|].
  unfold mbind, M_bind, m_bind, lift, emit, mret, M_ret, m_ret. cbn [fst snd].
  destruct (get_view_settings host view) as [vs|x]; [|done].
  destruct (Py.truthy _).
  - unfold check_ignore_files.
    destruct (any_exc _ _) as [[]|[]]; destruct (view_is_dirty view);
      cbn; intros [= <- <- <-];
      first [ by (exists []; rewrite <- ?app_assoc; auto)
            | by (exists [ignore_files_dialog]; rewrite <- ?app_assoc; auto) ].
  - destruct (view_is_dirty view); cbn; intros [= <- <- <-];
      by (exists []; rewrite <- ?app_assoc; auto).
Qed.

Lemma display_call_not_save c : display_call c → is_save c = false.
Proof. by destruct c. Qed.

Lemma run_engine_never_saves host filename view_settings :
  preserves (emits (λ c, is_save c = false))
            (run_engine host filename view_settings).
Proof.
  unfold run_engine, resolve_interpreter, find_linter.
  repeat first [ preserves_step | by apply emits_emit ].
Qed.

Lemma run_report_never_saves host view view_settings :
  preserves (emits (λ c, is_save c = false))
            (run_report host view view_settings).
Proof.
  unfold run_report.
  repeat first [ preserves_step | by apply emits_emit ].
  eapply emits_weaken; [apply display_call_not_save | apply show_errors_emits].
Qed.

(** X6 (the file is saved before it is linted).  When the first part of
    [run] goes on to the engine, the calls of the whole run are: the two
    erasures, then at most the dialog about [ignore_files], then
    [run_command('save')] exactly when the view is dirty, then the calls
    of the engine and of the report, none of which saves.  So a dirty
    file is saved once, before the engine reads it, and a clean one
    never. *)
Theorem file_is_saved_before_lint host view st st1 filename view_settings :
  run_prepare host view st = (st1, Ok (Some (filename, view_settings))) →
  ∃ dialog later,
    new_effects st (run host view st).1
    = clearing_calls view ++ dialog ++ save_calls view ++ later
    ∧ (dialog = [] ∨ dialog = [ignore_files_dialog])
    ∧ Forall (λ c, is_save c = false) later.
Proof.
  intros Hprep. rewrite (new_effects_run _ _ _ _ _ _ Hprep).
  destruct (run_prepare_goes_on _ _ _ _ _ _ Hprep) as (dialog & -> & Hd).
  exists dialog. eexists. rewrite new_effects_after_calls.
  split; [by rewrite <- !app_assoc|]. split; [done|].
  apply Forall_app. split.
  - apply emits_new_effects, run_engine_never_saves.
  - destruct (run_engine _ _ _ _).2; [|apply Forall_nil_2].
    apply emits_new_effects, run_report_never_saves.
Qed.

Lemma file_is_saved_before_lint_witness :
  ∃ dialog later,
    new_effects Buffer.start (run Lifecycle.host dirty_view Buffer.start).1
    = clearing_calls dirty_view ++ dialog ++ save_calls dirty_view ++ later
    ∧ (dialog = [] ∨ dialog = [ignore_files_dialog])
    ∧ Forall (λ c, is_save c = false) later.
Proof.
  assert (run_prepare Lifecycle.host dirty_view Buffer.start
          = ((run_prepare Lifecycle.host dirty_view Buffer.start).1,
             Ok (Some ("/a/b.py", ∅))))
    as Hprep by (vm_compute; reflexivity).
  exact (file_is_saved_before_lint _ _ _ _ _ _ Hprep).
Defined.

(* ===================================================================== *)
(** ** What [ignore_files] decides *)
(* ===================================================================== *)

Lemma filename_match_existsb host (matches : string → string → bool)
    filename (patterns : list string) :
  (∀ part pattern, fnmatch host part (PStr pattern) = Ok (matches part pattern)) →
  filename_match host filename (PList (PStr <$> patterns))
  = Ok (existsb (λ part, existsb (matches part) patterns)
                (PyStr.split (os_sep host) filename)).
Proof.
  intros Hfn. unfold filename_match.
  apply any_exc_total. intros part _. simpl.
  rewrite (any_exc_total _ (λ c, match c with
                                 | PStr p => matches part p
                                 | _ => false
                                 end)).
  - by rewrite existsb_fmap.
  - intros c (p & -> & _)%list_elem_of_fmap. apply Hfn.
Qed.

Lemma run_prepare_ignored host view st name view_settings :
  view_file_name view = Some name → name ≠ "" →
  view_is_python view = true →
  skip_file host (os_path_abspath host name) = false →
  get_view_settings host view = Ok view_settings →
  Py.truthy (dict_get view_settings "ignore_files") = true →
  ignored_by host (os_path_abspath host name)
             (dict_get view_settings "ignore_files") = Ok true →
  run_prepare host view st
  = (after_calls
       (clearing_calls view
        ++ [print ("File '" +:+ os_path_abspath host name
                   +:+ "' lint was ignored by settings")]) st,
     Ok None).
Proof.
  intros Hname Hne Hpy Hskip Hvs Htrue Hign.
  unfold run_prepare. rewrite Hname.
  destruct name as [|ch name]; [done|]. rewrite Hpy, Hskip. cbn [negb].
  unfold mbind, M_bind, m_bind, lift, emit, mret, M_ret, m_ret. cbn [fst snd].
  rewrite Hvs, Htrue. unfold check_ignore_files. unfold ignored_by in Hign.
  rewrite Hign.
  unfold mbind, M_bind, m_bind, emit, mret, M_ret, m_ret.
  unfold after_calls, clearing_calls. cbn. by rewrite <- !app_assoc.
Qed.

Lemma run_prepare_not_ignored host view st name view_settings :
  view_file_name view = Some name → name ≠ "" →
  view_is_python view = true →
  skip_file host (os_path_abspath host name) = false →
  get_view_settings host view = Ok view_settings →
  (Py.truthy (dict_get view_settings "ignore_files") = false
   ∨ ignored_by host (os_path_abspath host name)
                (dict_get view_settings "ignore_files") = Ok false) →
  run_prepare host view st
  = (after_calls (clearing_calls view ++ save_calls view) st,
     Ok (Some (os_path_abspath host name, view_settings))).
Proof.
  intros Hname Hne Hpy Hskip Hvs Hign.
  unfold run_prepare. rewrite Hname.
  destruct name as [|ch name]; [done|]. rewrite Hpy, Hskip. cbn [negb].
  unfold mbind, M_bind, m_bind, lift, emit, mret, M_ret, m_ret. cbn [fst snd].
  rewrite Hvs. unfold after_calls, clearing_calls, save_calls.
  destruct (Py.truthy _) eqn:Htrue.
  - destruct Hign as [|Hign]; [done|].
    unfold check_ignore_files. unfold ignored_by in Hign. rewrite Hign.
    unfold mbind, M_bind, m_bind, emit, mret, M_ret, m_ret.
    destruct (view_is_dirty view); cbn; by rewrite <- ?app_assoc, ?app_nil_r.
  - destruct (view_is_dirty view); cbn; by rewrite <- ?app_assoc, ?app_nil_r.
Qed.

(** X7 (what [ignore_files] decides).  Let [ignore_files] be a list of
    masks, let [fnmatch] decide each pair of a name and a mask, and let
    the set of paths hold the same paths as the list it is made from.
    Then the file is left alone exactly when some mask matches some
    component of its base name or of its path relative to a folder of
    the window.  When it is left alone, the run only erases the regions
    and the status and prints one line: nothing is saved, the engine is
    not called and the errors kept for the view stay.  When it is not,
    the first part of the run goes on with the settings of the view. *)
Theorem ignore_files_decides host (matches : string → string → bool)
    view st name view_settings (patterns : list string) :
  view_file_name view = Some name → name ≠ "" →
  view_is_python view = true →
  skip_file host (os_path_abspath host name) = false →
  get_view_settings host view = Ok view_settings →
  view_settings !! "ignore_files" = Some (PList (PStr <$> patterns)) →
  (∀ part pattern, fnmatch host part (PStr pattern) = Ok (matches part pattern)) →
  (∀ path, path ∈ set_order host (paths_to_check host (os_path_abspath host name))
           ↔ path ∈ paths_to_check host (os_path_abspath host name)) →
  let filename := os_path_abspath host name in
  ∃ ignored : bool,
    (ignored = true ↔
     ∃ path part pattern,
       path ∈ paths_to_check host filename
       ∧ part ∈ PyStr.split (os_sep host) path
       ∧ pattern ∈ patterns
       ∧ matches part pattern = true)
    ∧ if ignored
      then run host view st
           = (after_calls
                (clearing_calls view
                 ++ [print ("File '" +:+ filename
                            +:+ "' lint was ignored by settings")]) st,
              Ok tt)
      else run_prepare host view st
           = (after_calls (clearing_calls view ++ save_calls view) st,
              Ok (Some (filename, view_settings))).
Proof.
  intros Hname Hne Hpy Hskip Hvs Hpat Hfn Hset filename.
  set (hit := λ path, existsb (λ part, existsb (matches part) patterns)
                              (PyStr.split (os_sep host) path)).
  assert (ignored_by host filename (PList (PStr <$> patterns))
          = Ok (existsb hit (set_order host (paths_to_check host filename))))
    as Hign.
  { unfold ignored_by. apply any_exc_total. intros path _.
    by apply filename_match_existsb. }
  exists (existsb hit (set_order host (paths_to_check host filename))).
  assert (dict_get view_settings "ignore_files" = PList (PStr <$> patterns))
    as Hget by (unfold dict_get; by rewrite Hpat).
  split.
  - rewrite existsb_elem. unfold hit. split.
    + intros (path & Hpath%Hset & (part & Hpart & (p & Hp & Hm)%existsb_elem)%existsb_elem).
      eauto 10.
    + intros (path & part & p & Hpath%Hset & Hpart & Hp & Hm).
      exists path. split; [done|]. apply existsb_elem.
      exists part. split; [done|]. apply existsb_elem. eauto.
  - destruct (existsb hit _) eqn:Hhit.
    + assert (patterns ≠ []) as Hnil.
      { intros ->. apply existsb_elem in Hhit as (path & _ & Hh).
        unfold hit in Hh. apply existsb_elem in Hh as (part & _ & Hh).
        by simpl in Hh. }
      assert (Py.truthy (dict_get view_settings "ignore_files") = true)
        as Htrue.
      { rewrite Hget. simpl. destruct patterns; [done|].
        by rewrite bool_decide_eq_false_2. }
      rewrite <- Hget in Hign.
      pose proof (run_prepare_ignored host view st name view_settings
                    Hname Hne Hpy Hskip Hvs Htrue Hign) as Hprep.
      unfold run. by rewrite (bind_ok _ _ _ _ _ Hprep).
    + eapply run_prepare_not_ignored; try done. right. by rewrite Hget.
Qed.

Lemma ignore_files_decides_witness :
  ∃ ignored : bool,
    (ignored = true ↔
     ∃ path part pattern,
       path ∈ paths_to_check masking_host "/a/b.py"
       ∧ part ∈ PyStr.split "/" path
       ∧ pattern ∈ ["b.py"]
       ∧ bool_decide (part = pattern) = true)
    ∧ if ignored
      then run masking_host dirty_view Buffer.start
           = (after_calls
                (clearing_calls dirty_view
                 ++ [print ("File '" +:+ "/a/b.py"
                            +:+ "' lint was ignored by settings")])
                Buffer.start,
              Ok tt)
      else run_prepare masking_host dirty_view Buffer.start
           = (after_calls (clearing_calls dirty_view ++ save_calls dirty_view)
                          Buffer.start,
              Ok (Some ("/a/b.py", {[ "ignore_files" := PList [PStr "b.py"] ]}))).
Proof.
  assert (get_view_settings masking_host dirty_view
          = Ok {[ "ignore_files" := PList [PStr "b.py"] ]})
    as Hvs by (vm_compute; reflexivity).
  refine (ignore_files_decides masking_host
            (λ part pattern, bool_decide (part = pattern))
            dirty_view Buffer.start "/a/b.py" _ ["b.py"]
            eq_refl _ eq_refl eq_refl Hvs _ _ _);
    [done | reflexivity | reflexivity | reflexivity].
Defined.

Lemma filename_match_not_iterable host filename patterns :
  Py.iter patterns = Raise TypeError →
  filename_match host filename patterns = Raise TypeError.
Proof.
  intros Hiter. unfold filename_match.
  pose proof (split_not_nil (os_sep host) filename) as Hnil.
  destruct (PyStr.split _ _) as [|part parts]; [done|].
  simpl. by rewrite Hiter.
Qed.

Lemma run_prepare_dialog host view st name view_settings x :
  view_file_name view = Some name → name ≠ "" →
  view_is_python view = true →
  skip_file host (os_path_abspath host name) = false →
  get_view_settings host view = Ok view_settings →
  Py.truthy (dict_get view_settings "ignore_files") = true →
  ignored_by host (os_path_abspath host name)
             (dict_get view_settings "ignore_files") = Raise x →
  x = TypeError ∨ x = ValueError →
  run_prepare host view st
  = (after_calls (clearing_calls view ++ [ignore_files_dialog]
                  ++ save_calls view) st,
     Ok (Some (os_path_abspath host name, view_settings))).
Proof.
  intros Hname Hne Hpy Hskip Hvs Htrue Hign Hx.
  unfold run_prepare. rewrite Hname.
  destruct name as [|ch name]; [done|]. rewrite Hpy, Hskip. cbn [negb].
  unfold mbind, M_bind, m_bind, lift, emit, mret, M_ret, m_ret. cbn [fst snd].
  rewrite Hvs, Htrue. unfold check_ignore_files. unfold ignored_by in Hign.
  rewrite Hign.
  unfold mbind, M_bind, m_bind, emit, mret, M_ret, m_ret.
  unfold after_calls, clearing_calls, save_calls, ignore_files_dialog.
  destruct Hx as [-> | ->];
    destruct (view_is_dirty view); cbn; by rewrite <- ?app_assoc.
Qed.

(** X8 (a number as [ignore_files]).  When the [ignore_files] setting is
    a number other than 0, or [True], the run shows the dialog about the
    option once, after the two erasures, and goes on to save and lint the
    file as if the option were absent; with 0, [False], [None], an empty
    text or an empty list the option is not looked at. *)
Theorem number_as_ignore_files host view st name view_settings v :
  view_file_name view = Some name → name ≠ "" →
  view_is_python view = true →
  skip_file host (os_path_abspath host name) = false →
  get_view_settings host view = Ok view_settings →
  view_settings !! "ignore_files" = Some v →
  (∃ n, v = PInt n) ∨ (∃ b, v = PBool b) ∨ v = PNone ∨ v = PStr "" ∨ v = PList [] →
  set_order host (paths_to_check host (os_path_abspath host name)) ≠ [] →
  run_prepare host view st
  = (after_calls
       (clearing_calls view
        ++ (if Py.truthy v then [ignore_files_dialog] else [])
        ++ save_calls view) st,
     Ok (Some (os_path_abspath host name, view_settings))).
Proof.
  intros Hname Hne Hpy Hskip Hvs Hv Hkind Hset.
  assert (dict_get view_settings "ignore_files" = v) as Hget
    by (unfold dict_get; by rewrite Hv).
  destruct (Py.truthy v) eqn:Htrue.
  - eapply run_prepare_dialog; try done; [by rewrite Hget| |by left].
    rewrite Hget. unfold ignored_by.
    destruct (set_order _ _) as [|path paths]; [done|]. simpl.
    rewrite filename_match_not_iterable; [done|].
    by destruct Hkind as [[n ->]|[[b ->]|[->|[->| ->]]]].
  - rewrite (run_prepare_not_ignored _ _ _ _ _ Hname Hne Hpy Hskip Hvs);
      [done|]. left. by rewrite Hget.
Qed.

Lemma number_as_ignore_files_witness :
  run_prepare (Buffer.host {[ "ignore_files" := PInt 5 ]} Sample.errs)
              dirty_view Buffer.start
  = (after_calls
       (clearing_calls dirty_view
        ++ (if Py.truthy (PInt 5) then [ignore_files_dialog] else [])
        ++ save_calls dirty_view) Buffer.start,
     Ok (Some ("/a/b.py", {[ "ignore_files" := PInt 5 ]}))).
Proof.
  assert (get_view_settings (Buffer.host {[ "ignore_files" := PInt 5 ]}
                                         Sample.errs) dirty_view
          = Ok {[ "ignore_files" := PInt 5 ]})
    as Hvs by (vm_compute; reflexivity).
  refine (number_as_ignore_files
            (Buffer.host {[ "ignore_files" := PInt 5 ]} Sample.errs)
            dirty_view Buffer.start "/a/b.py" _ (PInt 5)
            eq_refl _ eq_refl eq_refl Hvs eq_refl _ _);
    [done | left; by exists 5 | done].
Defined.

(* ===================================================================== *)
(** ** When [show_errors] returns and when it raises *)
(* ===================================================================== *)

Lemma cut_has_char c s :
  PyStr.cut c s = None ↔ has_char c s = false.
Proof.
  induction s as [|c' s IH]; simpl; [done|].
  case_decide as Hc.
  - subst. rewrite bool_decide_eq_true_2 by done. done.
  - rewrite bool_decide_eq_false_2 by done. simpl. rewrite <- IH.
    by destruct (PyStr.cut c s) as [[a b]|].
Qed.

Lemma error_code_has_space e :
  if has_char " " (e_text e) then ∃ code, error_code e = Ok code
  else error_code e = Raise ValueError.
Proof.
  unfold error_code, PyStr.split1.
  destruct (has_char " " (e_text e)) eqn:Hc.
  - destruct (PyStr.cut " " (e_text e)) as [[a b]|] eqn:Hcut.
    + by exists a.
    + apply cut_has_char in Hcut. congruence.
  - apply cut_has_char in Hc. by rewrite Hc.
Qed.

Lemma prefixes_of_texts code (l : list string) :
  ∃ hits, Py.prefixes_of code (PStr <$> l) = Ok hits.
Proof.
  induction l as [|p l [hits IH]]; [by eexists|].
  simpl. change (list_fmap string PyVal PStr l) with (PStr <$> l).
  rewrite IH. simpl. by eexists.
Qed.

Lemma code_selected_by_texts code (l : list string) :
  ∃ b, Py.code_selected_by (PList (PStr <$> l)) code = Ok b.
Proof.
  unfold Py.code_selected_by. destruct (Py.truthy _); [|by eexists].
  simpl. destruct (prefixes_of_texts code l) as [hits ->]. simpl. by eexists.
Qed.

Lemma passes_outcome view (sel ign : list string) e :
  if unreadable view e
  then passes view (PList (PStr <$> sel)) (PList (PStr <$> ign)) e
       = Raise ValueError
  else ∃ b, passes view (PList (PStr <$> sel)) (PList (PStr <$> ign)) e = Ok b.
Proof.
  unfold unreadable, passes.
  destruct (skip_line _); simpl; [by eexists|].
  pose proof (error_code_has_space e) as Hcode.
  destruct (has_char " " (e_text e)); simpl.
  - destruct Hcode as [code ->]. simpl.
    destruct (code_selected_by_texts code sel) as [[] ->]; simpl;
      [by eexists|].
    destruct (code_selected_by_texts code ign) as [b ->]. simpl. by eexists.
  - by rewrite Hcode.
Qed.

Lemma show_errors_loop_outcome view (sel ign : list string)
    is_highlight is_popup mark errs : ∀ vars,
  if existsb (unreadable view) errs
  then for_each (show_errors_body view (PList (PStr <$> sel))
                   (PList (PStr <$> ign)) is_highlight is_popup mark)
                vars errs = Raise ValueError
  else ∃ out,
      for_each (show_errors_body view (PList (PStr <$> sel))
                  (PList (PStr <$> ign)) is_highlight is_popup mark)
               vars errs = Ok out.
Proof.
  induction errs as [|e errs IH]; intros vars; simpl; [by eexists|].
  rewrite show_errors_body_unfold.
  pose proof (passes_outcome view sel ign e) as Hp.
  destruct (unreadable view e); simpl.
  - by rewrite Hp.
  - destruct Hp as [b ->]. destruct b; [case_bool_decide|]; simpl; apply IH.
Qed.

(** X9 (errors without a code).  Let [select] and [ignore] be lists of
    texts.  If some error of the list is on a line without a noqa comment
    and its text has no space, [show_errors] raises [ValueError] and
    leaves the state as it was: nothing is shown, not even the errors
    before it.  If there is no such error, the loop goes through: the
    dictionary of the view is replaced by the one of the displayed
    errors, [errors_list] becomes the displayed errors (the empty list
    with [popup] off), the regions are set when [highlight] or a gutter
    mark asks for them, the quick panel is shown with [popup] on, and
    [show_errors] returns; except that with [popup] on and a view without
    a window it raises [AttributeError], after the dictionary and the
    regions are set and without a panel. *)
Theorem show_errors_outcome settings view view_settings st sel ign :
  select_of view_settings = PList (PStr <$> sel) →
  ignore_of view_settings = PList (PStr <$> ign) →
  if existsb (unreadable view) (errors_list st)
  then show_errors settings view view_settings st = (st, Raise ValueError)
  else
    let shown :=
      displayed view (select_of view_settings) (ignore_of view_settings)
                (errors_list st) in
    ∃ st',
      show_errors settings view view_settings st
      = (st', panel_result settings view)
      ∧ ERRORS_IN_VIEWS st'
        = <[view_id view := foldl record ∅ shown]> (ERRORS_IN_VIEWS st)
      ∧ errors_list st'
        = (if Py.truthy (popup_of settings) then shown else [])
      ∧ last_selected_line st' = last_selected_line st
      ∧ new_effects st st'
        = region_calls settings view
            (if Py.truthy (highlight_of settings)
                || Py.truthy (mark_of settings)
             then region_of view <$> shown else [])
          ++ panel_calls settings view (entry_of view <$> shown).
Proof.
  intros Hsel Hign. rewrite show_errors_eq. unfold show_errors_loop.
  rewrite Hsel, Hign.
  pose proof (show_errors_loop_outcome view sel ign (highlight_of settings)
                (popup_of settings) (mark_of settings) (errors_list st)
                loop_init) as Hloop.
  destruct (existsb _ _).
  - by rewrite Hloop.
  - destruct Hloop as [out Hout]. rewrite Hout.
    apply for_each_refines in Hout as [-> _].
    cbv zeta. eexists. split; [reflexivity|].
    repeat split. apply new_effects_app. by simpl.
Qed.

Lemma show_errors_outcome_witness :
  show_errors Sample.settings Sample.view ∅ codeless_st
  = (codeless_st, Raise ValueError)
  ∧ (let shown :=
       displayed Sample.view (select_of ∅) (ignore_of ∅)
                 (errors_list Sample.st) in
     ∃ st',
       show_errors Sample.settings Sample.view ∅ Sample.st
       = (st', panel_result Sample.settings Sample.view)
       ∧ ERRORS_IN_VIEWS st'
         = <[view_id Sample.view := foldl record ∅ shown]>
             (ERRORS_IN_VIEWS Sample.st)
       ∧ errors_list st'
         = (if Py.truthy (popup_of Sample.settings) then shown else [])
       ∧ last_selected_line st' = last_selected_line Sample.st
       ∧ new_effects Sample.st st'
         = region_calls Sample.settings Sample.view
             (if Py.truthy (highlight_of Sample.settings)
                 || Py.truthy (mark_of Sample.settings)
              then region_of Sample.view <$> shown else [])
           ++ panel_calls Sample.settings Sample.view
                (entry_of Sample.view <$> shown)).
Proof.
  split.
  - exact (show_errors_outcome Sample.settings Sample.view ∅ codeless_st
             [] [] eq_refl eq_refl).
  - exact (show_errors_outcome Sample.settings Sample.view ∅ Sample.st
             [] [] eq_refl eq_refl).
Defined.

(* ===================================================================== *)
(** ** The status bar and the quick panel after [show_errors] *)
(* ===================================================================== *)

Lemma update_statusbar_lookup view st d row :
  ERRORS_IN_VIEWS st !! view_id view = Some d →
  get_current_line view = Some row →
  update_statusbar view st
  = (after_calls
       [match d !! row with
        | Some errors =>
            set_status (view_id view) "flake8-tip"
                       ("flake8: " +:+ PyStr.join " / " errors)
        | None => erase_status (view_id view) "flake8-tip"
        end] st,
     Ok tt).
Proof.
  intros Hd Hrow. unfold update_statusbar, mbind, M_bind, m_bind, get_state.
  rewrite Hd, Hrow.
  destruct (view_sel view) as [|r sel] eqn:Hsel.
  - unfold get_current_line in Hrow. by rewrite Hsel in Hrow.
  - by destruct (d !! row).
Qed.

Lemma status_of_shown view shown row :
  match foldl record ∅ shown !! row with
  | Some errors =>
      set_status (view_id view) "flake8-tip"
                 ("flake8: " +:+ PyStr.join " / " errors)
  | None => erase_status (view_id view) "flake8-tip"
  end
  = status_for view shown row.
Proof.
  rewrite foldl_record_lookup, lookup_empty. unfold status_for.
  by destruct (filter _ shown).
Qed.

(** X10 (the status bar after a run).  After a run of [show_errors] that
    returns, [update_statusbar] on the view with the cursor on some row
    makes one call: it sets the status to [flake8: ] followed by the texts
    of the displayed errors of that row, in the order of the run and
    joined by [ / ], or erases the status when no displayed error is on
    the row. *)
Theorem status_shows_errors_of_row
    settings view view_settings st st' view' row :
  show_errors settings view view_settings st = (st', Ok tt) →
  view_id view' = view_id view →
  get_current_line view' = Some row →
  update_statusbar view' st'
  = (after_calls
       [status_for view'
          (displayed view (select_of view_settings) (ignore_of view_settings)
                     (errors_list st)) row] st',
     Ok tt).
Proof.
  intros Hrun Hid Hrow.
  erewrite update_statusbar_lookup; [|by rewrite Hid, (shown_dict _ _ _ _ _ Hrun),
    lookup_insert_eq|done].
  by rewrite status_of_shown.
Qed.

Lemma status_shows_errors_of_row_witness :
  let view := cursor_view 7 Sample.lines in
  update_statusbar view (show_errors Sample.settings view ∅ Sample.st).1
  = (after_calls
       [status_for view
          (displayed view (select_of ∅) (ignore_of ∅) (errors_list Sample.st))
          0]
       (show_errors Sample.settings view ∅ Sample.st).1,
     Ok tt).
Proof.
  intros view.
  apply (status_shows_errors_of_row Sample.settings view ∅ Sample.st);
    [vm_compute; reflexivity | reflexivity | reflexivity].
Defined.

Lemma py_index_lookup {A} (l : list A) (i : nat) x :
  l !! i = Some x → py_index l (Z.of_nat i) = Ok x.
Proof.
  intros Hi. unfold py_index.
  pose proof (lookup_lt_Some _ _ _ Hi) as Hlt.
  rewrite (proj2 (Z.ltb_ge _ _)) by lia.
  rewrite (proj2 (Z.leb_le _ _)) by lia.
  rewrite (proj2 (Z.ltb_lt _ _)) by lia.
  simpl. by rewrite Nat2Z.id, Hi.
Qed.

(** X11 (choosing an item of the quick panel).  After a run of
    [show_errors] that returns and shows the quick panel, item [i] of the
    panel is the entry of an error of the run, and [error_selected] with
    [i] clears the selection, puts the cursor at the line and column of
    that same error, centres the view on it, and then sets the status to
    the texts of the displayed errors on the row of the cursor. *)
Theorem chosen_item_jumps_to_its_error
    settings view view_settings st st' vid items (i : nat) entry :
  show_errors settings view view_settings st = (st', Ok tt) →
  show_quick_panel vid items ∈ new_effects st st' →
  items !! i = Some entry →
  ∃ e,
    e ∈ errors_list st
    ∧ entry = entry_of view e
    ∧ error_selected view (Z.of_nat i) st'
      = (after_calls
           (jump_calls view (position_of view e)
            ++ [status_for view
                  (displayed view (select_of view_settings)
                             (ignore_of view_settings) (errors_list st))
                  (view_rowcol view (position_of view e)).1]) st',
         Ok tt).
Proof.
  intros Hrun (_ & -> & Hpop)%(shown_panel _ _ _ _ _ Hrun) Hi.
  apply list_lookup_fmap_Some in Hi as (e & -> & He).
  exists e. split; [|split; [done|]].
  { apply list_elem_of_lookup_2 in He.
    by apply (shown_elem view view_settings st) in He as [? _]. }
  assert (errors_list st' !! i = Some e) as Hlist
    by (by rewrite (shown_list _ _ _ _ _ Hrun), Hpop).
  unfold error_selected. rewrite bool_decide_eq_false_2 by lia.
  unfold mbind at 1 2 3 4, M_bind, m_bind, emit, get_state, lift.
  cbn [fst snd errors_list].
  rewrite (py_index_lookup _ _ _ Hlist).
  fold (position_of view e). fold (with_cursor view (position_of view e)).
  unfold mbind, M_bind, m_bind. cbn [fst snd].
  erewrite update_statusbar_lookup.
  - rewrite status_of_shown. unfold after_calls, jump_calls. cbn.
    by rewrite <- !app_assoc.
  - cbn. by rewrite (shown_dict _ _ _ _ _ Hrun), lookup_insert_eq.
  - unfold get_current_line, region_end. cbn. by rewrite Z.max_id.
Qed.

Lemma chosen_item_jumps_to_its_error_witness :
  let view := cursor_view 7 Sample.lines in
  let st' := (show_errors Sample.settings view ∅ Sample.st).1 in
  ∃ e,
    e ∈ errors_list Sample.st
    ∧ ["E501 line too long"; "3: y = 2"] = entry_of view e
    ∧ error_selected view (Z.of_nat 1) st'
      = (after_calls
           (jump_calls view (position_of view e)
            ++ [status_for view
                  (displayed view (select_of ∅) (ignore_of ∅)
                             (errors_list Sample.st))
                  (view_rowcol view (position_of view e)).1]) st',
         Ok tt).
Proof.
  intros view st'.
  apply (chosen_item_jumps_to_its_error Sample.settings view ∅ Sample.st st' 7
           [["W291 trailing whitespace"; "1: x = 1"];
            ["E501 line too long"; "3: y = 2"]; ["E111 indent"; "3: y = 2"]]).
  - vm_compute. reflexivity.
  - vm_compute. right. left.
  - reflexivity.
Defined.

(* ===================================================================== *)
(** ** [error_selected] at every index *)
(* ===================================================================== *)

Lemma update_statusbar_returns view st :
  ∃ status, update_statusbar view st = (after_calls status st, Ok tt)
            ∧ (length status ≤ 1)%nat.
Proof.
  assert (st = after_calls [] st) as Hnil.
  { destruct st. unfold after_calls. simpl. by rewrite app_nil_r. }
  unfold update_statusbar, mbind, M_bind, m_bind, get_state.
  destruct (ERRORS_IN_VIEWS st !! view_id view) as [d|];
    [|exists []; split; [by rewrite <- Hnil | simpl; lia]].
  destruct (view_sel view) as [|r sel];
    [exists []; split; [by rewrite <- Hnil | simpl; lia]|].
  destruct (get_current_line view) as [row|];
    [|exists []; split; [by rewrite <- Hnil | simpl; lia]].
  destruct (d !! row); eexists [_]; (split; [reflexivity | simpl; lia]).
Qed.

Lemma py_index_in_range {A} (l : list A) (i : Z) :
  let n := Z.of_nat (length l) in
  - n ≤ i < n →
  ∃ x, l !! Z.to_nat (i mod n) = Some x ∧ py_index l i = Ok x.
Proof.
  intros n Hi. unfold py_index. fold n.
  assert (i mod n = if i <? 0 then i + n else i) as Hmod.
  { destruct (Z.ltb_spec i 0).
    - rewrite <- (Z.mod_small (i + n) n) by lia.
      by rewrite <- Z.add_mod_idemp_r, Z.mod_same, Z.add_0_r by lia.
    - apply Z.mod_small. lia. }
  rewrite <- Hmod.
  assert (0 ≤ i mod n < n) as Hr by (apply Z.mod_pos_bound; lia).
  rewrite (proj2 (Z.leb_le _ _)) by lia.
  rewrite (proj2 (Z.ltb_lt _ _)) by lia. simpl.
  destruct (lookup_lt_is_Some_2 l (Z.to_nat (i mod n))) as [x Hx]; [lia|].
  exists x. by rewrite Hx.
Qed.

Lemma py_index_out_of_range {A} (l : list A) (i : Z) :
  let n := Z.of_nat (length l) in
  ¬ (- n ≤ i < n) → py_index l i = Raise IndexError.
Proof.
  intros n Hi. unfold py_index. fold n.
  destruct (Z.ltb_spec i 0).
  - rewrite (proj2 (Z.leb_gt _ _)) by lia. done.
  - rewrite (proj2 (Z.leb_le _ _)) by lia.
    rewrite (proj2 (Z.ltb_ge _ _)) by lia. done.
Qed.

(** X12 ([error_selected] at every index).  With [-1], the answer of a
    cancelled panel, [error_selected] does nothing.  With an index from
    minus the length of [errors_list] up to the length, it moves the
    cursor to the error at that index, counted from the end when the
    index is negative, and then makes at most one status call.  With any
    other index it raises [IndexError] after the selection has been
    cleared, so the view is left without a cursor. *)
Theorem error_selected_by_index view item st :
  let n := Z.of_nat (length (errors_list st)) in
  if bool_decide (item = -1) then error_selected view item st = (st, Ok tt)
  else if bool_decide (- n ≤ item < n) then
    ∃ e status,
      errors_list st !! Z.to_nat (item mod n) = Some e
      ∧ (length status ≤ 1)%nat
      ∧ error_selected view item st
        = (after_calls (jump_calls view (position_of view e) ++ status) st,
           Ok tt)
  else
    error_selected view item st
    = (after_calls [sel_clear (view_id view)] st, Raise IndexError).
Proof.
  intros n. unfold error_selected.
  case_bool_decide as Hcancel; [done|].
  case_bool_decide as Hrange.
  - destruct (py_index_in_range (errors_list st) item Hrange)
      as (e & He & Hpy).
    unfold mbind, M_bind, m_bind, emit, get_state, lift.
    cbn [fst snd errors_list]. rewrite Hpy.
    fold (position_of view e). fold (with_cursor view (position_of view e)).
    match goal with
    | |- context [update_statusbar ?v ?s] =>
        destruct (update_statusbar_returns v s) as (status & -> & Hlen)
    end.
    exists e, status. split; [done|]. split; [done|].
    unfold after_calls, jump_calls. cbn. by rewrite <- !app_assoc.
  - unfold mbind, M_bind, m_bind, emit, get_state, lift.
    cbn [fst snd errors_list].
    by rewrite (py_index_out_of_range (errors_list st) item Hrange).
Qed.

(* ===================================================================== *)
(** ** The listener: the line under the cursor, and what events change *)
(* ===================================================================== *)

(** X13 (the line under the cursor).  After [on_selection_modified] on a
    view that is not scratch, [last_selected_line] is the row of the
    cursor, or [None] when the view has no selection; the same event
    again makes no call and changes nothing; and an event that leaves the
    cursor on the row remembered changes nothing either. *)
Theorem selection_modified_tracks_line view st :
  view_is_scratch view = false →
  let st' := (on_selection_modified view st).1 in
  last_selected_line st' = get_current_line view
  ∧ on_selection_modified view st' = (st', Ok tt)
  ∧ (last_selected_line st = get_current_line view → st' = st).
Proof.
  intros Hscratch st'.
  assert (last_selected_line st' = get_current_line view) as Hlast.
  { unfold st', on_selection_modified. rewrite Hscratch.
    unfold mbind, M_bind, m_bind, get_state, set_last_selected_line,
      clear_statusbar, emit. cbn [fst snd].
    destruct (get_current_line view) as [row|].
    - case_bool_decide as Hsame; cbn [negb fst snd]; [done|].
      match goal with
      | |- context [update_statusbar ?v ?s] =>
          destruct (update_statusbar_returns v s) as (status & -> & _)
      end.
      done.
    - by destruct (last_selected_line st) eqn:Hl. }
  split; [done|]. split.
  - unfold on_selection_modified at 1. rewrite Hscratch.
    unfold mbind, M_bind, m_bind, get_state. cbn [fst snd]. rewrite Hlast.
    destruct (get_current_line view) as [row|]; [|done].
    by rewrite bool_decide_eq_true_2.
  - intros Hsame. unfold st', on_selection_modified. rewrite Hscratch.
    unfold mbind, M_bind, m_bind, get_state. cbn [fst snd]. rewrite Hsame.
    destruct (get_current_line view) as [row|]; [|done].
    by rewrite bool_decide_eq_true_2.
Qed.

Lemma selection_modified_tracks_line_witness :
  let view := cursor_view 7 Sample.lines in
  let st' := (on_selection_modified view Lifecycle.after_lint).1 in
  last_selected_line st' = get_current_line view
  ∧ on_selection_modified view st' = (st', Ok tt)
  ∧ (last_selected_line Lifecycle.after_lint = get_current_line view →
     st' = Lifecycle.after_lint).
Proof.
  intros view.
  apply (selection_modified_tracks_line view Lifecycle.after_lint).
  reflexivity.
Defined.

Global Instance same_errors_preorder : PreOrder same_errors.
Proof.
  split.
  - by intros st.
  - intros st1 st2 st3 [H1 H1'] [H2 H2']. unfold same_errors. split; congruence.
Qed.






Lemma handle_on_scratch host ev st :
  on_scratch ev → handle host ev st = (st, Ok tt).
Proof.
  destruct ev; simpl; try done;
    unfold on_load, on_post_save, on_selection_modified; by intros ->.
Qed.

(** X15 (scratch views).  Loads, saves and selection changes of scratch
    views, and closings of any view, leave the whole state of the plugin
    as it is, in any number and order: no call is made, no lint is asked
    for, no timer is set, and the row remembered for the status bar
    stays. *)
Theorem scratch_views_are_ignored host evs : ∀ st,
  Forall on_scratch evs → handle_all host evs st = st.
Proof.
  induction evs as [|ev evs IH]; intros st Hall; simpl; [done|].
  apply Forall_cons in Hall as [Hev Hall].
  rewrite (handle_on_scratch host ev st Hev). by apply IH.
Qed.

Lemma scratch_views_are_ignored_witness :
  handle_all Lifecycle.host
    [ev_load scratch_view; ev_selection_modified scratch_view;
     ev_post_save scratch_view; ev_close Sample.view]
    Lifecycle.after_lint
  = Lifecycle.after_lint.
Proof.
  apply (scratch_views_are_ignored Lifecycle.host).
  repeat (apply Forall_cons; split; [by simpl|]). apply Forall_nil_2.
Defined.

(* ===================================================================== *)
(** ** [skip_line]: margins and case *)
(* ===================================================================== *)

Section margins.

Variable p : ascii → bool.

Local Abbreviation all_in := (all_in p).

Lemma lstrip_by_all s : all_in s → PyStr.lstrip_by p s = "".
Proof. induction s as [|c s IH]; simpl; [done|]. intros [-> ?]. auto. Qed.

Lemma rstrip_by_all s : all_in s → PyStr.rstrip_by p s = "".
Proof.
  induction s as [|c s IH]; simpl; [done|]. intros [-> Hs]. by rewrite IH.
Qed.

Lemma lstrip_by_app_all before s :
  all_in before → PyStr.lstrip_by p (before +:+ s) = PyStr.lstrip_by p s.
Proof.
  induction before as [|c before IH]; app_simpl; simpl; [done|].
  intros [-> ?]. auto.
Qed.

Lemma rstrip_by_app_all s after :
  all_in after → PyStr.rstrip_by p (s +:+ after) = PyStr.rstrip_by p s.
Proof.
  intros Hall. induction s as [|c s IH]; app_simpl.
  - by apply rstrip_by_all.
  - simpl. by rewrite IH.
Qed.

Lemma strip_by_app_all s after :
  all_in after →
  PyStr.rstrip_by p (PyStr.lstrip_by p (s +:+ after))
  = PyStr.rstrip_by p (PyStr.lstrip_by p s).
Proof.
  intros Hall. induction s as [|c s IH]; app_simpl.
  - by rewrite lstrip_by_all.
  - simpl. destruct (p c) eqn:Hc; [done|].
    change (String c (s +:+ after)) with (String c s +:+ after).
    by apply rstrip_by_app_all.
Qed.

Hypothesis p_lower : ∀ c, p (PyStr.lower_char c) = p c.

Lemma lstrip_by_lower s :
  PyStr.lstrip_by p (PyStr.lower s) = PyStr.lower (PyStr.lstrip_by p s).
Proof.
  induction s as [|c s IH]; simpl; [done|].
  rewrite p_lower. by destruct (p c).
Qed.

Lemma rstrip_by_lower s :
  PyStr.rstrip_by p (PyStr.lower s) = PyStr.lower (PyStr.rstrip_by p s).
Proof.
  induction s as [|c s IH]; simpl; [done|].
  rewrite IH, p_lower.
  destruct (PyStr.rstrip_by p s); simpl; [by destruct (p c) | done].
Qed.

End margins.

Lemma isspace_lower c : PyStr.isspace (PyStr.lower_char c) = PyStr.isspace c.
Proof. by destruct c as [[] [] [] [] [] [] [] []]. Qed.

Lemma strip_lower s :
  PyStr.strip (PyStr.lower s) = PyStr.lower (PyStr.strip s).
Proof.
  unfold PyStr.strip, PyStr.rstrip, PyStr.lstrip.
  rewrite lstrip_by_lower, rstrip_by_lower; auto using isspace_lower.
Qed.

(** X16 (margins and case of a noqa line).  [skip_line] gives the same
    answer on two lines that differ only in the case of their letters and
    in the whitespace before and after them: the comment is found in any
    mix of cases and with anything blank around the line. *)
Theorem skip_line_margin_and_case line line' before after :
  all_in PyStr.isspace before → all_in PyStr.isspace after →
  PyStr.lower line' = PyStr.lower line →
  skip_line (before +:+ line' +:+ after) = skip_line line.
Proof.
  intros Hb Ha Hcase. unfold skip_line, PyStr.strip, PyStr.rstrip, PyStr.lstrip.
  rewrite lstrip_by_app_all, strip_by_app_all by done.
  change (PyStr.rstrip_by PyStr.isspace (PyStr.lstrip_by PyStr.isspace ?s))
    with (PyStr.strip s).
  by rewrite <- !strip_lower, Hcase.
Qed.

Lemma skip_line_margin_and_case_witness :
  skip_line ("  " +:+ "x = 1  # NoQA" +:+ " ") = skip_line "x = 1  # noqa".
Proof.
  apply (skip_line_margin_and_case "x = 1  # noqa" "x = 1  # NoQA" "  " " ");
    [by simpl | by simpl | reflexivity].
Defined.

(* ===================================================================== *)
(** ** A run in which the engine finds nothing *)
(* ===================================================================== *)

Lemma after_calls_nil st : after_calls [] st = st.
Proof. destruct st. unfold after_calls. simpl. by rewrite app_nil_r. Qed.

(** X17 (a clean run).  When the engine reports no error, the run ends
    with the dialog [Flake8 Lint: SUCCESS] if [report_on_success] is
    true and with no call otherwise; it shows no panel and no region.
    The errors an earlier run recorded for the view are still in
    [ERRORS_IN_VIEWS], so that the next [update_statusbar] with the
    cursor on a row that had errors sets the status to their texts
    again. *)
Theorem clean_run_keeps_old_status
    host view st s1 s2 filename view_settings :
  run_prepare host view st = (s1, Ok (Some (filename, view_settings))) →
  run_engine host filename view_settings s1 = (s2, Ok tt) →
  errors_list s2 = [] →
  let st' := (run host view st).1 in
  run host view st
  = (after_calls
       (if Py.truthy (dict_get_or (settings host) "report_on_success"
                                  (PBool false))
        then [message_dialog "Flake8 Lint: SUCCESS"] else []) s2,
     Ok tt)
  ∧ ∀ view' d row texts,
      view_id view' = view_id view →
      ERRORS_IN_VIEWS st !! view_id view = Some d →
      get_current_line view' = Some row →
      d !! row = Some texts →
      update_statusbar view' st'
      = (after_calls
           [set_status (view_id view') "flake8-tip"
                       ("flake8: " +:+ PyStr.join " / " texts)] st',
         Ok tt).
Proof.
  intros Hprep Heng Hnone st'.
  assert (run host view st
          = (after_calls
               (if Py.truthy (dict_get_or (settings host) "report_on_success"
                                          (PBool false))
                then [message_dialog "Flake8 Lint: SUCCESS"] else []) s2,
             Ok tt)) as Hrun.
  { unfold run. rewrite (bind_ok _ _ _ _ _ Hprep), (bind_ok _ _ _ _ _ Heng).
    unfold run_report, mbind, M_bind, m_bind, get_state. cbn [fst snd].
    rewrite bool_decide_eq_true_2 by done. cbn [negb].
    destruct (Py.truthy _); [done|]. by rewrite after_calls_nil. }
  split; [done|].
  intros view' d row texts Hid Hd Hrow Htexts.
  assert (ERRORS_IN_VIEWS st' = ERRORS_IN_VIEWS st) as Hsame.
  { unfold st'. rewrite Hrun. cbn [fst after_calls ERRORS_IN_VIEWS].
    pose proof (run_prepare_same_views host view st) as H1.
    pose proof (run_engine_same_views host filename view_settings s1) as H2.
    rewrite Hprep in H1. rewrite Heng in H2. unfold same_views in *.
    simpl in *. congruence. }
  erewrite update_statusbar_lookup; [|by rewrite Hid, Hsame|done].
  by rewrite Htexts.
Qed.

Lemma clean_run_keeps_old_status_witness :
  let host := Buffer.host {[ "report_on_success" := PBool true ]} [] in
  let st := Lifecycle.after_lint in
  let s1 := (run_prepare host Sample.view st).1 in
  let s2 := (run_engine host "/a/b.py" ∅ s1).1 in
  let st' := (run host Sample.view st).1 in
  run host Sample.view st
  = (after_calls
       (if Py.truthy (dict_get_or (settings host) "report_on_success"
                                  (PBool false))
        then [message_dialog "Flake8 Lint: SUCCESS"] else []) s2,
     Ok tt)
  ∧ ∀ view' d row texts,
      view_id view' = view_id Sample.view →
      ERRORS_IN_VIEWS st !! view_id Sample.view = Some d →
      get_current_line view' = Some row →
      d !! row = Some texts →
      update_statusbar view' st'
      = (after_calls
           [set_status (view_id view') "flake8-tip"
                       ("flake8: " +:+ PyStr.join " / " texts)] st',
         Ok tt).
Proof.
  intros host st s1 s2.
  assert (run_prepare host Sample.view st = (s1, Ok (Some ("/a/b.py", ∅))))
    as Hprep by (vm_compute; reflexivity).
  assert (run_engine host "/a/b.py" ∅ s1 = (s2, Ok tt))
    as Heng by (vm_compute; reflexivity).
  assert (errors_list s2 = []) as Hnone by (vm_compute; reflexivity).
  exact (clean_run_keeps_old_status host Sample.view st s1 s2 "/a/b.py" ∅
           Hprep Heng Hnone).
Defined.
